(** * Data Analysis Studio (Analysis.py): a shallow embedding of the handlers
    of [DataAnalysisStudio] and the properties of its data-summary contract.

    The controller owns one resident dataset, one file path and one figure;
    every handler is a callback that reads and writes that state and shows
    modal dialogs.  Handlers are embedded as computations in a small
    state/exception/output monad; calls into pandas, numpy and matplotlib
    whose results the handlers only pass along are fields of interface
    classes, so every theorem holds for every implementation of them. *)

From Stdlib Require Import String Ascii List ZArith QArith Qabs Bool Arith Lia.
From Stdlib Require Import Permutation Sorted DecimalString.
From Stdlib Require Reals Qreals Lra Psatz.
Import ListNotations.

Open Scope string_scope.
Open Scope nat_scope.

(** ** Python values *)

Module Py.

(** [prefix p l]: the list [l] starts with [p]. *)
Fixpoint starts_with (p l : list ascii) : bool :=
  match p, l with
  | [], _ => true
  | _ :: _, [] => false
  | a :: p', b :: l' => Ascii.eqb a b && starts_with p' l'
  end.

(** [str.endswith(suffix)]: the last [len(suffix)] characters of [s] are
    [suffix], read from the end of both strings. *)
Definition endswith (s suffix : string) : bool :=
  starts_with (rev (list_ascii_of_string suffix))
              (rev (list_ascii_of_string s)).

(** [str.endswith((a, b))]: a tuple of suffixes. *)
Definition endswith_any (s : string) (suffixes : list string) : bool :=
  existsb (endswith s) suffixes.

(** [os.path.basename]: what follows the last ["/"]. *)
Fixpoint basename_from (acc : string) (s : string) : string :=
  match s with
  | EmptyString => acc
  | String c rest =>
      if Ascii.eqb c "/"%char then basename_from rest rest
      else basename_from acc rest
  end.

Definition basename (s : string) : string := basename_from s s.

(** ['=' * n] and friends. *)
Fixpoint repeat_str (s : string) (n : nat) : string :=
  match n with
  | O => ""
  | S n' => s ++ repeat_str s n'
  end.

(** Truthiness of a string: [if file_path:]. *)
Definition truthy (s : string) : bool := negb (String.eqb s "").

(** A binary64 value.  Every finite double is a rational, and the two float
    operations the program itself performs ([abs] and [>]) are exact, so a
    finite value is kept as that rational. *)
Inductive float64 : Type :=
  | NaN
  | Inf (negative : bool)
  | Fin (q : Q).

(** [abs(x)]. *)
Definition fabs (x : float64) : float64 :=
  match x with
  | NaN => NaN
  | Inf _ => Inf false
  | Fin q => Fin (Qabs q)
  end.

(** [x > y]; every comparison with NaN is [False]. *)
Definition fgtb (x y : float64) : bool :=
  match x, y with
  | NaN, _ | _, NaN => false
  | Inf false, Inf false => false
  | Inf false, _ => true
  | Inf true, _ => false
  | Fin _, Inf true => true
  | Fin _, Inf false => false
  | Fin a, Fin b => negb (Qle_bool a b)
  end.

(** The literal [0.7]: the double nearest to 7/10, [0x1.6666666666666p-1]. *)
Definition lit_0_7 : float64 := Fin (3152519739159347 # 4503599627370496).

(** [isinstance]-tagged scalar held in a table cell; [Null] is [None]/[NaT]
    and [FloatV NaN] the float missing marker. *)
Inductive cell : Type :=
  | Null
  | IntV (z : Z)
  | FloatV (x : float64)
  | StrV (s : string)
  | BoolV (b : bool).

(** [pd.isna(val)]. *)
Definition isna (c : cell) : bool :=
  match c with
  | Null | FloatV NaN => true
  | _ => false
  end.

(** Python [==] on scalars, as the hash table behind [value_counts] sees
    it: numbers compare by value across [int], [float] and [bool]. *)
Definition numeric_value (c : cell) : option Q :=
  match c with
  | IntV z => Some (inject_Z z)
  | BoolV b => Some (if b then 1%Q else 0%Q)
  | FloatV (Fin q) => Some q
  | _ => None
  end.

Definition cell_eqb (a b : cell) : bool :=
  match numeric_value a, numeric_value b with
  | Some p, Some q => Qeq_bool p q
  | None, None =>
      match a, b with
      | Null, Null => true
      | FloatV NaN, FloatV NaN => true
      | FloatV (Inf s), FloatV (Inf t) => Bool.eqb s t
      | StrV s, StrV t => String.eqb s t
      | _, _ => false
      end
  | _, _ => false
  end.

End Py.

(** ** The dataframe library, as far as the handlers depend on it *)

Module Pandas.
Import Py.

(** Storage dtypes of a column. *)
Inductive dtype : Type :=
  | int8 | int16 | int32 | int64
  | uint8 | uint16 | uint32 | uint64
  | float16 | float32 | float64_
  | complex128
  | bool_
  | object_
  | category
  | datetime64.

(** [str(dtype)], which is also what [dtype == 'name'] compares with. *)
Definition dtype_name (d : dtype) : string :=
  match d with
  | int8 => "int8" | int16 => "int16" | int32 => "int32" | int64 => "int64"
  | uint8 => "uint8" | uint16 => "uint16" | uint32 => "uint32"
  | uint64 => "uint64"
  | float16 => "float16" | float32 => "float32" | float64_ => "float64"
  | complex128 => "complex128"
  | bool_ => "bool"
  | object_ => "object"
  | category => "category"
  | datetime64 => "datetime64[ns]"
  end.

(** [dtype in ['a', 'b']]: list membership by [==] against dtype names. *)
Definition dtype_in (d : dtype) (names : list string) : bool :=
  existsb (String.eqb (dtype_name d)) names.

(** Subclasses of [np.number]: integers, floats and complex. *)
Definition is_number (d : dtype) : bool :=
  match d with
  | bool_ | object_ | category | datetime64 => false
  | _ => true
  end.

Record Series : Type := mkSeries {
  s_dtype : dtype;
  s_values : list cell
}.

(** A table: the index length and the ordered, named columns.  Labels
    are strings, as a file with a header row gives them, and cells are
    scalars; what a file can hold beyond that reaches the handlers
    through [display_failure] below. *)
Record DataFrame : Type := mkDataFrame {
  index_len : nat;
  columns : list (string * Series)
}.

(** [df.columns] as a list of labels. *)
Definition column_names (d : DataFrame) : list string :=
  map fst (columns d).

(** [df.shape]. *)
Definition shape (d : DataFrame) : nat * nat :=
  (index_len d, List.length (columns d)).

(** [df.empty]: some axis has length zero. *)
Definition empty (d : DataFrame) : bool :=
  (index_len d =? 0) || (List.length (columns d) =? 0).

(** [column in df.columns]. *)
Definition has_column (d : DataFrame) (name : string) : bool :=
  existsb (String.eqb name) (column_names d).

(** [df[column]]; [None] stands for the [KeyError]. *)
Fixpoint getitem_cols (cs : list (string * Series)) (name : string)
  : option Series :=
  match cs with
  | [] => None
  | (n, s) :: rest =>
      if String.eqb n name then Some s else getitem_cols rest name
  end.

Definition getitem (d : DataFrame) (name : string) : option Series :=
  getitem_cols (columns d) name.

(** [df.select_dtypes(include=[np.number])]. *)
Definition select_number (d : DataFrame) : DataFrame :=
  mkDataFrame (index_len d)
    (filter (fun c => is_number (s_dtype (snd c))) (columns d)).

(** [df.select_dtypes(include=['object'])]. *)
Definition select_object (d : DataFrame) : DataFrame :=
  mkDataFrame (index_len d)
    (filter (fun c => match s_dtype (snd c) with
                      | object_ => true | _ => false end) (columns d)).

(** [series.dropna()]. *)
Definition dropna (s : Series) : Series :=
  mkSeries (s_dtype s) (filter (fun c => negb (isna c)) (s_values s)).

(** [len(series)], [series.count()], [series.isnull().sum()]. *)
Definition len (s : Series) : nat := List.length (s_values s).
Definition count (s : Series) : nat := len (dropna s).
Definition isnull_sum (s : Series) : nat :=
  List.length (filter isna (s_values s)).

(** The hash-table pass of [value_counts]: each value bumps the counter of
    its key, new keys are appended in order of first occurrence. *)
Fixpoint bump (v : cell) (tbl : list (cell * nat)) : list (cell * nat) :=
  match tbl with
  | [] => [(v, 1)]
  | (k, c) :: rest =>
      if cell_eqb k v then (k, S c) :: rest else (k, c) :: bump v rest
  end.

Definition tally (vals : list cell) : list (cell * nat) :=
  fold_left (fun tbl v => bump v tbl) vals [].

(** The order [value_counts] leaves its rows in. *)
Definition count_ge (a b : cell * nat) : Prop := snd b <= snd a.

(** [sort_values(ascending=False)] inside [value_counts]: the rows by
    decreasing count.  pandas sorts with an unstable algorithm, so the
    order among rows of equal count is left to the implementation; the
    handlers rely on no more than these two laws. *)
Class SortValues : Type := {
  sort_values : list (cell * nat) -> list (cell * nat);
  sort_values_perm : forall l, Permutation (sort_values l) l;
  sort_values_sorted : forall l, StronglySorted count_ge (sort_values l)
}.

(** One such order, the one pandas gives a table of at most 16 rows:
    sort by count, largest first; ties keep their table order. *)
Fixpoint insert_desc (x : cell * nat) (l : list (cell * nat))
  : list (cell * nat) :=
  match l with
  | [] => [x]
  | y :: rest =>
      if snd y <=? snd x then x :: l else y :: insert_desc x rest
  end.

Fixpoint sort_desc (l : list (cell * nat)) : list (cell * nat) :=
  match l with
  | [] => []
  | x :: rest => insert_desc x (sort_desc rest)
  end.

(** [series.value_counts()]: missing values dropped, counts descending.
    (For a [category] column pandas adds a zero row for each category
    that does not occur; the facts about row counts below are stated for
    [object] columns, the only non-numeric kind the readers produce.) *)
Definition value_counts {sorting : SortValues} (s : Series)
  : list (cell * nat) :=
  sort_values (tally (s_values (dropna s))).

(** [.head(n)]. *)
Definition head {A : Type} (n : nat) (l : list A) : list A := firstn n l.

(** [series.nunique()]. *)
Definition nunique (s : Series) : nat :=
  List.length (tally (s_values (dropna s))).

(** Number of cells of [vals] equal to [v]. *)
Definition occurrences (v : cell) (vals : list cell) : nat :=
  List.length (filter (cell_eqb v) vals).

(** [counts.sum()] of a frequency table. *)
Definition counts_sum (tbl : list (cell * nat)) : nat :=
  list_sum (map snd tbl).

(** The counter a value is filed under, 0 when it has none. *)
Fixpoint lookup_count (v : cell) (tbl : list (cell * nat)) : nat :=
  match tbl with
  | [] => 0
  | (k, c) :: rest => if cell_eqb k v then c else lookup_count v rest
  end.

(** No two keys of the table are equal. *)
Fixpoint distinct_keys (tbl : list (cell * nat)) : Prop :=
  match tbl with
  | [] => True
  | (k, _) :: rest =>
      Forall (fun b => cell_eqb k (fst b) = false) rest /\ distinct_keys rest
  end.

End Pandas.

(** The stable sort is one of the orders [value_counts] may give: it
    rearranges the rows and leaves them descending by count. *)
Definition stable_sorting : Pandas.SortValues.
Proof.
  refine {| Pandas.sort_values := Pandas.sort_desc |}.
  - assert (P : forall x l,
               Permutation (Pandas.insert_desc x l) (x :: l)).
    { intros x l; induction l as [| y rest IH]; simpl; [reflexivity |].
      destruct (snd y <=? snd x); [reflexivity |].
      rewrite IH; apply perm_swap. }
    intros l; induction l as [| x rest IH]; simpl; [reflexivity |].
    rewrite P; constructor; exact IH.
  - assert (S : forall x l,
               Sorted Pandas.count_ge l ->
               Sorted Pandas.count_ge (Pandas.insert_desc x l)).
    { intros x l; induction l as [| y rest IH]; simpl; intros Hs.
      - repeat constructor.
      - destruct (snd y <=? snd x) eqn:E.
        + constructor; [exact Hs |].
          constructor; unfold Pandas.count_ge; apply Nat.leb_le; exact E.
        + apply Nat.leb_gt in E.
          inversion Hs as [| ? ? Hrest Hhd]; subst.
          constructor; [apply IH; exact Hrest |].
          destruct rest as [| z rest']; simpl.
          * constructor; unfold Pandas.count_ge; lia.
          * destruct (snd z <=? snd x).
            -- constructor; unfold Pandas.count_ge; lia.
            -- inversion Hhd; subst; constructor; assumption. }
    intros l; apply Sorted_StronglySorted.
    + intros a b c; unfold Pandas.count_ge; lia.
    + induction l as [| x rest IH]; simpl; [constructor |].
      apply S; exact IH.
Defined.

(** ** Array operations of numpy used by the sample generator *)

Module Np.
Import Py.

Definition int64_min : Z := (-9223372036854775808)%Z.
Definition int64_max : Z := 9223372036854775807%Z.

(** [x.astype(int)]: truncation toward zero; a value that is not finite
    or whose truncation does not fit 64 bits becomes the smallest 64-bit
    integer. *)
Definition astype_int (x : float64) : Z :=
  match x with
  | Fin q =>
      let t := Z.quot (Qnum q) (Zpos (Qden q)) in
      if ((int64_min <=? t) && (t <=? int64_max))%Z then t else int64_min
  | _ => int64_min
  end.

(** [np.clip(a, lo, hi)] is [minimum(maximum(a, lo), hi)], elementwise. *)
Definition clip_int (lo hi : Z) (z : Z) : Z := Z.min (Z.max z lo) hi.

Definition clip_float (lo hi : Q) (x : float64) : float64 :=
  match x with
  | NaN => NaN
  | Inf true => Fin lo
  | Inf false => Fin hi
  | Fin q =>
      let m := if Qle_bool lo q then q else lo in
      Fin (if Qle_bool m hi then m else hi)
  end.

End Np.

(** ** Interfaces of the libraries the handlers call *)

(** What a call that may raise gives back: [Raise e] carries [str(e)]. *)
Inductive outcome (A : Type) : Type :=
  | Ok (a : A)
  | Raise (e : string).
Arguments Ok {A} a.
Arguments Raise {A} e.

(** [numeric_df.corr()]: a square table over the frame's own columns. *)
Record CorrMatrix : Type := mkCorr {
  cm_columns : list string;
  cm_iloc : nat -> nat -> Py.float64
}.

(** The state of numpy's global legacy generator
    ([np.random.get_state()]). *)
Record rng_state : Type := mkRng {
  mt_key : list Z;
  mt_pos : nat;
  has_gauss : bool;
  cached_gaussian : Py.float64
}.

(** [pd.read_csv], [pd.read_excel], [pd.read_json] on a path.

    A table read from a file can hold what [Pandas.DataFrame] does not
    keep: a list in a cell of an object column (nested JSON) or a label
    that repeats.  The data view is then the one place where the handlers
    touch such a cell: [pd.isna(df.iloc[i][col])] has no truth value there
    and raises.  [display_failure path] is the first row of the table
    read from [path] at which this happens, with the text of the
    exception; it is [None] for a table of scalars under distinct
    labels. *)
Class Readers : Type := {
  read_csv : string -> outcome Pandas.DataFrame;
  read_excel : string -> outcome Pandas.DataFrame;
  read_json : string -> outcome Pandas.DataFrame;
  display_failure : string -> option (nat * string)
}.

(** Reductions of pandas over a column or a table, and the float
    arithmetic applied to their results. *)
Class Stats : Type := {
  df_corr : Pandas.DataFrame -> nat -> nat -> Py.float64;
  series_corr : Pandas.Series -> Pandas.Series -> Py.float64;
  mean : Pandas.Series -> Py.float64;
  median : Pandas.Series -> Py.float64;
  std : Pandas.Series -> Py.float64;
  smin : Pandas.Series -> Py.float64;
  smax : Pandas.Series -> Py.float64;
  skew : Pandas.Series -> Py.float64;
  kurtosis : Pandas.Series -> Py.float64;
  quantile : Pandas.Series -> Q -> Py.float64;
  mode : Pandas.Series -> list Py.cell;
  iloc_at : Pandas.DataFrame -> nat -> string -> Py.cell;
  fsub : Py.float64 -> Py.float64 -> Py.float64;
  percent : nat -> nat -> Py.float64
}.

(** String conversions: format specifications and [to_string]. *)
Class Fmt : Type := {
  fmt_f : nat -> Py.float64 -> string;
  fmt_int : nat -> string;
  fmt_comma : nat -> string;
  str_cell : Py.cell -> string;
  corr_to_string : CorrMatrix -> string;
  counts_to_string : list (Py.cell * nat) -> string;
  data_info : Pandas.DataFrame -> outcome (list string);
  describe_to_string : Pandas.DataFrame -> outcome string;
  additional_statistics : Pandas.DataFrame -> outcome (list string)
}.

(** Draws of [np.random]: each consumes and returns the generator state. *)
Class NumpyRandom : Type := {
  seed : Z -> rng_state;
  normal : Q -> Q -> nat -> rng_state -> list Py.float64 * rng_state;
  uniform : Q -> Q -> nat -> rng_state -> list Py.float64 * rng_state;
  choice : list string -> nat -> rng_state -> list string * rng_state
}.

(** ** Application state *)

(** What one axes of the figure shows. *)
Inductive axes : Type :=
  | EmptyAxes
  | WelcomeAxes
  | BarAxes (title : string) (ticklabels : list Py.cell)
            (heights : list nat) (bar_texts : list string)
  | HistAxes (title xlabel : string) (data : Pandas.Series) (bins : nat)
             (stats_text : list string)
  | HeatmapAxes (title : string) (m : CorrMatrix)
  | ColorbarAxes
  | ScatterAxes (title : string) (x y : Pandas.Series)
                (corr_text : string).

(** Drawing calls that can refuse their data.  [hist] is
    [ax.hist(data, bins=...)], which raises when numpy cannot bin the
    values (a range that is not finite, booleans); [heatmap] is
    [sns.heatmap(corr_matrix, ...)]. *)
Class Matplotlib : Type := {
  hist : Pandas.Series -> nat -> outcome unit;
  heatmap : CorrMatrix -> outcome unit
}.

(** [fig.savefig(path, dpi=300, ...)] writing the figure to a file. *)
Class Files : Type := {
  savefig : list axes -> string -> outcome unit
}.

Inductive status_type : Type := Info | Success | Warning | Error.

Inductive tab : Type := PlotTab | DataTab | ResultsTab.

(** The [ttk.Treeview] of the data view. *)
Record treeview : Type := mkTree {
  tv_columns : list string;
  tv_rows : list (list string)
}.

(** The column pickers of an open scatter dialog. *)
Record scatter_dialog : Type := mkScatterDialog {
  sd_values : list string;
  x_var : string;
  y_var : string
}.

(** A modal [messagebox] shown to the user. *)
Inductive dialog : Type :=
  | ShowWarning (title message : string)
  | ShowError (title message : string)
  | ShowInfo (title message : string).

(** The fields of [DataAnalysisStudio] that handlers read or write,
    together with numpy's global generator. *)
Record AppState : Type := mkState {
  df : option Pandas.DataFrame;
  current_file : option string;
  fig : list axes;
  data_tree : treeview;
  column_combo : list string;
  column_var : string;
  data_info_text : list string;
  results_text : list string;
  right_notebook : tab;
  status_label : string * status_type;
  data_status_label : string;
  toplevels : list scatter_dialog;
  np_random : rng_state
}.

Definition set_df v (s : AppState) : AppState :=
  mkState v (current_file s) (fig s) (data_tree s) (column_combo s)
    (column_var s) (data_info_text s) (results_text s) (right_notebook s)
    (status_label s) (data_status_label s) (toplevels s) (np_random s).
Definition set_current_file v (s : AppState) : AppState :=
  mkState (df s) v (fig s) (data_tree s) (column_combo s)
    (column_var s) (data_info_text s) (results_text s) (right_notebook s)
    (status_label s) (data_status_label s) (toplevels s) (np_random s).
Definition set_fig v (s : AppState) : AppState :=
  mkState (df s) (current_file s) v (data_tree s) (column_combo s)
    (column_var s) (data_info_text s) (results_text s) (right_notebook s)
    (status_label s) (data_status_label s) (toplevels s) (np_random s).
Definition set_data_tree v (s : AppState) : AppState :=
  mkState (df s) (current_file s) (fig s) v (column_combo s)
    (column_var s) (data_info_text s) (results_text s) (right_notebook s)
    (status_label s) (data_status_label s) (toplevels s) (np_random s).
Definition set_column_combo v (s : AppState) : AppState :=
  mkState (df s) (current_file s) (fig s) (data_tree s) v
    (column_var s) (data_info_text s) (results_text s) (right_notebook s)
    (status_label s) (data_status_label s) (toplevels s) (np_random s).
Definition set_column_var v (s : AppState) : AppState :=
  mkState (df s) (current_file s) (fig s) (data_tree s) (column_combo s)
    v (data_info_text s) (results_text s) (right_notebook s)
    (status_label s) (data_status_label s) (toplevels s) (np_random s).
Definition set_data_info_text v (s : AppState) : AppState :=
  mkState (df s) (current_file s) (fig s) (data_tree s) (column_combo s)
    (column_var s) v (results_text s) (right_notebook s)
    (status_label s) (data_status_label s) (toplevels s) (np_random s).
Definition set_results_text v (s : AppState) : AppState :=
  mkState (df s) (current_file s) (fig s) (data_tree s) (column_combo s)
    (column_var s) (data_info_text s) v (right_notebook s)
    (status_label s) (data_status_label s) (toplevels s) (np_random s).
Definition set_right_notebook v (s : AppState) : AppState :=
  mkState (df s) (current_file s) (fig s) (data_tree s) (column_combo s)
    (column_var s) (data_info_text s) (results_text s) v
    (status_label s) (data_status_label s) (toplevels s) (np_random s).
Definition set_status_label v (s : AppState) : AppState :=
  mkState (df s) (current_file s) (fig s) (data_tree s) (column_combo s)
    (column_var s) (data_info_text s) (results_text s) (right_notebook s)
    v (data_status_label s) (toplevels s) (np_random s).
Definition set_data_status_label v (s : AppState) : AppState :=
  mkState (df s) (current_file s) (fig s) (data_tree s) (column_combo s)
    (column_var s) (data_info_text s) (results_text s) (right_notebook s)
    (status_label s) v (toplevels s) (np_random s).
Definition set_toplevels v (s : AppState) : AppState :=
  mkState (df s) (current_file s) (fig s) (data_tree s) (column_combo s)
    (column_var s) (data_info_text s) (results_text s) (right_notebook s)
    (status_label s) (data_status_label s) v (np_random s).
Definition set_np_random v (s : AppState) : AppState :=
  mkState (df s) (current_file s) (fig s) (data_tree s) (column_combo s)
    (column_var s) (data_info_text s) (results_text s) (right_notebook s)
    (status_label s) (data_status_label s) (toplevels s) v.

(** ** The handler monad: state, exceptions, and the dialogs shown *)

Definition M (A : Type) : Type :=
  AppState -> outcome A * AppState * list dialog.

Definition ret {A : Type} (a : A) : M A := fun s => (Ok a, s, []).

Definition bind {A B : Type} (m : M A) (k : A -> M B) : M B :=
  fun s =>
    match m s with
    | (Ok a, s1, out1) =>
        match k a s1 with
        | (r, s2, out2) => (r, s2, (out1 ++ out2)%list)
        end
    | (Raise e, s1, out1) => (Raise e, s1, out1)
    end.

(** [try: body except Exception as e: handler(str(e))]. *)
Definition try_except {A : Type} (body : M A) (handler : string -> M A)
  : M A :=
  fun s =>
    match body s with
    | (Ok a, s1, out1) => (Ok a, s1, out1)
    | (Raise e, s1, out1) =>
        match handler e s1 with
        | (r, s2, out2) => (r, s2, (out1 ++ out2)%list)
        end
    end.

Definition gets {A : Type} (f : AppState -> A) : M A :=
  fun s => (Ok (f s), s, []).

Definition modify (f : AppState -> AppState) : M unit :=
  fun s => (Ok tt, f s, []).

Definition lift {A : Type} (r : outcome A) : M A := fun s => (r, s, []).

Definition show (d : dialog) : M unit := fun s => (Ok tt, s, [d]).

(** The state a handler leaves, the dialogs it showed, and its result. *)
Definition exec {A : Type} (m : M A) (s : AppState) : AppState :=
  snd (fst (m s)).
Definition shown {A : Type} (m : M A) (s : AppState) : list dialog :=
  snd (m s).
Definition result {A : Type} (m : M A) (s : AppState) : outcome A :=
  fst (fst (m s)).

(** [m] leaves the component [f] of the state as it found it. *)
Definition keeps {A B : Type} (f : AppState -> B) (m : M A) : Prop :=
  forall s, f (exec m s) = f s.

(** [m] returns normally from every state. *)
Definition never_raises {A : Type} (m : M A) : Prop :=
  forall s, exists a, result m s = Ok a.

Declare Scope handler_scope.
Delimit Scope handler_scope with handler.
Notation "x <- m ;; k" := (bind m (fun x => k))
  (at level 100, m at next level, right associativity) : handler_scope.
Notation "m ;; k" := (bind m (fun _ => k))
  (at level 100, right associativity) : handler_scope.
Open Scope handler_scope.

(** ** The handlers of [DataAnalysisStudio] *)

Section Studio.

Context {readers : Readers} {sorting : Pandas.SortValues} {stats : Stats}
        {fmt : Fmt} {random : NumpyRandom} {plots : Matplotlib}
        {files : Files}.

Import Py Pandas.

Definition update_status (message : string) (kind : status_type) : M unit :=
  modify (set_status_label (message, kind)).

Definition update_data_status : M unit :=
  d <- gets df ;;
  match d with
  | Some d =>
      let '(rows, cols) := shape d in
      f <- gets current_file ;;
      modify (set_data_status_label
        ("📊 " ++ fmt_comma rows ++ " rows × " ++ fmt_int cols
         ++ " columns | File: "
         ++ match f with
            | Some p => if truthy p then basename p else "Sample Data"
            | None => "Sample Data"
            end))
  | None => modify (set_data_status_label "No data loaded")
  end.

(** One cell of the data view. *)
Definition display_value (val : cell) : string :=
  if isna val then "NaN"
  else match val with
       | FloatV x => fmt_f 3 x
       | _ => str_cell val
       end.

(** The row at which the loop of [update_data_display] raises, if any:
    the first failing row of the file the table came from, when it is
    among the rows shown and the table has a column to read a cell of.
    The sample table is built from arrays of scalars. *)
Definition display_stop (file : option string) (d : DataFrame)
  : option (nat * string) :=
  match file with
  | Some path =>
      match display_failure path with
      | Some (k, e) =>
          if (k <? Nat.min 100 (index_len d))
             && negb (List.length (columns d) =? 0)
          then Some (k, e) else None
      | None => None
      end
  | None => None
  end.

(** The rows [0 .. n-1] of the data view. *)
Definition view_rows (d : DataFrame) (n : nat) : list (list string) :=
  map (fun i => map (fun col => display_value (iloc_at d i col))
                    (column_names d))
      (seq 0 n).

Definition update_data_display : M unit :=
  d <- gets df ;;
  match d with
  | None => ret tt
  | Some d =>
      let columns := column_names d in
      let display_rows := Nat.min 100 (index_len d) in
      file <- gets current_file ;;
      match display_stop file d with
      | Some (k, e) =>
          modify (set_data_tree (mkTree columns (view_rows d k))) ;;
          lift (Raise e)
      | None =>
          modify (set_data_tree
                    (mkTree columns (view_rows d display_rows))) ;;
          update_data_status ;;
          if 100 <? index_len d then
            modify (fun s =>
              set_data_tree
                (mkTree columns
                   (List.app (tv_rows (data_tree s))
                      [map (fun _ => "...") columns;
                       map (fun i =>
                              if i =? 0
                              then "Showing first 100 of "
                                   ++ fmt_int (index_len d) ++ " rows"
                              else "")
                           (seq 0 (List.length columns))])) s)
          else ret tt
      end
  end.

Definition update_column_list : M unit :=
  d <- gets df ;;
  match d with
  | Some d =>
      let columns := column_names d in
      modify (set_column_combo columns) ;;
      match columns with
      | c :: _ => modify (set_column_var c)
      | [] => ret tt
      end
  | None => ret tt
  end.

Definition show_data_info : M unit :=
  d <- gets df ;;
  match d with
  | None => modify (set_data_info_text ["No data loaded."])
  | Some d =>
      try_except
        (info_text <- lift (data_info d) ;;
         modify (set_data_info_text info_text))
        (fun e => update_status ("❌ Error showing data info: " ++ e) Error)
  end.

(** The if-chain of [load_data] on the file extension; each branch assigns
    the reader's table to [self.df]. *)
Definition read_by_extension (file_path : string) : outcome DataFrame :=
  if endswith file_path ".csv" then read_csv file_path
  else if endswith_any file_path [".xlsx"; ".xls"] then read_excel file_path
  else if endswith file_path ".json" then read_json file_path
  else read_csv file_path.

(** [load_data]; [file_path] is the answer of the file dialog, empty when
    the dialog is cancelled. *)
Definition load_data (file_path : string) : M unit :=
  if truthy file_path then
    try_except
      (update_status "📂 Loading data..." Info ;;
       d <- lift (read_by_extension file_path) ;;
       modify (set_df (Some d)) ;;
       modify (set_current_file (Some file_path)) ;;
       update_data_display ;;
       update_column_list ;;
       show_data_info ;;
       update_status "✅ Data loaded successfully!" Success)
      (fun e =>
         show (ShowError "Error" ("Failed to load data:
" ++ e)) ;;
         update_status "❌ Failed to load data" Error)
  else ret tt.

(** A draw from numpy's global generator. *)
Definition draw {A : Type} (f : rng_state -> A * rng_state) : M A :=
  fun s =>
    (Ok (fst (f (np_random s))), set_np_random (snd (f (np_random s))) s, []).

Definition int_column (l : list Z) : Series := mkSeries int64 (map IntV l).
Definition float_column (l : list float64) : Series :=
  mkSeries float64_ (map FloatV l).
Definition object_column (l : list string) : Series :=
  mkSeries object_ (map StrV l).

(** The local [n_samples] of [load_sample_data]. *)
Definition n_samples : nat := 1000.

(** [load_sample_data].  Every array is drawn with [size=n_samples], so
    [pd.DataFrame] gets columns of one length; [astype(int)] gives the
    platform integer, taken as [int64]. *)
Definition load_sample_data : M unit :=
  try_except
    (modify (set_np_random (seed 42)) ;;
     age <- draw (normal 35 12 n_samples) ;;
     let age := map Np.astype_int age in
     income <- draw (normal 50000 20000 n_samples) ;;
     education_years <- draw (normal 14 3 n_samples) ;;
     experience <- draw (normal 10 8 n_samples) ;;
     satisfaction <- draw (uniform 1 10 n_samples) ;;
     department <-
       draw (choice ["IT"; "Sales"; "Marketing"; "HR"; "Finance"] n_samples) ;;
     performance_score <- draw (normal 75 15 n_samples) ;;
     city <-
       draw (choice ["New York"; "Los Angeles"; "Chicago"; "Houston";
                     "Phoenix"] n_samples) ;;
     let age := map (Np.clip_int 18 65) age in
     let income := map (Np.clip_float 25000 150000) income in
     let education_years :=
       map Np.astype_int (map (Np.clip_float 8 20) education_years) in
     let experience :=
       map Np.astype_int (map (Np.clip_float 0 40) experience) in
     let performance_score := map (Np.clip_float 0 100) performance_score in
     modify (set_df (Some (mkDataFrame n_samples
       [("Age", int_column age);
        ("Income", float_column income);
        ("Education_Years", int_column education_years);
        ("Experience", int_column experience);
        ("Satisfaction", float_column satisfaction);
        ("Department", object_column department);
        ("Performance_Score", float_column performance_score);
        ("City", object_column city)]))) ;;
     modify (set_current_file None) ;;
     update_data_display ;;
     update_column_list ;;
     show_data_info ;;
     update_status "✅ Sample data loaded!" Success)
    (fun e => show (ShowError "Error" ("Failed to create sample data:
" ++ e))).

(** The table [load_sample_data] builds: its eight draws in program
    order, starting from the state [np.random.seed(42)] installs. *)
Definition sample_draws : DataFrame * rng_state :=
  let g0 := seed 42 in
  let age := normal 35 12 n_samples g0 in
  let income := normal 50000 20000 n_samples (snd age) in
  let education_years := normal 14 3 n_samples (snd income) in
  let experience := normal 10 8 n_samples (snd education_years) in
  let satisfaction := uniform 1 10 n_samples (snd experience) in
  let department :=
    choice ["IT"; "Sales"; "Marketing"; "HR"; "Finance"] n_samples
           (snd satisfaction) in
  let performance_score := normal 75 15 n_samples (snd department) in
  let city :=
    choice ["New York"; "Los Angeles"; "Chicago"; "Houston"; "Phoenix"]
           n_samples
           (snd performance_score) in
  (mkDataFrame n_samples
    [("Age",
      int_column (map (Np.clip_int 18 65) (map Np.astype_int (fst age))));
     ("Income",
      float_column (map (Np.clip_float 25000 150000) (fst income)));
     ("Education_Years",
      int_column (map Np.astype_int
                    (map (Np.clip_float 8 20) (fst education_years))));
     ("Experience",
      int_column (map Np.astype_int
                    (map (Np.clip_float 0 40) (fst experience))));
     ("Satisfaction", float_column (fst satisfaction));
     ("Department", object_column (fst department));
     ("Performance_Score",
      float_column (map (Np.clip_float 0 100) (fst performance_score)));
     ("City", object_column (fst city))],
   snd city).

Definition sample_table : DataFrame := fst sample_draws.
Definition sample_rng : rng_state := snd sample_draws.

(** [show_statistical_summary]; [now] is the formatted clock reading. *)
Definition show_statistical_summary (now : string) : M unit :=
  d <- gets df ;;
  match d with
  | None => show (ShowWarning "Warning" "No data loaded!")
  | Some d =>
      try_except
        (summary <- lift (describe_to_string d) ;;
         modify (set_results_text []) ;;
         additional <- lift (additional_statistics d) ;;
         modify (set_results_text
           (List.app
              ["📊 STATISTICAL SUMMARY"; now; repeat_str "=" 60; "";
               summary; ""; "📈 Additional Statistics:"; repeat_str "=" 30]
              additional)) ;;
         modify (set_right_notebook ResultsTab) ;;
         update_status "✅ Statistical summary generated" Success)
        (fun e => show (ShowError "Error" ("Failed to generate summary:
" ++ e)))
  end.

(** [numeric_df.corr()]. *)
Definition corr (numeric_df : DataFrame) : CorrMatrix :=
  mkCorr (column_names numeric_df) (df_corr numeric_df).

(** The two nested loops collecting the strong correlations. *)
Definition strong_corr (corr_matrix : CorrMatrix)
  : list (string * string * float64) :=
  let n := List.length (cm_columns corr_matrix) in
  flat_map (fun i =>
    flat_map (fun j =>
      let corr_val := cm_iloc corr_matrix i j in
      if fgtb (fabs corr_val) lit_0_7
      then [(nth i (cm_columns corr_matrix) "",
             nth j (cm_columns corr_matrix) "", corr_val)]
      else [])
      (seq (i + 1) (n - (i + 1))))
    (seq 0 n).

(** The index pairs those loops visit and keep. *)
Definition strong_pairs (corr_matrix : CorrMatrix) : list (nat * nat) :=
  let n := List.length (cm_columns corr_matrix) in
  flat_map (fun i =>
    flat_map (fun j =>
      if fgtb (fabs (cm_iloc corr_matrix i j)) lit_0_7
      then [(i, j)] else [])
      (seq (i + 1) (n - (i + 1))))
    (seq 0 n).

(** The report entry of an index pair. *)
Definition entry (corr_matrix : CorrMatrix) (p : nat * nat)
  : string * string * float64 :=
  (nth (fst p) (cm_columns corr_matrix) "",
   nth (snd p) (cm_columns corr_matrix) "",
   cm_iloc corr_matrix (fst p) (snd p)).

(** The lines of the report under the "Strong Correlations" heading. *)
Definition strong_lines (corr_matrix : CorrMatrix) : list string :=
  match strong_corr corr_matrix with
  | [] => ["No strong correlations found (|r| > 0.7)"]
  | found =>
      map (fun '(col1, col2, corr_val) =>
             col1 ++ " ↔ " ++ col2 ++ ": " ++ fmt_f 3 corr_val)
          found
  end.

Definition correlation_analysis (now : string) : M unit :=
  d <- gets df ;;
  match d with
  | None => show (ShowWarning "Warning" "No data loaded!")
  | Some d =>
      try_except
        (let numeric_df := select_number d in
         if empty numeric_df then
           show (ShowWarning "Warning"
                   "No numeric columns for correlation analysis!")
         else
           let corr_matrix := corr numeric_df in
           modify (set_results_text []) ;;
           let result_text :=
             ["🔗 CORRELATION ANALYSIS"; now; repeat_str "=" 50; "";
              "Correlation Matrix:"; corr_to_string corr_matrix; "";
              "🔥 Strong Correlations (|r| > 0.7):"; repeat_str "=" 40] in
           let result_text :=
             List.app result_text
               match strong_corr corr_matrix with
               | [] => ["No strong correlations found (|r| > 0.7)"]
               | found =>
                   map (fun '(col1, col2, corr_val) =>
                          col1 ++ " ↔ " ++ col2 ++ ": " ++ fmt_f 3 corr_val)
                       found
               end in
           modify (set_results_text result_text) ;;
           modify (set_right_notebook ResultsTab) ;;
           update_status "✅ Correlation analysis completed" Success)
        (fun e => show (ShowError "Error" ("Correlation analysis failed:
" ++ e)))
  end.

(** [self.fig.add_subplot(111)] followed by the drawing calls on it. *)
Definition add_subplot (ax : axes) : M unit :=
  modify (fun s => set_fig (List.app (fig s) [ax]) s).

(** [ax] is redrawn: the axes added last now shows [ax]. *)
Definition draw_on_subplot (ax : axes) : M unit :=
  modify (fun s => set_fig (List.app (removelast (fig s)) [ax]) s).

Definition create_welcome_plot : M unit := add_subplot WelcomeAxes.

Definition plot_correlation_heatmap : M unit :=
  d <- gets df ;;
  match d with
  | None => show (ShowWarning "Warning" "No data loaded!")
  | Some d =>
      try_except
        (let numeric_df := select_number d in
         if empty numeric_df then
           show (ShowWarning "Warning"
                   "No numeric columns for correlation heatmap!")
         else
           modify (set_fig []) ;;
           add_subplot EmptyAxes ;;
           let corr_matrix := corr numeric_df in
           lift (heatmap corr_matrix) ;;
           draw_on_subplot
             (HeatmapAxes "🔥 Correlation Matrix Heatmap" corr_matrix) ;;
           add_subplot ColorbarAxes ;;
           modify (set_right_notebook PlotTab) ;;
           update_status "✅ Correlation heatmap created" Success)
        (fun e => show (ShowError "Error" ("Failed to create heatmap:
" ++ e)))
  end.

(** [self.df[column]] inside a handler: a missing label raises. *)
Definition df_getitem (d : DataFrame) (column : string) : M Series :=
  match getitem d column with
  | Some data => ret data
  | None => lift (Raise ("'" ++ column ++ "'"))
  end.

Definition plot_histogram : M unit :=
  d <- gets df ;;
  column <- gets column_var ;;
  match d with
  | None => show (ShowWarning "Warning" "No data or column selected!")
  | Some d =>
      if negb (truthy column) then
        show (ShowWarning "Warning" "No data or column selected!")
      else
        try_except
          (if negb (has_column d column) then
             show (ShowWarning "Warning" "Selected column not found!")
           else
             modify (set_fig []) ;;
             add_subplot EmptyAxes ;;
             series <- df_getitem d column ;;
             (if dtype_in (s_dtype series) ["object"; "category"] then
                let value_counts := head 15 (value_counts series) in
                draw_on_subplot
                  (BarAxes ("📊 Distribution of " ++ column)
                     (map fst value_counts)
                     (map snd value_counts)
                     (map (fun value => fmt_int value)
                          (map snd value_counts)))
              else
                let data := dropna series in
                lift (hist data 30) ;;
                draw_on_subplot
                  (HistAxes ("📊 Histogram of " ++ column) column data 30
                     ["Mean: " ++ fmt_f 2 (mean data);
                      "Std: " ++ fmt_f 2 (std data);
                      "Count: " ++ fmt_int (len data)])) ;;
             modify (set_right_notebook PlotTab) ;;
             update_status ("✅ Histogram created for " ++ column) Success)
          (fun e => show (ShowError "Error" ("Failed to create histogram:
" ++ e)))
  end.

(** [plot_scatter] up to the opening of the column dialog. *)
Definition plot_scatter : M unit :=
  d <- gets df ;;
  match d with
  | None => show (ShowWarning "Warning" "No data loaded!")
  | Some d =>
      let numeric_cols := column_names (select_number d) in
      if List.length numeric_cols <? 2 then
        show (ShowWarning "Warning"
                "Need at least 2 numeric columns for scatter plot!")
      else
        modify (fun s =>
          set_toplevels
            (List.app (toplevels s)
               [mkScatterDialog numeric_cols
                  (nth 0 numeric_cols "")
                  (if 1 <? List.length numeric_cols
                   then nth 1 numeric_cols "" else nth 0 numeric_cols "")])
            s)
  end.

(** Remove the [k]-th element: [dialog.destroy()]. *)
Fixpoint remove_nth {A : Type} (k : nat) (l : list A) : list A :=
  match l, k with
  | [], _ => []
  | _ :: rest, O => rest
  | x :: rest, S k' => x :: remove_nth k' rest
  end.

(** The "Create Plot" button of the [k]-th open scatter dialog. *)
Definition create_scatter (k : nat) : M unit :=
  dlg <- gets (fun s => nth_error (toplevels s) k) ;;
  match dlg with
  | None => ret tt
  | Some dlg =>
      try_except
        (let x_col := x_var dlg in
         let y_col := y_var dlg in
         modify (set_fig []) ;;
         add_subplot EmptyAxes ;;
         d <- gets df ;;
         match d with
         | None => lift (Raise "'NoneType' object is not subscriptable")
         | Some d =>
             xs <- df_getitem d x_col ;;
             ys <- df_getitem d y_col ;;
             draw_on_subplot
               (ScatterAxes ("🌟 Scatter Plot: " ++ x_col ++ " vs " ++ y_col)
                  xs ys
                  ("Correlation: " ++ fmt_f 3 (series_corr xs ys))) ;;
             modify (set_right_notebook PlotTab) ;;
             modify (fun s => set_toplevels (remove_nth k (toplevels s)) s) ;;
             update_status
               ("✅ Scatter plot created: " ++ x_col ++ " vs " ++ y_col)
               Success
         end)
        (fun e => show (ShowError "Error" ("Failed to create scatter plot:
" ++ e)))
  end.

(** [save_plot]; [self.fig] is set once at start-up and is never [None].
    [file_path] is the answer of the save dialog. *)
Definition save_plot (file_path : string) : M unit :=
  if truthy file_path then
    try_except
      (f <- gets fig ;;
       lift (savefig f file_path) ;;
       show (ShowInfo "Success" ("Plot saved successfully!
" ++ file_path)) ;;
       update_status "✅ Plot saved successfully" Success)
      (fun e => show (ShowError "Error" ("Failed to save plot:
" ++ e)))
  else ret tt.

Definition clear_plot : M unit :=
  modify (set_fig []) ;;
  create_welcome_plot ;;
  update_status "🔄 Plot cleared" Info.

(** [data.mode().iloc[0] if len(data.mode()) > 0 else 'N/A']. *)
Definition most_common (data : Series) : string :=
  match mode data with
  | m :: _ => str_cell m
  | [] => "N/A"
  end.

(** The f-string of the numeric branch of [analyze_column]. *)
Definition numeric_analysis (data : Series) : list string :=
  ["📊 NUMERIC ANALYSIS:";
   "Mean: " ++ fmt_f 3 (mean data);
   "Median: " ++ fmt_f 3 (median data);
   "Mode: " ++ most_common data;
   "Standard Deviation: " ++ fmt_f 3 (std data);
   "Min: " ++ fmt_f 3 (smin data);
   "Max: " ++ fmt_f 3 (smax data);
   "Range: " ++ fmt_f 3 (fsub (smax data) (smin data));
   "Skewness: " ++ fmt_f 3 (skew data);
   "Kurtosis: " ++ fmt_f 3 (kurtosis data);
   "";
   "Quartiles:";
   "Q1 (25%): " ++ fmt_f 3 (quantile data (25 # 100));
   "Q2 (50%): " ++ fmt_f 3 (quantile data (50 # 100));
   "Q3 (75%): " ++ fmt_f 3 (quantile data (75 # 100));
   "IQR: " ++ fmt_f 3 (fsub (quantile data (75 # 100))
                            (quantile data (25 # 100)))].

(** The f-string of the other branch. *)
Definition categorical_analysis (data : Series) : list string :=
  let value_counts := head 10 (value_counts data) in
  ["📝 CATEGORICAL ANALYSIS:";
   "Unique Values: " ++ fmt_comma (nunique data);
   "Most Common: " ++ most_common data;
   "";
   "Top 10 Values:";
   counts_to_string value_counts].

(** The lines every column report starts with. *)
Definition column_header (now column : string) (data : Series)
  : list string :=
  ["🔍 COLUMN ANALYSIS: " ++ column;
   now;
   repeat_str "=" 50;
   "";
   "Data Type: " ++ dtype_name (s_dtype data);
   "Non-null Count: " ++ fmt_comma (count data) ++ " / "
     ++ fmt_comma (len data);
   "Missing Values: " ++ fmt_comma (isnull_sum data) ++ " ("
     ++ fmt_f 1 (percent (isnull_sum data) (len data)) ++ "%)";
   ""].

(** [analyze_column]: no [try] here, a missing label escapes the handler. *)
Definition analyze_column (now : string) : M unit :=
  d <- gets df ;;
  column <- gets column_var ;;
  match d with
  | None => show (ShowWarning "Warning" "No data or column selected!")
  | Some d =>
      if negb (truthy column) then
        show (ShowWarning "Warning" "No data or column selected!")
      else
        data <- df_getitem d column ;;
        modify (set_results_text []) ;;
        let result_text := column_header now column data in
        let result_text :=
          List.app result_text
            (if dtype_in (s_dtype data) ["int64"; "float64"]
             then numeric_analysis data
             else categorical_analysis data) in
        modify (set_results_text result_text) ;;
        modify (set_right_notebook ResultsTab) ;;
        update_status ("✅ Analysis completed for " ++ column) Success
  end.

(** Placeholder methods. *)
Definition plot_column : M unit := plot_histogram.
Definition distribution_analysis : M unit := plot_histogram.
Definition coming_soon (message : string) : M unit :=
  show (ShowInfo "Info" message).

(** Every callback bound to a menu entry, a button or a shortcut, with
    the answer of the dialog it opens where it opens one. *)
Inductive handler : Type :=
  | LoadData (file_path : string)
  | LoadSampleData
  | ShowDataInfo
  | ShowStatisticalSummary
  | CorrelationAnalysis
  | PlotCorrelationHeatmap
  | PlotHistogram
  | PlotScatter
  | CreateScatter (k : nat)
  | SavePlot (file_path : string)
  | ClearPlot
  | AnalyzeColumn
  | PlotColumn
  | DistributionAnalysis
  | PlotLine | PlotBoxplot | PlotPie | PlotBar | PlotViolin | PlotPairplot
  | PlotDistribution
  | ShowDataTypes | AnalyzeMissingValues
  | OutlierDetection | FeatureImportance | NormalityTest | PcaAnalysis
  | ClusteringAnalysis | AnovaAnalysis | DataCleaner | FeatureEngineer
  | ShowSettings | SaveAnalysis | ExportReport.

Definition run (now : string) (h : handler) : M unit :=
  match h with
  | LoadData file_path => load_data file_path
  | LoadSampleData => load_sample_data
  | ShowDataInfo => show_data_info
  | ShowStatisticalSummary => show_statistical_summary now
  | CorrelationAnalysis => correlation_analysis now
  | PlotCorrelationHeatmap => plot_correlation_heatmap
  | PlotHistogram => plot_histogram
  | PlotScatter => plot_scatter
  | CreateScatter k => create_scatter k
  | SavePlot file_path => save_plot file_path
  | ClearPlot => clear_plot
  | AnalyzeColumn => analyze_column now
  | PlotColumn => plot_column
  | DistributionAnalysis => distribution_analysis
  | PlotLine => coming_soon "Line plot feature coming soon!"
  | PlotBoxplot => coming_soon "Box plot feature coming soon!"
  | PlotPie => coming_soon "Pie chart feature coming soon!"
  | PlotBar => coming_soon "Bar plot feature coming soon!"
  | PlotViolin => coming_soon "Violin plot feature coming soon!"
  | PlotPairplot => coming_soon "Pair plot feature coming soon!"
  | PlotDistribution => coming_soon "Distribution plot feature coming soon!"
  | ShowDataTypes =>
      coming_soon "Data types feature implemented in data info!"
  | AnalyzeMissingValues => coming_soon "Missing values analysis in data info!"
  | OutlierDetection => coming_soon "Outlier detection feature coming soon!"
  | FeatureImportance => coming_soon "Feature importance coming soon!"
  | NormalityTest => coming_soon "Normality test coming soon!"
  | PcaAnalysis => coming_soon "PCA analysis coming soon!"
  | ClusteringAnalysis => coming_soon "Clustering analysis coming soon!"
  | AnovaAnalysis => coming_soon "ANOVA test coming soon!"
  | DataCleaner => coming_soon "Data cleaner tool coming soon!"
  | FeatureEngineer => coming_soon "Feature engineering coming soon!"
  | ShowSettings => coming_soon "Settings panel coming soon!"
  | SaveAnalysis => coming_soon "Save analysis feature coming soon!"
  | ExportReport => coming_soon "Export report feature coming soon!"
  end.

(** The handlers that test [self.df is None] and warn. *)
Definition guarded (h : handler) : bool :=
  match h with
  | ShowStatisticalSummary | CorrelationAnalysis | PlotCorrelationHeatmap
  | PlotHistogram | PlotScatter | AnalyzeColumn | PlotColumn
  | DistributionAnalysis => true
  | _ => false
  end.

(** The handler shows one warning and changes nothing. *)
Definition warns_without_change (now : string) (h : handler) (s : AppState)
  : Prop :=
  exists title message,
    run now h s = (Ok tt, s, [ShowWarning title message]).

End Studio.

(** The state [__init__] leaves behind: nothing loaded, the welcome plot
    drawn, the first tab selected. *)
Definition initial_state (g : rng_state) : AppState :=
  mkState None None [WelcomeAxes] (mkTree [] []) [] ""
    []
    ["🎉 Welcome to Advanced Data Analysis Studio!"; "";
     "📊 Features Available:";
     "• Load CSV, Excel, and other data formats";
     "• Comprehensive statistical analysis";
     "• Beautiful visualizations with matplotlib/seaborn";
     "• Advanced techniques (PCA, Clustering)";
     "• Export analysis reports"; "";
     "🚀 Getting Started:";
     "1. Click 'Load Data' or try 'Sample Data'";
     "2. Explore your data with Quick Statistics";
     "3. Create visualizations from the Plots tab";
     "4. Run advanced analysis for deeper insights"; "";
     "💡 Tips:";
     "• Use Ctrl+O to quickly load data";
     "• Right-click plots for save options";
     "• Check the Results tab for detailed analysis"; "";
     "Ready to analyze some data? 📈"]
    PlotTab ("🟢 Ready for data analysis", Success) "No data loaded" [] g.

(** ** What the data view shows *)

Section Views.

Context {stats : Stats} {fmt : Fmt}.

Import Py Pandas.

(** The rows [update_data_display] inserts for the table itself. *)
Definition display_rows (d : DataFrame) : list (list string) :=
  map (fun i => map (fun col => display_value (iloc_at d i col))
                    (column_names d))
      (seq 0 (Nat.min 100 (index_len d))).

(** The two rows it adds below them when the table has more than 100. *)
Definition truncation_rows (d : DataFrame) : list (list string) :=
  if 100 <? index_len d then
    [map (fun _ => "...") (column_names d);
     map (fun i =>
            if i =? 0
            then "Showing first 100 of " ++ fmt_int (index_len d) ++ " rows"
            else "")
         (seq 0 (List.length (column_names d)))]
  else [].

(** The text [update_data_status] writes for a resident table. *)
Definition data_status_text (d : DataFrame) (file : option string)
  : string :=
  "📊 " ++ fmt_comma (index_len d) ++ " rows × "
  ++ fmt_int (List.length (columns d)) ++ " columns | File: "
  ++ match file with
     | Some p => if truthy p then basename p else "Sample Data"
     | None => "Sample Data"
     end.

End Views.

(** ** Sessions *)

Section Sessions.

Context {readers : Readers} {sorting : Pandas.SortValues} {stats : Stats}
        {fmt : Fmt} {random : NumpyRandom} {plots : Matplotlib}
        {files : Files}.

Import Py Pandas.

(** Replace the [k]-th element. *)
Fixpoint replace_nth {A : Type} (k : nat) (x : A) (l : list A) : list A :=
  match l, k with
  | [], _ => []
  | _ :: rest, O => x :: rest
  | y :: rest, S k' => y :: replace_nth k' x rest
  end.

(** What the user can do: trigger a callback; pick an entry of the
    read-only column combobox, which writes [column_var]; pick the two
    columns in an open scatter dialog from its read-only comboboxes; close
    such a dialog. *)
Inductive event : Type :=
  | Invoke (now : string) (h : handler)
  | SelectColumn (column : string)
  | PickScatterColumns (k : nat) (x y : string)
  | CloseDialog (k : nat).

Definition enabled (e : event) (s : AppState) : Prop :=
  match e with
  | Invoke _ _ => True
  | SelectColumn column => In column (column_combo s)
  | PickScatterColumns k x y =>
      exists dlg, nth_error (toplevels s) k = Some dlg /\
                  In x (sd_values dlg) /\ In y (sd_values dlg)
  | CloseDialog k => k < List.length (toplevels s)
  end.

Definition apply_event (e : event) (s : AppState) : AppState :=
  match e with
  | Invoke now h => exec (run now h) s
  | SelectColumn column => set_column_var column s
  | PickScatterColumns k x y =>
      match nth_error (toplevels s) k with
      | Some dlg =>
          set_toplevels
            (replace_nth k (mkScatterDialog (sd_values dlg) x y)
                         (toplevels s)) s
      | None => s
      end
  | CloseDialog k => set_toplevels (remove_nth k (toplevels s)) s
  end.

(** The states a session can be in. *)
Inductive reachable : AppState -> Prop :=
  | reach_start (g : rng_state) : reachable (initial_state g)
  | reach_event (s : AppState) (e : event) :
      reachable s -> enabled e s -> reachable (apply_event e s).

(** What every session keeps of the figure, the file name and the column
    selection. *)
Definition consistent (s : AppState) : Prop :=
  1 <= List.length (fig s) <= 2 /\
  (current_file s <> None -> df s <> None) /\
  (df s = None -> column_combo s = [] /\ column_var s = "") /\
  (column_combo s <> [] -> In (column_var s) (column_combo s)).

(** The handlers that assign [self.df]. *)
Definition loads (h : handler) : bool :=
  match h with
  | LoadData _ | LoadSampleData => true
  | _ => false
  end.

(** The placeholder methods. *)
Definition placeholder (h : handler) : bool :=
  match h with
  | PlotLine | PlotBoxplot | PlotPie | PlotBar | PlotViolin | PlotPairplot
  | PlotDistribution | ShowDataTypes | AnalyzeMissingValues
  | OutlierDetection | FeatureImportance | NormalityTest | PcaAnalysis
  | ClusteringAnalysis | AnovaAnalysis | DataCleaner | FeatureEngineer
  | ShowSettings | SaveAnalysis | ExportReport => true
  | _ => false
  end.

(** The handlers that draw on the figure. *)
Definition draws (h : handler) : bool :=
  match h with
  | PlotCorrelationHeatmap | PlotHistogram | PlotColumn
  | DistributionAnalysis | CreateScatter _ | ClearPlot => true
  | _ => false
  end.

(** The handlers that write the results pane. *)
Definition reports (h : handler) : bool :=
  match h with
  | ShowStatisticalSummary | CorrelationAnalysis | AnalyzeColumn => true
  | _ => false
  end.

End Sessions.

(** ** The correlation coefficient *)

Module Pearson.
Import Reals Qreals.
Import Py Pandas.
Local Open Scope R_scope.












End Pearson.

(** ** A small implementation of the interfaces, to run the handlers *)

Module Demo.
Import Py Pandas.

(** Two numeric columns, a categorical one and an [int32] one. *)
Definition age : Series :=
  mkSeries int64 [IntV 31; IntV 45; IntV 28; IntV 45; IntV 52; IntV 39].

Definition income : Series :=
  mkSeries float64_
    [FloatV (Fin 41000); FloatV (Fin 58000); FloatV NaN;
     FloatV (Fin 61000); FloatV (Fin 75000); FloatV (Fin 50000)].

Definition department : Series :=
  mkSeries object_
    [StrV "IT"; StrV "Sales"; StrV "IT"; StrV "HR"; StrV "Finance";
     StrV "Marketing"].

Definition level : Series :=
  mkSeries int32 [IntV 1; IntV 2; IntV 1; IntV 3; IntV 3; IntV 1].

Definition staff : DataFrame :=
  mkDataFrame 6
    [("Age", age); ("Income", income); ("Department", department);
     ("Level", level)].

(** The same staff with [Age] stored as [int32], as [astype(int)] leaves
    it where the platform integer has 32 bits. *)
Definition age32 : Series := mkSeries int32 (s_values age).

Definition staff32 : DataFrame :=
  mkDataFrame 6
    [("Age", age32); ("Income", income); ("Department", department)].

(** A table without numeric columns. *)
Definition labels_only : DataFrame :=
  mkDataFrame 2
    [("City", mkSeries object_ [StrV "Chicago"; StrV "Houston"])].

Definition readers : Readers := {|
  read_csv := fun path =>
    if String.eqb path "staff.csv" then Ok staff
    else Raise "No columns to parse from file";
  read_excel := fun _ => Raise "Excel file format cannot be determined";
  read_json := fun path =>
    if String.eqb path "labels.json" then Ok labels_only
    else Raise "Expected object or value";
  display_failure := fun _ => None
|}.

(** The exact mean of the non-missing numbers of a column; the other
    reductions are stand-ins that only look at its size. *)
Definition total (s : Series) : Q :=
  fold_right (fun c acc =>
                match numeric_value c with
                | Some q => (q + acc)%Q
                | None => acc
                end) 0%Q (s_values s).

Definition exact_mean (s : Series) : float64 :=
  match count s with
  | O => NaN
  | S n => Fin (Qred (total s / inject_Z (Z.of_nat (S n))))
  end.

Definition size_of (s : Series) : float64 :=
  Fin (inject_Z (Z.of_nat (count s))).

Definition stats : Stats := {|
  df_corr := fun _ i j =>
    if i =? j then Fin 1 else if i + j =? 1 then Fin (9 # 10) else NaN;
  series_corr := fun _ _ => Fin (9 # 10);
  mean := exact_mean;
  median := size_of;
  std := size_of;
  smin := size_of;
  smax := size_of;
  skew := fun _ => NaN;
  kurtosis := fun _ => NaN;
  quantile := fun s _ => size_of s;
  mode := fun s => map fst (head 1 (sort_desc (tally (s_values (dropna s)))));
  iloc_at := fun d i col =>
    match getitem d col with
    | Some s => nth i (s_values s) Null
    | None => Null
    end;
  fsub := fun _ _ => Fin 0;
  percent := fun _ _ => Fin 0
|}.

(** Decimal digits of a natural number and of an integer. *)
Definition show_nat (n : nat) : string :=
  NilZero.string_of_uint (Nat.to_uint n).

Definition show_Z (z : Z) : string :=
  NilZero.string_of_int (Z.to_int z).

(** Floats are printed as reduced fractions. *)
Definition show_float (x : float64) : string :=
  match x with
  | NaN => "nan"
  | Inf false => "inf"
  | Inf true => "-inf"
  | Fin q =>
      match Qred q with
      | Qmake n 1 => show_Z n
      | Qmake n d => show_Z n ++ "/" ++ show_Z (Zpos d)
      end
  end.

Definition str_cell_plain (c : cell) : string :=
  match c with
  | Null => "None"
  | IntV z => show_Z z
  | FloatV x => show_float x
  | StrV s => s
  | BoolV b => if b then "True" else "False"
  end.

Definition fmt : Fmt := {|
  fmt_f := fun _ x => show_float x;
  fmt_int := show_nat;
  fmt_comma := show_nat;
  str_cell := str_cell_plain;
  corr_to_string := fun m => String.concat " " (cm_columns m);
  counts_to_string := fun tbl =>
    String.concat ", "
      (map (fun r => str_cell_plain (fst r) ++ " " ++ show_nat (snd r)) tbl);
  data_info := fun _ => Ok ["📊 DATASET OVERVIEW"];
  describe_to_string := fun _ => Ok "describe";
  additional_statistics := fun _ => Ok []
|}.

(** A generator whose state is a counter in [mt_pos]. *)
Definition step (g : rng_state) (n : nat) : rng_state :=
  mkRng (mt_key g) (mt_pos g + n) (has_gauss g) (cached_gaussian g).

Definition random : NumpyRandom := {|
  seed := fun z => mkRng [z] 0 false (Fin 0);
  normal := fun mu _ n g =>
    (map (fun i => Fin (mu + inject_Z (Z.of_nat (mt_pos g + i)))) (seq 0 n),
     step g n);
  uniform := fun lo _ n g => (repeat (Fin lo) n, step g n);
  choice := fun options n g =>
    (map (fun i => nth ((mt_pos g + i) mod 5) options "") (seq 0 n),
     step g n)
|}.

(** [ax.hist] refuses booleans and a range that is not finite. *)
Definition plots : Matplotlib := {|
  hist := fun data _ =>
    match s_dtype data with
    | bool_ => Raise "numpy boolean subtract, the `-` operator, is not supported"
    | _ =>
        if existsb (fun c => match c with
                             | FloatV (Inf _) => true
                             | _ => false
                             end) (s_values data)
        then Raise "supplied range of [41000.0, inf] is not finite"
        else Ok tt
    end;
  heatmap := fun _ => Ok tt
|}.

Definition files : Files := {|
  savefig := fun _ path =>
    if String.eqb path "/" then Raise "Is a directory" else Ok tt
|}.

(** Readers for which every JSON file holds the empty object. *)
Definition bare : DataFrame := mkDataFrame 0 [].

Definition readers_bare : Readers := {|
  read_csv := fun path =>
    if String.eqb path "staff.csv" then Ok staff
    else Raise "No columns to parse from file";
  read_excel := fun _ => Raise "Excel file format cannot be determined";
  read_json := fun _ => Ok bare;
  display_failure := fun _ => None
|}.

(** Readers for which [nested.json] holds a list in its first row. *)
Definition readers_nested : Readers := {|
  read_csv := fun path =>
    if String.eqb path "staff.csv" then Ok staff
    else Raise "No columns to parse from file";
  read_excel := fun _ => Raise "Excel file format cannot be determined";
  read_json := fun _ => Ok labels_only;
  display_failure := fun path =>
    if String.eqb path "nested.json"
    then Some (0, "The truth value of an array with more than one element is ambiguous. Use a.any() or a.all()")
    else None
|}.

(** The staff table with an infinite income. *)
Definition income_inf : Series :=
  mkSeries float64_
    [FloatV (Fin 41000); FloatV (Inf false); FloatV NaN;
     FloatV (Fin 61000)].

Definition staff_inf : DataFrame :=
  mkDataFrame 4
    [("Age", mkSeries int64 [IntV 31; IntV 45; IntV 28; IntV 45]);
     ("Income", income_inf)].


(** A session in which [staff.csv] is resident. *)
Definition fresh : AppState := initial_state (mkRng [] 0 false NaN).

Definition loaded : AppState :=
  set_column_var "Age"
    (set_column_combo (column_names staff)
       (set_current_file (Some "staff.csv") (set_df (Some staff) fresh))).

(** A session in which the [int32] variant is resident, [Age] selected. *)
Definition loaded32 : AppState :=
  set_column_var "Age"
    (set_column_combo (column_names staff32)
       (set_df (Some staff32) fresh)).

End Demo.

(** * Properties *)

(** ** Strings: file extensions *)

Module PyFacts.
Import Py.

Lemma starts_with_head_differs (a b : ascii) (p q l : list ascii) :
  a <> b ->
  starts_with (a :: p) l = true ->
  starts_with (b :: q) l = false.
Proof.
  intros Hab H.
  destruct l as [| c l']; simpl in *; [discriminate |].
  apply andb_true_iff in H as [Hac _].
  apply Ascii.eqb_eq in Hac; subst c.
  destruct (Ascii.eqb b a) eqn:E; [| reflexivity].
  apply Ascii.eqb_eq in E; congruence.
Qed.

(** Two suffixes that end in different characters exclude each other. *)
Lemma endswith_last_char_differs (s u v : string) (a b : ascii)
      (p q : list ascii) :
  rev (list_ascii_of_string u) = a :: p ->
  rev (list_ascii_of_string v) = b :: q ->
  a <> b ->
  endswith s u = true ->
  endswith s v = false.
Proof.
  unfold endswith; intros -> -> Hab H.
  eapply starts_with_head_differs; eauto.
Qed.

Lemma truthy_nonempty (s : string) : truthy s = true <-> s <> "".
Proof.
  unfold truthy; rewrite negb_true_iff.
  split; intros H.
  - intros ->; discriminate.
  - apply String.eqb_neq; exact H.
Qed.

End PyFacts.

Ltac suffix_clash H :=
  match type of H with
  | Py.endswith ?s ?u = true =>
      match goal with
      | |- Py.endswith _ ?v = false =>
          eapply (PyFacts.endswith_last_char_differs s u v);
          [ reflexivity | reflexivity | discriminate | exact H ]
      end
  end.

(** ** Sequencing *)

(** *** Running the first step of a sequence *)

Lemma bind_modify {B : Type} (f : AppState -> AppState) (k : unit -> M B)
      (s : AppState) :
  bind (modify f) k s = k tt (f s).
Proof.
  unfold bind, modify.
  destruct (k tt (f s)) as [[r s2] out2]; reflexivity.
Qed.

Lemma bind_gets {A B : Type} (f : AppState -> A) (k : A -> M B)
      (s : AppState) :
  bind (gets f) k s = k (f s) s.
Proof.
  unfold bind, gets.
  destruct (k (f s) s) as [[r s2] out2]; reflexivity.
Qed.

Lemma bind_ret {A B : Type} (a : A) (k : A -> M B) (s : AppState) :
  bind (ret a) k s = k a s.
Proof.
  unfold bind, ret.
  destruct (k a s) as [[r s2] out2]; reflexivity.
Qed.

Lemma bind_draw {A B : Type} (f : rng_state -> A * rng_state)
      (k : A -> M B) (s : AppState) :
  bind (draw f) k s =
    k (fst (f (np_random s))) (set_np_random (snd (f (np_random s))) s).
Proof.
  unfold bind, draw.
  match goal with |- context [k ?a ?st] =>
    destruct (k a st) as [[r s2] out2] end; reflexivity.
Qed.

Lemma try_except_ok {A : Type} (body : M A) (handler : string -> M A)
      (s s' : AppState) (a : A) (out : list dialog) :
  body s = (Ok a, s', out) -> try_except body handler s = (Ok a, s', out).
Proof. intros H; unfold try_except; rewrite H; reflexivity. Qed.

(** A step that shows nothing hands its state on; a step that raises
    ends the sequence. *)
Lemma bind_quiet {A B : Type} (m : M A) (k : A -> M B)
      (s s1 : AppState) (a : A) :
  m s = (Ok a, s1, []) -> bind m k s = k a s1.
Proof.
  intros E; unfold bind; rewrite E.
  destruct (k a s1) as [[r s2] out2]; reflexivity.
Qed.

Lemma bind_raise {A B : Type} (m : M A) (k : A -> M B)
      (s s1 : AppState) (e : string) (out : list dialog) :
  m s = (Raise e, s1, out) -> bind m k s = (Raise e, s1, out).
Proof. intros E; unfold bind; rewrite E; reflexivity. Qed.

Lemma bind_lift_ok {A B : Type} (a : A) (k : A -> M B) (s : AppState) :
  bind (lift (Ok a)) k s = k a s.
Proof. apply bind_ret. Qed.

Lemma bind_lift_raise {A B : Type} (e : string) (k : A -> M B)
      (s : AppState) :
  bind (lift (Raise e)) k s = (Raise e, s, []).
Proof. reflexivity. Qed.

Ltac run_step :=
  first [ rewrite bind_modify | rewrite bind_gets | rewrite bind_draw
        | rewrite bind_ret | rewrite bind_lift_ok ];
  cbv beta.

(** ** The loader *)

Section LoaderFacts.

Context {readers : Readers} {stats : Stats} {fmt : Fmt}.

Import Py Pandas.

Lemma read_by_extension_csv (file_path : string) :
  endswith file_path ".csv" = true ->
  read_by_extension file_path = read_csv file_path.
Proof.
  intros H; unfold read_by_extension; rewrite H; reflexivity.
Qed.

Lemma read_by_extension_excel (file_path : string) :
  endswith file_path ".xlsx" = true \/ endswith file_path ".xls" = true ->
  read_by_extension file_path = read_excel file_path.
Proof.
  intros H; unfold read_by_extension, endswith_any; simpl existsb.
  assert (Hcsv : endswith file_path ".csv" = false)
    by (destruct H as [H | H]; suffix_clash H).
  rewrite Hcsv.
  destruct H as [H | H]; rewrite H; [reflexivity |].
  rewrite orb_true_r; reflexivity.
Qed.

Lemma read_by_extension_json (file_path : string) :
  endswith file_path ".json" = true ->
  read_by_extension file_path = read_json file_path.
Proof.
  intros H; unfold read_by_extension, endswith_any; simpl existsb.
  assert (Hcsv : endswith file_path ".csv" = false) by suffix_clash H.
  assert (Hxlsx : endswith file_path ".xlsx" = false) by suffix_clash H.
  assert (Hxls : endswith file_path ".xls" = false) by suffix_clash H.
  rewrite Hcsv, Hxlsx, Hxls, H; reflexivity.
Qed.

Lemma read_by_extension_other (file_path : string) :
  endswith file_path ".csv" = false ->
  endswith file_path ".xlsx" = false ->
  endswith file_path ".xls" = false ->
  endswith file_path ".json" = false ->
  read_by_extension file_path = read_csv file_path.
Proof.
  intros H1 H2 H3 H4; unfold read_by_extension, endswith_any.
  simpl existsb; rewrite H1, H2, H3, H4; reflexivity.
Qed.

(** What [load_data] does once the reader has returned or raised. *)
Lemma load_data_raise (file_path e : string) (s : AppState) :
  truthy file_path = true ->
  read_by_extension file_path = Raise e ->
  load_data file_path s =
    (Ok tt,
     set_status_label ("❌ Failed to load data", Error) s,
     [ShowError "Error" ("Failed to load data:
" ++ e)]).
Proof.
  intros Ht Hr.
  unfold load_data; rewrite Ht.
  unfold try_except, bind, lift, update_status, modify, show.
  rewrite Hr; reflexivity.
Qed.

(** *** The view updates that follow a load *)

Lemma update_data_status_run (s : AppState) (d : DataFrame) :
  df s = Some d ->
  update_data_status s =
    (Ok tt,
     set_data_status_label (data_status_text d (current_file s)) s, []).
Proof.
  intros Hd; unfold update_data_status, data_status_text.
  rewrite bind_gets, Hd; unfold shape.
  run_step; reflexivity.
Qed.

(** The data view of a table whose displayed cells are scalars. *)
Lemma update_data_display_run (s : AppState) (d : DataFrame) :
  df s = Some d ->
  display_stop (current_file s) d = None ->
  update_data_display s =
    (Ok tt,
     set_data_tree
       (mkTree (column_names d) (display_rows d ++ truncation_rows d)%list)
       (set_data_status_label (data_status_text d (current_file s)) s),
     []).
Proof.
  intros Hd Hs.
  unfold update_data_display, truncation_rows, display_rows, view_rows.
  rewrite bind_gets, Hd; cbv zeta.
  rewrite bind_gets, Hs.
  run_step.
  erewrite bind_quiet by (apply update_data_status_run; exact Hd).
  destruct (100 <? index_len d).
  - reflexivity.
  - rewrite app_nil_r; reflexivity.
Qed.

(** The loop stops at the first displayed row it cannot read: the rows
    before it are in the view, the status label is not reached. *)
Lemma update_data_display_stops (s : AppState) (d : DataFrame)
      (k : nat) (e : string) :
  df s = Some d ->
  display_stop (current_file s) d = Some (k, e) ->
  update_data_display s =
    (Raise e,
     set_data_tree (mkTree (column_names d) (view_rows d k)) s, []).
Proof.
  intros Hd Hs.
  unfold update_data_display.
  rewrite bind_gets, Hd; cbv zeta.
  rewrite bind_gets, Hs.
  run_step; reflexivity.
Qed.

Lemma update_column_list_run (s : AppState) (d : DataFrame) :
  df s = Some d ->
  update_column_list s =
    (Ok tt,
     set_column_var (hd (column_var s) (column_names d))
       (set_column_combo (column_names d) s),
     []).
Proof.
  intros Hd; unfold update_column_list.
  rewrite bind_gets, Hd; cbv zeta.
  run_step.
  destruct (column_names d); reflexivity.
Qed.

Lemma show_data_info_run (s : AppState) (d : DataFrame) :
  df s = Some d ->
  show_data_info s =
    (Ok tt,
     match data_info d with
     | Ok info_text => set_data_info_text info_text s
     | Raise e =>
         set_status_label ("❌ Error showing data info: " ++ e, Error) s
     end,
     []).
Proof.
  intros Hd; unfold show_data_info.
  rewrite bind_gets, Hd.
  unfold try_except, bind, lift, modify, update_status.
  destruct (data_info d); reflexivity.
Qed.

(** The state the three view updates and the closing status leave. *)
Lemma refresh_views_run (message : string) (s : AppState) (d : DataFrame) :
  df s = Some d ->
  display_stop (current_file s) d = None ->
  exists s',
    (update_data_display ;; update_column_list ;; show_data_info ;;
     update_status message Success) s = (Ok tt, s', []) /\
    df s' = Some d /\
    current_file s' = current_file s /\
    np_random s' = np_random s /\
    data_tree s' =
      mkTree (column_names d) (display_rows d ++ truncation_rows d)%list /\
    column_combo s' = column_names d /\
    column_var s' = hd (column_var s) (column_names d) /\
    data_status_label s' = data_status_text d (current_file s) /\
    data_info_text s' =
      match data_info d with
      | Ok info_text => info_text
      | Raise _ => data_info_text s
      end /\
    status_label s' = (message, Success).
Proof.
  intros Hd Hs.
  eexists; split.
  - erewrite bind_quiet by (exact (update_data_display_run s d Hd Hs)).
    erewrite bind_quiet by (apply update_column_list_run; exact Hd).
    erewrite bind_quiet by (apply show_data_info_run; exact Hd).
    reflexivity.
  - destruct (data_info d); cbn; rewrite Hd; repeat split.
Qed.

Lemma display_rows_length (d : DataFrame) :
  List.length (display_rows d ++ truncation_rows d)%list
  = Nat.min 100 (index_len d) + (if 100 <? index_len d then 2 else 0).
Proof.
  unfold display_rows, truncation_rows.
  rewrite length_app, length_map, length_seq.
  destruct (100 <? index_len d); reflexivity.
Qed.

Lemma display_rows_width (d : DataFrame) :
  Forall (fun row => List.length row = List.length (columns d))
         (display_rows d ++ truncation_rows d)%list.
Proof.
  apply Forall_app; split.
  - unfold display_rows; apply Forall_forall; intros row Hin.
    apply in_map_iff in Hin as (i & <- & _).
    unfold column_names; rewrite !length_map; reflexivity.
  - unfold truncation_rows, column_names.
    destruct (100 <? index_len d); repeat constructor;
      rewrite ?length_map, ?length_seq, ?length_map; reflexivity.
Qed.

(** The state a [load_data] leaves whose reader returned and whose view
    could be filled. *)
Lemma load_data_ok_fields (file_path : string) (d : DataFrame)
      (s : AppState) :
  truthy file_path = true ->
  read_by_extension file_path = Ok d ->
  display_stop (Some file_path) d = None ->
  exists s',
    load_data file_path s = (Ok tt, s', []) /\
    df s' = Some d /\
    current_file s' = Some file_path /\
    data_tree s' =
      mkTree (column_names d) (display_rows d ++ truncation_rows d)%list /\
    column_combo s' = column_names d /\
    column_var s' = hd (column_var s) (column_names d) /\
    data_status_label s' = data_status_text d (Some file_path) /\
    data_info_text s' =
      match data_info d with
      | Ok info_text => info_text
      | Raise _ => data_info_text s
      end /\
    status_label s' = ("✅ Data loaded successfully!", Success).
Proof.
  intros Ht Hr Hs.
  unfold load_data; rewrite Ht.
  match goal with |- context [try_except ?body ?h s] =>
    assert (H : exists s', body s = (Ok tt, s', []) /\
      df s' = Some d /\
      current_file s' = Some file_path /\
      data_tree s' =
        mkTree (column_names d)
               (display_rows d ++ truncation_rows d)%list /\
      column_combo s' = column_names d /\
      column_var s' = hd (column_var s) (column_names d) /\
      data_status_label s' = data_status_text d (Some file_path) /\
      data_info_text s' =
        match data_info d with
        | Ok info_text => info_text
        | Raise _ => data_info_text s
        end /\
      status_label s' = ("✅ Data loaded successfully!", Success)) end.
  { unfold update_status at 1.
    run_step.
    unfold bind at 1; unfold lift at 1; rewrite Hr.
    do 2 run_step.
    match goal with |- context [bind ?m ?k ?st] =>
      destruct (refresh_views_run "✅ Data loaded successfully!" st d
                  eq_refl Hs)
        as (s' & E & D & C & _ & T & B & V & L & I & S) end.
    rewrite E.
    exists s'; repeat split; assumption. }
  destruct H as (s' & E & H).
  exists s'; split; [apply try_except_ok; exact E | exact H].
Qed.

(** The state a [load_data] leaves whose reader returned a table the view
    cannot show: the table and the path are already assigned and the view
    holds the rows before the failing one; the column list, the selection,
    the info pane and the data status are not reached. *)
Lemma load_data_display_fails (file_path : string) (d : DataFrame)
      (k : nat) (e : string) (s : AppState) :
  truthy file_path = true ->
  read_by_extension file_path = Ok d ->
  display_stop (Some file_path) d = Some (k, e) ->
  load_data file_path s =
    (Ok tt,
     set_status_label ("❌ Failed to load data", Error)
       (set_data_tree (mkTree (column_names d) (view_rows d k))
          (set_current_file (Some file_path)
             (set_df (Some d)
                (set_status_label ("📂 Loading data...", Info) s)))),
     [ShowError "Error" ("Failed to load data:
" ++ e)]).
Proof.
  intros Ht Hr Hs.
  unfold load_data; rewrite Ht.
  match goal with |- try_except ?body ?h s = _ =>
    assert (H : body s =
      (Raise e,
       set_data_tree (mkTree (column_names d) (view_rows d k))
         (set_current_file (Some file_path)
            (set_df (Some d)
               (set_status_label ("📂 Loading data...", Info) s))),
       [])) end.
  { unfold update_status at 1.
    run_step.
    unfold bind at 1; unfold lift at 1; rewrite Hr.
    do 2 run_step.
    erewrite bind_raise
      by (apply (update_data_display_stops _ d k e); [reflexivity | exact Hs]).
    reflexivity. }
  unfold try_except; rewrite H; reflexivity.
Qed.

(** Once the reader has returned, the table and the path are assigned,
    whether or not the views can be refreshed, and the handler returns. *)
Lemma load_data_ok (file_path : string) (d : DataFrame) (s : AppState) :
  truthy file_path = true ->
  read_by_extension file_path = Ok d ->
  df (exec (load_data file_path) s) = Some d /\
  current_file (exec (load_data file_path) s) = Some file_path /\
  result (load_data file_path) s = Ok tt.
Proof.
  intros Ht Hr.
  unfold exec, result.
  destruct (display_stop (Some file_path) d) as [[k e] |] eqn:Hs.
  - rewrite (load_data_display_fails file_path d k e s Ht Hr Hs).
    repeat split.
  - destruct (load_data_ok_fields file_path d s Ht Hr Hs)
      as (s' & E & D & C & _).
    rewrite E; auto.
Qed.

Lemma load_data_cancelled (s : AppState) : load_data "" s = (Ok tt, s, []).
Proof. reflexivity. Qed.

(** The dataset and the file change only when a reader returned a table. *)
Lemma dataset_replaced_only_after_parse (file_path : string) (s : AppState) :
  df (exec (load_data file_path) s) <> df s \/
  current_file (exec (load_data file_path) s) <> current_file s ->
  exists d, truthy file_path = true /\ read_by_extension file_path = Ok d.
Proof.
  intros H.
  destruct (truthy file_path) eqn:Ht.
  - destruct (read_by_extension file_path) as [d | e] eqn:Hr;
      [exists d; auto |].
    unfold exec in H; rewrite (load_data_raise _ e s Ht Hr) in H.
    destruct H as [H | H]; exfalso; apply H; reflexivity.
  - unfold exec, load_data in H; rewrite Ht in H.
    destruct H as [H | H]; exfalso; apply H; reflexivity.
Qed.

(** C1: when the reader chosen for the selected file raises, [load_data]
    leaves [self.df] and [self.current_file] as they were, whatever the
    prior state, shows the error dialog with the exception text, sets the
    failure status and returns normally. *)
Theorem load_failure_retains_dataset (file_path e : string) (s : AppState) :
  truthy file_path = true ->
  read_by_extension file_path = Raise e ->
  df (exec (load_data file_path) s) = df s /\
  current_file (exec (load_data file_path) s) = current_file s /\
  shown (load_data file_path) s =
    [ShowError "Error" ("Failed to load data:
" ++ e)] /\
  status_label (exec (load_data file_path) s) =
    ("❌ Failed to load data", Error) /\
  result (load_data file_path) s = Ok tt.
Proof.
  intros Ht Hr.
  unfold exec, shown, result.
  rewrite (load_data_raise file_path e s Ht Hr).
  repeat split.
Qed.

(** C8: the loader picks the reader by the end of the path: [.csv] goes
    to [read_csv], [.xlsx] and [.xls] to [read_excel], [.json] to
    [read_json], and a path with none of these endings to [read_csv];
    the table that reader returns becomes the resident dataset. *)
Theorem loader_dispatches_on_extension (file_path : string) :
  (endswith file_path ".csv" = true ->
   read_by_extension file_path = read_csv file_path) /\
  (endswith file_path ".xlsx" = true \/ endswith file_path ".xls" = true ->
   read_by_extension file_path = read_excel file_path) /\
  (endswith file_path ".json" = true ->
   read_by_extension file_path = read_json file_path) /\
  (endswith file_path ".csv" = false ->
   endswith file_path ".xlsx" = false ->
   endswith file_path ".xls" = false ->
   endswith file_path ".json" = false ->
   read_by_extension file_path = read_csv file_path) /\
  (forall (s : AppState) (d : DataFrame),
     truthy file_path = true ->
     read_by_extension file_path = Ok d ->
     df (exec (load_data file_path) s) = Some d /\
     current_file (exec (load_data file_path) s) = Some file_path).
Proof.
  split; [apply read_by_extension_csv |].
  split; [apply read_by_extension_excel |].
  split; [apply read_by_extension_json |].
  split; [apply read_by_extension_other |].
  intros s d Ht Hr.
  destruct (load_data_ok file_path d s Ht Hr) as (D & C & _).
  split; assumption.
Qed.

End LoaderFacts.

(** ** The loader on examples *)

Section LoaderExamples.

#[local] Existing Instance Demo.readers.
#[local] Existing Instance Demo.stats.
#[local] Existing Instance Demo.fmt.

Import Py Pandas.

Lemma load_failure_retains_dataset_witness :
  truthy "broken.csv" = true /\
  read_by_extension "broken.csv" = Raise "No columns to parse from file" /\
  df (exec (load_data "broken.csv") Demo.loaded) = Some Demo.staff /\
  current_file (exec (load_data "broken.csv") Demo.loaded)
    = Some "staff.csv".
Proof.
  split; [reflexivity |].
  split; [reflexivity |].
  destruct (load_failure_retains_dataset
              "broken.csv" "No columns to parse from file" Demo.loaded)
    as (D & C & _); [reflexivity | reflexivity |].
  split; [exact D | exact C].
Defined.

Lemma loader_dispatches_on_extension_witness :
  read_by_extension "report.xls" = read_excel "report.xls" /\
  read_by_extension "labels.json" = Ok Demo.labels_only /\
  df (exec (load_data "labels.json") Demo.loaded) = Some Demo.labels_only.
Proof.
  split.
  - apply (loader_dispatches_on_extension "report.xls").
    right; reflexivity.
  - destruct (loader_dispatches_on_extension "labels.json")
      as (_ & _ & J & _ & L).
    split; [apply J; reflexivity |].
    apply (L Demo.loaded Demo.labels_only); reflexivity.
Defined.

Example load_upper_case_extension_is_csv :
  read_by_extension "BOOK.XLSX" = read_csv "BOOK.XLSX".
Proof. reflexivity. Qed.

End LoaderExamples.

(** ** Lists built by nested loops *)

Lemma map_flat_map {A B C : Type} (f : B -> C) (g : A -> list B)
      (l : list A) :
  map f (flat_map g l) = flat_map (fun x => map f (g x)) l.
Proof.
  induction l as [| x l IH]; simpl; [reflexivity |].
  rewrite map_app, IH; reflexivity.
Qed.

Lemma flat_map_eq {A B : Type} (g h : A -> list B) (l : list A) :
  (forall x, In x l -> g x = h x) -> flat_map g l = flat_map h l.
Proof.
  induction l as [| x l IH]; simpl; intros H; [reflexivity |].
  rewrite (H x (or_introl eq_refl)), IH; [reflexivity |].
  intros y Hy; apply H; right; exact Hy.
Qed.

(** Appending per-element results that cannot collide keeps the result
    free of duplicates. *)
Lemma NoDup_flat_map {A B : Type} (g : A -> list B) (l : list A) :
  NoDup l ->
  (forall x, In x l -> NoDup (g x)) ->
  (forall x y b, In x l -> In y l -> In b (g x) -> In b (g y) -> x = y) ->
  NoDup (flat_map g l).
Proof.
  induction 1 as [| x l Hx Hl IH]; simpl; intros Hg Hsep.
  - constructor.
  - apply NoDup_app.
    + apply Hg; left; reflexivity.
    + apply IH.
      * intros y Hy; apply Hg; right; exact Hy.
      * intros y z b Hy Hz; apply Hsep; right; assumption.
    + intros b Hb Hin.
      apply in_flat_map in Hin as (y & Hy & Hby).
      assert (x = y) by (apply (Hsep x y b); simpl; auto).
      subst y; exact (Hx Hy).
Qed.

(** ** Correlation analysis *)

Section CorrelationFacts.

Context {stats : Stats} {fmt : Fmt}.

Import Py Pandas.

Lemma strong_corr_entries (m : CorrMatrix) :
  strong_corr m = map (entry m) (strong_pairs m).
Proof.
  unfold strong_corr, strong_pairs.
  rewrite map_flat_map.
  apply flat_map_eq; intros i _.
  rewrite map_flat_map.
  apply flat_map_eq; intros j _.
  destruct (fgtb (fabs (cm_iloc m i j)) lit_0_7); reflexivity.
Qed.

Lemma in_strong_pairs (m : CorrMatrix) (i j : nat) :
  In (i, j) (strong_pairs m) <->
  i < j < List.length (cm_columns m) /\
  fgtb (fabs (cm_iloc m i j)) lit_0_7 = true.
Proof.
  unfold strong_pairs; rewrite in_flat_map; split.
  - intros (i' & Hi & Hin).
    apply in_flat_map in Hin as (j' & Hj & Hin).
    apply in_seq in Hi, Hj.
    destruct (fgtb (fabs (cm_iloc m i' j')) lit_0_7) eqn:E;
      simpl in Hin; [| contradiction].
    destruct Hin as [Hin | []]; inversion Hin; subst i' j'.
    split; [lia | exact E].
  - intros (Hij & E).
    exists i; split; [apply in_seq; lia |].
    apply in_flat_map; exists j; split; [apply in_seq; lia |].
    rewrite E; left; reflexivity.
Qed.

Lemma NoDup_strong_pairs (m : CorrMatrix) : NoDup (strong_pairs m).
Proof.
  unfold strong_pairs.
  apply NoDup_flat_map; [apply seq_NoDup | |].
  - intros i _.
    apply NoDup_flat_map; [apply seq_NoDup | |].
    + intros j _; destruct (fgtb _ _); repeat constructor; simpl; tauto.
    + intros j j' b _ _ Hj Hj'.
      destruct (fgtb (fabs (cm_iloc m i j)) lit_0_7); [| contradiction].
      destruct (fgtb (fabs (cm_iloc m i j')) lit_0_7); [| contradiction].
      destruct Hj as [<- | []]; destruct Hj' as [Hj' | []]; congruence.
  - intros i i' b _ _ Hi Hi'.
    apply in_flat_map in Hi as (j & _ & Hj).
    apply in_flat_map in Hi' as (j' & _ & Hj').
    destruct (fgtb (fabs (cm_iloc m i j)) lit_0_7); [| contradiction].
    destruct (fgtb (fabs (cm_iloc m i' j')) lit_0_7); [| contradiction].
    destruct Hj as [<- | []]; destruct Hj' as [Hj' | []]; congruence.
Qed.

(** With distinct column labels the two names of an entry differ. *)
Lemma strong_corr_names_differ (m : CorrMatrix) (a b : string)
      (v : float64) :
  NoDup (cm_columns m) ->
  In (a, b, v) (strong_corr m) ->
  a <> b.
Proof.
  intros Hnd Hin.
  rewrite strong_corr_entries in Hin.
  apply in_map_iff in Hin as ([i j] & E & Hp).
  apply in_strong_pairs in Hp as (Hij & _).
  unfold entry in E; simpl in E; inversion E; subst.
  intros Heq.
  apply (proj1 (NoDup_nth (cm_columns m) "") Hnd) in Heq; lia.
Qed.

(** What the handler does when there is a numeric column and a row. *)
Lemma correlation_analysis_run (now : string) (s : AppState)
      (d : DataFrame) :
  df s = Some d ->
  empty (select_number d) = false ->
  correlation_analysis now s =
    (Ok tt,
     set_status_label ("✅ Correlation analysis completed", Success)
       (set_right_notebook ResultsTab
          (set_results_text
             (["🔗 CORRELATION ANALYSIS"; now; repeat_str "=" 50; "";
               "Correlation Matrix:";
               corr_to_string (corr (select_number d)); "";
               "🔥 Strong Correlations (|r| > 0.7):"; repeat_str "=" 40]
              ++ strong_lines (corr (select_number d)))%list
             (set_results_text [] s))),
     []).
Proof.
  intros Hd He.
  unfold correlation_analysis, try_except, bind, gets.
  rewrite Hd; cbv zeta; rewrite He.
  reflexivity.
Qed.

(** Without numeric columns, or without rows, it only warns. *)
Lemma correlation_analysis_empty (now : string) (s : AppState)
      (d : DataFrame) :
  df s = Some d ->
  empty (select_number d) = true ->
  correlation_analysis now s =
    (Ok tt, s,
     [ShowWarning "Warning" "No numeric columns for correlation analysis!"]).
Proof.
  intros Hd He.
  unfold correlation_analysis, try_except, bind, gets.
  rewrite Hd; cbv zeta; rewrite He.
  reflexivity.
Qed.

(** C2: the correlation matrix ranges over the numeric columns, and the
    strong-correlation entries are the images of a duplicate-free list of
    index pairs holding exactly the pairs [i < j] of its columns with
    [abs(r) > 0.7].  So no column is paired with itself, no unordered
    pair is listed twice, and these entries are the lines the handler
    writes under the heading. *)
Theorem strong_correlation_report (d : DataFrame) :
  let m := corr (select_number d) in
  (forall name, In name (cm_columns m) ->
     exists series, In (name, series) (columns d) /\
                    is_number (s_dtype series) = true) /\
  strong_corr m = map (entry m) (strong_pairs m) /\
  NoDup (strong_pairs m) /\
  (forall i j,
     In (i, j) (strong_pairs m) <->
     i < j < List.length (cm_columns m) /\
     fgtb (fabs (cm_iloc m i j)) lit_0_7 = true) /\
  (forall i j,
     In (i, j) (strong_pairs m) -> i <> j /\ ~ In (j, i) (strong_pairs m)) /\
  (forall now s,
     df s = Some d ->
     empty (select_number d) = false ->
     results_text (exec (correlation_analysis now) s) =
       (["🔗 CORRELATION ANALYSIS"; now; repeat_str "=" 50; "";
         "Correlation Matrix:"; corr_to_string m; "";
         "🔥 Strong Correlations (|r| > 0.7):"; repeat_str "=" 40]
        ++ strong_lines m)%list).
Proof.
  intros m.
  split.
  { intros name Hin.
    unfold m, corr, column_names, select_number in Hin; simpl in Hin.
    apply in_map_iff in Hin as ([n series] & <- & Hin).
    apply filter_In in Hin as (Hin & Hnum).
    exists series; split; assumption. }
  split; [apply strong_corr_entries |].
  split; [apply NoDup_strong_pairs |].
  split; [intros i j; apply in_strong_pairs |].
  split.
  - intros i j Hin.
    apply in_strong_pairs in Hin as (Hij & _).
    split; [lia |].
    intros Hji; apply in_strong_pairs in Hji as (Hji & _); lia.
  - intros now s Hd He.
    unfold exec; rewrite (correlation_analysis_run now s d Hd He).
    reflexivity.
Qed.

End CorrelationFacts.

Section CorrelationGuard.

Context {stats : Stats} {fmt : Fmt}.

Import Py Pandas.

(** C7: with fewer than one numeric column in the resident dataset,
    [correlation_analysis] returns normally with the state as it was
    and one warning shown; this holds whatever [corr] would compute,
    so its result is never used. *)
Theorem correlation_needs_numeric_column (now : string) (s : AppState)
      (d : DataFrame) :
  df s = Some d ->
  List.length (columns (select_number d)) < 1 ->
  correlation_analysis now s =
    (Ok tt, s,
     [ShowWarning "Warning" "No numeric columns for correlation analysis!"])
  /\
  forall other : Stats,
    correlation_analysis (stats := other) now s
    = correlation_analysis (stats := stats) now s.
Proof.
  intros Hd Hn.
  assert (He : empty (select_number d) = true).
  { unfold empty.
    destruct (columns (select_number d)); simpl in *; [| lia].
    apply orb_true_r. }
  split.
  - apply (correlation_analysis_empty now s d Hd He).
  - intros other.
    rewrite (correlation_analysis_empty (stats := stats) now s d Hd He).
    apply (correlation_analysis_empty (stats := other) now s d Hd He).
Qed.

End CorrelationGuard.

Section CorrelationExamples.

#[local] Existing Instance Demo.stats.
#[local] Existing Instance Demo.fmt.

Import Py Pandas.

Example strong_corr_staff :
  strong_corr (corr (select_number Demo.staff)) =
    [("Age", "Income", Fin (9 # 10))].
Proof. reflexivity. Qed.

Lemma strong_correlation_report_witness :
  df Demo.loaded = Some Demo.staff /\
  empty (select_number Demo.staff) = false /\
  results_text (exec (correlation_analysis "2024-05-01 10:00:00")
                     Demo.loaded) =
    ["🔗 CORRELATION ANALYSIS"; "2024-05-01 10:00:00"; repeat_str "=" 50;
     ""; "Correlation Matrix:"; "Age Income Level"; "";
     "🔥 Strong Correlations (|r| > 0.7):"; repeat_str "=" 40;
     "Age ↔ Income: 9/10"].
Proof.
  split; [reflexivity |].
  split; [reflexivity |].
  destruct (strong_correlation_report Demo.staff) as (_ & _ & _ & _ & _ & R).
  rewrite (R "2024-05-01 10:00:00" Demo.loaded eq_refl eq_refl).
  reflexivity.
Defined.

Lemma correlation_needs_numeric_column_witness :
  df (set_df (Some Demo.labels_only) Demo.fresh) = Some Demo.labels_only /\
  List.length (columns (select_number Demo.labels_only)) < 1 /\
  correlation_analysis "2024-05-01 10:00:00"
      (set_df (Some Demo.labels_only) Demo.fresh) =
    (Ok tt, set_df (Some Demo.labels_only) Demo.fresh,
     [ShowWarning "Warning" "No numeric columns for correlation analysis!"]).
Proof.
  split; [reflexivity |].
  split; [simpl; lia |].
  apply (correlation_needs_numeric_column "2024-05-01 10:00:00"
           (set_df (Some Demo.labels_only) Demo.fresh) Demo.labels_only).
  - reflexivity.
  - simpl; lia.
Defined.

End CorrelationExamples.

(** ** The correlation matrix *)

Module PearsonFacts.
Import Reals Qreals Lra Psatz.
Import Py Pandas Pearson.
#[local] Open Scope R_scope.













End PearsonFacts.

Section CorrelationMatrix.

Context {stats : Stats}.

Import Reals Qreals.
Import Py Pandas Pearson.



End CorrelationMatrix.


(** ** Equality of cells *)

Module CellFacts.
Import Py.

(** [cell_eqb] holds for two numbers of equal value, and otherwise only
    for identical cells. *)
Lemma cell_eqb_spec (a b : cell) :
  cell_eqb a b = true <->
  (exists p q, numeric_value a = Some p /\ numeric_value b = Some q /\
               (p == q)%Q) \/
  (numeric_value a = None /\ numeric_value b = None /\ a = b).
Proof.
  unfold cell_eqb.
  destruct (numeric_value a) as [p |] eqn:Ea;
    destruct (numeric_value b) as [q |] eqn:Eb.
  - rewrite Qeq_bool_iff; split.
    + intros H; left; exists p, q; auto.
    + intros [(p' & q' & Hp & Hq & H) | (Hp & _)]; [| discriminate].
      inversion Hp; inversion Hq; subst; exact H.
  - split; [discriminate |].
    intros [(p' & q' & _ & Hq & _) | (Hp & _)]; discriminate.
  - split; [discriminate |].
    intros [(p' & q' & Hp & _) | (_ & Hq & _)]; discriminate.
  - split.
    + intros H; right; split; [reflexivity |]; split; [reflexivity |].
      destruct a as [| z | [| s | q'] | s | c];
        destruct b as [| z' | [| s' | q''] | s' | c'];
        try discriminate; try reflexivity.
      * apply Bool.eqb_prop in H; subst; reflexivity.
      * apply String.eqb_eq in H; subst; reflexivity.
    + intros [(p' & q' & Hp & _) | (_ & _ & ->)]; [discriminate |].
      destruct b as [| z | [| s | q'] | s | c]; try discriminate;
        try reflexivity.
      * apply Bool.eqb_reflx.
      * apply String.eqb_refl.
Qed.

Lemma cell_eqb_refl (a : cell) : cell_eqb a a = true.
Proof.
  apply cell_eqb_spec.
  destruct (numeric_value a) as [p |] eqn:E.
  - left; exists p, p; repeat split; reflexivity.
  - right; auto.
Qed.

Lemma cell_eqb_true_sym (a b : cell) :
  cell_eqb a b = true -> cell_eqb b a = true.
Proof.
  rewrite !cell_eqb_spec.
  intros [(p & q & Hp & Hq & H) | (Hp & Hq & ->)].
  - left; exists q, p; repeat split; try assumption; symmetry; exact H.
  - right; auto.
Qed.

Lemma cell_eqb_sym (a b : cell) : cell_eqb a b = cell_eqb b a.
Proof.
  destruct (cell_eqb a b) eqn:E1; destruct (cell_eqb b a) eqn:E2;
    try reflexivity.
  - apply cell_eqb_true_sym in E1; congruence.
  - apply cell_eqb_true_sym in E2; congruence.
Qed.

Lemma cell_eqb_trans (a b c : cell) :
  cell_eqb a b = true -> cell_eqb b c = true -> cell_eqb a c = true.
Proof.
  rewrite !cell_eqb_spec.
  intros [(p & q & Hp & Hq & H) | (Hp & Hq & ->)]
         [(q' & r & Hq' & Hr & H') | (Hq' & Hr & <-)].
  - left; exists p, r; repeat split; try assumption.
    assert (q = q') by congruence; subst q'.
    rewrite H; exact H'.
  - congruence.
  - left; exists q', r; auto.
  - right; auto.
Qed.

(** Equal cells are equal to the same cells. *)
Lemma cell_eqb_congr (a b c : cell) :
  cell_eqb a b = true -> cell_eqb a c = cell_eqb b c.
Proof.
  intros H.
  destruct (cell_eqb a c) eqn:E1; destruct (cell_eqb b c) eqn:E2;
    try reflexivity.
  - apply cell_eqb_true_sym in H.
    rewrite (cell_eqb_trans b a c H E1) in E2; discriminate.
  - rewrite (cell_eqb_trans a b c H E2) in E1; discriminate.
Qed.

End CellFacts.

(** ** Frequency tables *)

Module PandasFacts.
Import Py Pandas CellFacts.

Lemma counts_sum_bump (v : cell) (tbl : list (cell * nat)) :
  counts_sum (bump v tbl) = S (counts_sum tbl).
Proof.
  unfold counts_sum.
  induction tbl as [| [k c] rest IH]; simpl; [reflexivity |].
  destruct (cell_eqb k v); simpl; [reflexivity |].
  rewrite IH; lia.
Qed.

Lemma counts_sum_fold (vals : list cell) (tbl : list (cell * nat)) :
  counts_sum (fold_left (fun t v => bump v t) vals tbl)
  = counts_sum tbl + List.length vals.
Proof.
  revert tbl; induction vals as [| v vals IH]; intros tbl; simpl.
  - lia.
  - rewrite IH, counts_sum_bump; lia.
Qed.

(** Every value is counted exactly once. *)
Lemma counts_sum_tally (vals : list cell) :
  counts_sum (tally vals) = List.length vals.
Proof. unfold tally; rewrite counts_sum_fold; reflexivity. Qed.

Lemma lookup_count_bump (v w : cell) (tbl : list (cell * nat)) :
  lookup_count v (bump w tbl)
  = lookup_count v tbl + (if cell_eqb v w then 1 else 0).
Proof.
  induction tbl as [| [k c] rest IH]; simpl.
  - rewrite (cell_eqb_sym w v); destruct (cell_eqb v w); reflexivity.
  - destruct (cell_eqb k w) eqn:Ekw; simpl.
    + rewrite (cell_eqb_sym v w), <- (cell_eqb_congr k w v Ekw).
      destruct (cell_eqb k v); lia.
    + destruct (cell_eqb k v) eqn:Ekv; [| exact IH].
      apply cell_eqb_true_sym in Ekv.
      rewrite (cell_eqb_congr v k w Ekv), Ekw; lia.
Qed.

Lemma lookup_count_fold (v : cell) (vals : list cell)
      (tbl : list (cell * nat)) :
  lookup_count v (fold_left (fun t w => bump w t) vals tbl)
  = lookup_count v tbl + occurrences v vals.
Proof.
  unfold occurrences.
  revert tbl; induction vals as [| w vals IH]; intros tbl; simpl.
  - lia.
  - rewrite IH, lookup_count_bump.
    destruct (cell_eqb v w); simpl; lia.
Qed.

(** The counter of a value is the number of its occurrences. *)
Lemma lookup_count_tally (v : cell) (vals : list cell) :
  lookup_count v (tally vals) = occurrences v vals.
Proof. unfold tally; rewrite lookup_count_fold; reflexivity. Qed.

Lemma Forall_bump (P : cell -> Prop) (w : cell) (tbl : list (cell * nat)) :
  Forall (fun b => P (fst b)) tbl -> P w ->
  Forall (fun b => P (fst b)) (bump w tbl).
Proof.
  intros H Hw.
  induction tbl as [| [k c] rest IH]; simpl.
  - repeat constructor; exact Hw.
  - inversion H; subst.
    destruct (cell_eqb k w); constructor; auto.
Qed.

Lemma distinct_keys_bump (w : cell) (tbl : list (cell * nat)) :
  distinct_keys tbl -> distinct_keys (bump w tbl).
Proof.
  induction tbl as [| [k c] rest IH]; simpl.
  - intros _; split; [constructor | exact I].
  - intros (Hk & Hrest).
    destruct (cell_eqb k w) eqn:E; simpl.
    + split; assumption.
    + split; [| apply IH; exact Hrest].
      apply (Forall_bump (fun x => cell_eqb k x = false)); assumption.
Qed.

Lemma distinct_keys_tally (vals : list cell) : distinct_keys (tally vals).
Proof.
  unfold tally.
  assert (H : forall tbl, distinct_keys tbl ->
            distinct_keys (fold_left (fun t v => bump v t) vals tbl)).
  { induction vals as [| v vals IH]; intros tbl Ht; simpl; [exact Ht |].
    apply IH, distinct_keys_bump, Ht. }
  apply H; exact I.
Qed.

Lemma lookup_count_in (k : cell) (c : nat) (tbl : list (cell * nat)) :
  distinct_keys tbl -> In (k, c) tbl -> lookup_count k tbl = c.
Proof.
  induction tbl as [| [k0 c0] rest IH]; simpl; [tauto |].
  intros (Hk0 & Hrest) [Heq | Hin].
  - inversion Heq; subst; rewrite cell_eqb_refl; reflexivity.
  - rewrite Forall_forall in Hk0.
    specialize (Hk0 (k, c) Hin); simpl in Hk0.
    rewrite Hk0; apply IH; assumption.
Qed.

(** A row of the table carries the number of occurrences of its key. *)
Lemma tally_counts (k : cell) (c : nat) (vals : list cell) :
  In (k, c) (tally vals) -> c = occurrences k vals.
Proof.
  intros Hin.
  rewrite <- lookup_count_tally.
  symmetry; apply lookup_count_in; [apply distinct_keys_tally | exact Hin].
Qed.

Lemma lookup_count_found (v : cell) (tbl : list (cell * nat)) :
  0 < lookup_count v tbl ->
  exists k, In (k, lookup_count v tbl) tbl /\ cell_eqb k v = true.
Proof.
  induction tbl as [| [k c] rest IH]; simpl; [lia |].
  destruct (cell_eqb k v) eqn:E; intros H.
  - exists k; auto.
  - destruct (IH H) as (k' & Hin & Hk'); exists k'; auto.
Qed.

(** Every value of the column has a row in the table. *)
Lemma tally_complete (v : cell) (vals : list cell) :
  In v vals ->
  exists k, In (k, occurrences v vals) (tally vals) /\ cell_eqb k v = true.
Proof.
  intros Hin.
  rewrite <- lookup_count_tally.
  apply lookup_count_found.
  rewrite lookup_count_tally; unfold occurrences.
  assert (Hf : In v (filter (cell_eqb v) vals)).
  { apply filter_In; split; [exact Hin | apply cell_eqb_refl]. }
  destruct (filter (cell_eqb v) vals); [contradiction | simpl; lia].
Qed.

(** *** Sorting by count *)

Lemma insert_desc_perm (x : cell * nat) (l : list (cell * nat)) :
  Permutation (insert_desc x l) (x :: l).
Proof.
  induction l as [| y rest IH]; simpl; [reflexivity |].
  destruct (snd y <=? snd x); [reflexivity |].
  rewrite IH; apply perm_swap.
Qed.

Lemma sort_desc_perm (l : list (cell * nat)) : Permutation (sort_desc l) l.
Proof.
  induction l as [| x rest IH]; simpl; [reflexivity |].
  rewrite insert_desc_perm; constructor; exact IH.
Qed.

Lemma counts_sum_perm (l l' : list (cell * nat)) :
  Permutation l l' -> counts_sum l = counts_sum l'.
Proof.
  unfold counts_sum.
  induction 1 as [| x l l' _ IH | x y l | l l' l'' _ IH1 _ IH2]; simpl; lia.
Qed.

Lemma insert_desc_sorted (x : cell * nat) (l : list (cell * nat)) :
  Sorted count_ge l -> Sorted count_ge (insert_desc x l).
Proof.
  induction l as [| y rest IH]; simpl; intros Hs.
  - repeat constructor.
  - destruct (snd y <=? snd x) eqn:E.
    + constructor; [exact Hs |].
      constructor; unfold count_ge; apply Nat.leb_le; exact E.
    + apply Nat.leb_gt in E.
      inversion Hs as [| ? ? Hrest Hhd]; subst.
      constructor; [apply IH; exact Hrest |].
      destruct rest as [| z rest']; simpl.
      * constructor; unfold count_ge; lia.
      * destruct (snd z <=? snd x).
        -- constructor; unfold count_ge; lia.
        -- inversion Hhd; subst; constructor; assumption.
Qed.

Lemma sort_desc_sorted (l : list (cell * nat)) :
  StronglySorted count_ge (sort_desc l).
Proof.
  apply Sorted_StronglySorted.
  - intros a b c; unfold count_ge; lia.
  - induction l as [| x rest IH]; simpl; [constructor |].
    apply insert_desc_sorted; exact IH.
Qed.

(** In a list sorted by count the first [n] rows dominate the others. *)
Lemma head_dominates (n : nat) (l : list (cell * nat))
      (x y : cell * nat) :
  StronglySorted count_ge l ->
  In x (head n l) -> In y (skipn n l) -> snd y <= snd x.
Proof.
  unfold head.
  revert n; induction l as [| z rest IH]; intros n Hs Hx Hy.
  - destruct n; simpl in Hx; contradiction.
  - destruct n as [| n']; simpl in Hx, Hy; [contradiction |].
    inversion Hs as [| ? ? Hrest Hall]; subst.
    destruct Hx as [<- | Hx].
    + rewrite Forall_forall in Hall.
      apply (Hall y).
      rewrite <- (firstn_skipn n' rest); apply in_or_app; right; exact Hy.
    + apply (IH n'); assumption.
Qed.

(** *** [value_counts], [nunique], [count] of a column *)

Section ValueCounts.

Context {sorting : SortValues}.

Lemma value_counts_perm (s : Series) :
  Permutation (value_counts s) (tally (s_values (dropna s))).
Proof. apply sort_values_perm. Qed.

Lemma value_counts_sorted (s : Series) :
  StronglySorted count_ge (value_counts s).
Proof. apply sort_values_sorted. Qed.

Lemma value_counts_length (s : Series) :
  List.length (value_counts s) = nunique s.
Proof. unfold nunique; apply Permutation_length, value_counts_perm. Qed.

Lemma value_counts_sum (s : Series) :
  counts_sum (value_counts s) = count s.
Proof.
  rewrite (counts_sum_perm _ _ (value_counts_perm s)).
  apply counts_sum_tally.
Qed.

Lemma value_counts_counts (s : Series) (k : cell) (c : nat) :
  In (k, c) (value_counts s) ->
  c = occurrences k (s_values (dropna s)).
Proof.
  intros Hin; apply tally_counts.
  apply (Permutation_in _ (value_counts_perm s)); exact Hin.
Qed.

Lemma value_counts_complete (s : Series) (v : cell) :
  In v (s_values (dropna s)) ->
  exists k,
    In (k, occurrences v (s_values (dropna s))) (value_counts s) /\
    cell_eqb k v = true.
Proof.
  intros Hin.
  destruct (tally_complete v _ Hin) as (k & Hk & E).
  exists k; split; [| exact E].
  apply (Permutation_in _ (Permutation_sym (value_counts_perm s))); exact Hk.
Qed.

(** [head(n)] shows [min(n, nunique)] rows. *)
Lemma head_value_counts_length (n : nat) (s : Series) :
  List.length (head n (value_counts s)) = Nat.min n (nunique s).
Proof.
  unfold head; rewrite length_firstn, value_counts_length; reflexivity.
Qed.

(** A table with at most [n] rows is shown whole, so its counts add up to
    the number of non-missing values. *)
Lemma head_value_counts_sum (n : nat) (s : Series) :
  nunique s <= n ->
  counts_sum (head n (value_counts s)) = count s.
Proof.
  intros H; unfold head.
  rewrite firstn_all2; [apply value_counts_sum |].
  rewrite value_counts_length; exact H.
Qed.

End ValueCounts.

End PandasFacts.

(** ** The sample generator *)

Section SampleFacts.

Context {readers : Readers} {sorting : Pandas.SortValues} {stats : Stats}
        {fmt : Fmt} {random : NumpyRandom} {plots : Matplotlib}
        {files : Files}.

Import Py Pandas.

(** The generator is reseeded before the first draw, so the table and the
    generator state it leaves do not depend on the state it starts in;
    the sample table is built from arrays of scalars, so its view is
    always filled. *)
Lemma load_sample_data_fields (s : AppState) :
  exists s',
    load_sample_data s = (Ok tt, s', []) /\
    df s' = Some sample_table /\
    current_file s' = None /\
    np_random s' = sample_rng /\
    data_tree s' =
      mkTree (column_names sample_table)
             (display_rows sample_table
              ++ truncation_rows sample_table)%list /\
    column_combo s' = column_names sample_table /\
    column_var s' = hd (column_var s) (column_names sample_table) /\
    data_status_label s' = data_status_text sample_table None /\
    status_label s' = ("✅ Sample data loaded!", Success).
Proof.
  unfold load_sample_data.
  match goal with |- context [try_except ?body ?h s] =>
    assert (H : exists s', body s = (Ok tt, s', []) /\
      df s' = Some sample_table /\
      current_file s' = None /\
      np_random s' = sample_rng /\
      data_tree s' =
        mkTree (column_names sample_table)
               (display_rows sample_table
                ++ truncation_rows sample_table)%list /\
      column_combo s' = column_names sample_table /\
      column_var s' = hd (column_var s) (column_names sample_table) /\
      data_status_label s' = data_status_text sample_table None /\
      status_label s' = ("✅ Sample data loaded!", Success)) end.
  { cbv zeta.
    do 11 run_step.
    match goal with |- context [bind ?m ?k ?st] =>
      destruct (refresh_views_run "✅ Sample data loaded!" st sample_table
                  eq_refl eq_refl)
        as (s' & E & D & C & G & T & B & V & L & _ & S) end.
    rewrite E.
    exists s'; repeat split; assumption. }
  destruct H as (s' & E & H).
  exists s'; split; [apply try_except_ok; exact E | exact H].
Qed.

Lemma load_sample_data_run (s : AppState) :
  exists s',
    load_sample_data s = (Ok tt, s', []) /\
    df s' = Some sample_table /\
    current_file s' = None /\
    np_random s' = sample_rng.
Proof.
  destruct (load_sample_data_fields s) as (s' & E & D & C & G & _).
  exists s'; auto.
Qed.

Lemma load_sample_data_exec (s : AppState) :
  df (exec load_sample_data s) = Some sample_table /\
  np_random (exec load_sample_data s) = sample_rng /\
  result load_sample_data s = Ok tt /\
  shown load_sample_data s = [].
Proof.
  destruct (load_sample_data_run s) as (s' & E & D & _ & G).
  unfold exec, result, shown; rewrite E.
  repeat split; assumption.
Qed.

(** C6: [load_sample_data] reseeds numpy's generator before its first
    draw, so from any two states it leaves the same table (shape 1000 x 8,
    the same eight column names, equal cells) and the same generator
    state; a second invocation reproduces the table of the first. *)
Theorem sample_generator_deterministic (s1 s2 : AppState) :
  df (exec load_sample_data s1) = df (exec load_sample_data s2) /\
  df (exec load_sample_data s1) = Some sample_table /\
  np_random (exec load_sample_data s1)
    = np_random (exec load_sample_data s2) /\
  df (exec load_sample_data (exec load_sample_data s1))
    = df (exec load_sample_data s1) /\
  shape sample_table = (n_samples, 8) /\
  n_samples = 1000 /\
  column_names sample_table =
    ["Age"; "Income"; "Education_Years"; "Experience"; "Satisfaction";
     "Department"; "Performance_Score"; "City"] /\
  result load_sample_data s1 = Ok tt /\
  shown load_sample_data s1 = [].
Proof.
  destruct (load_sample_data_exec s1) as (D1 & G1 & R1 & O1).
  destruct (load_sample_data_exec s2) as (D2 & G2 & _).
  destruct (load_sample_data_exec (exec load_sample_data s1)) as (D3 & _).
  split; [rewrite D1, D2; reflexivity |].
  split; [exact D1 |].
  split; [rewrite G1, G2; reflexivity |].
  split; [rewrite D3, D1; reflexivity |].
  split; [reflexivity |].
  split; [reflexivity |].
  split; [reflexivity |].
  split; [exact R1 | exact O1].
Qed.

End SampleFacts.

Section SampleExamples.

#[local] Existing Instance stable_sorting.
#[local] Existing Instance Demo.readers.
#[local] Existing Instance Demo.stats.
#[local] Existing Instance Demo.fmt.
#[local] Existing Instance Demo.random.
#[local] Existing Instance Demo.plots.

Import Py Pandas.

Example sample_table_first_ages :
  option_map (fun c => firstn 3 (s_values c)) (getitem sample_table "Age")
  = Some [IntV 35; IntV 36; IntV 37].
Proof. vm_compute. reflexivity. Qed.

Lemma sample_generator_deterministic_witness :
  df (exec load_sample_data Demo.loaded)
  = df (exec load_sample_data (exec load_sample_data Demo.fresh)).
Proof.
  destruct (sample_generator_deterministic
              Demo.loaded (exec load_sample_data Demo.fresh)) as (H & _).
  exact H.
Defined.

End SampleExamples.

(** ** Histogram and column analysis *)

Section ColumnFacts.

Context {sorting : Pandas.SortValues} {stats : Stats} {fmt : Fmt}
        {plots : Matplotlib}.

Import Py Pandas PandasFacts.

Lemma getitem_has_column (d : DataFrame) (column : string) (series : Series) :
  getitem d column = Some series -> has_column d column = true.
Proof.
  unfold getitem, has_column, column_names.
  induction (columns d) as [| [n c] rest IH]; simpl; [discriminate |].
  rewrite (String.eqb_sym column n).
  destruct (String.eqb n column); [reflexivity | exact IH].
Qed.

(** The dtype tests of the two handlers, spelled out. *)
Lemma dtype_in_object_category (t : dtype) :
  dtype_in t ["object"; "category"] = true <-> t = object_ \/ t = category.
Proof.
  split.
  - destruct t; simpl; intros H; try discriminate; auto.
  - intros [-> | ->]; reflexivity.
Qed.

Lemma dtype_in_int64_float64 (t : dtype) :
  dtype_in t ["int64"; "float64"] = true <-> t = int64 \/ t = float64_.
Proof.
  split.
  - destruct t; simpl; intros H; try discriminate; auto.
  - intros [-> | ->]; reflexivity.
Qed.

Lemma number_not_object_category (t : dtype) :
  is_number t = true -> dtype_in t ["object"; "category"] = false.
Proof. destruct t; simpl; intros H; try discriminate; reflexivity. Qed.

(** What [plot_histogram] leaves when the selected column exists: a bar
    chart for a categorical column; for any other column the histogram,
    or, when [ax.hist] refuses the values, the cleared figure and an
    error dialog. *)
Lemma plot_histogram_bar (s : AppState) (d : DataFrame) (series : Series) :
  df s = Some d ->
  truthy (column_var s) = true ->
  getitem d (column_var s) = Some series ->
  dtype_in (s_dtype series) ["object"; "category"] = true ->
  plot_histogram s =
    (Ok tt,
     set_status_label
       ("✅ Histogram created for " ++ column_var s, Success)
       (set_right_notebook PlotTab
          (set_fig
             [BarAxes ("📊 Distribution of " ++ column_var s)
                (map fst (head 15 (value_counts series)))
                (map snd (head 15 (value_counts series)))
                (map (fun value => fmt_int value)
                   (map snd (head 15 (value_counts series))))]
             s)),
     []).
Proof.
  intros Hd Ht Hg Hk.
  unfold plot_histogram.
  rewrite bind_gets, bind_gets, Hd, Ht; cbv beta iota; simpl negb; cbv iota.
  apply try_except_ok.
  rewrite (getitem_has_column d _ series Hg).
  change (negb true) with false; cbv iota.
  unfold add_subplot, draw_on_subplot, df_getitem, update_status.
  rewrite Hg.
  do 3 run_step.
  rewrite Hk; cbv zeta; do 2 run_step; reflexivity.
Qed.

Lemma plot_histogram_hist (s : AppState) (d : DataFrame) (series : Series) :
  df s = Some d ->
  truthy (column_var s) = true ->
  getitem d (column_var s) = Some series ->
  dtype_in (s_dtype series) ["object"; "category"] = false ->
  hist (dropna series) 30 = Ok tt ->
  plot_histogram s =
    (Ok tt,
     set_status_label
       ("✅ Histogram created for " ++ column_var s, Success)
       (set_right_notebook PlotTab
          (set_fig
             [HistAxes ("📊 Histogram of " ++ column_var s) (column_var s)
                (dropna series) 30
                ["Mean: " ++ fmt_f 2 (mean (dropna series));
                 "Std: " ++ fmt_f 2 (std (dropna series));
                 "Count: " ++ fmt_int (len (dropna series))]]
             s)),
     []).
Proof.
  intros Hd Ht Hg Hk Hh.
  unfold plot_histogram.
  rewrite bind_gets, bind_gets, Hd, Ht; cbv beta iota; simpl negb; cbv iota.
  apply try_except_ok.
  rewrite (getitem_has_column d _ series Hg).
  change (negb true) with false; cbv iota.
  unfold add_subplot, draw_on_subplot, df_getitem, update_status.
  rewrite Hg.
  do 3 run_step.
  rewrite Hk; cbv zeta; rewrite Hh.
  reflexivity.
Qed.

Lemma plot_histogram_hist_fails (s : AppState) (d : DataFrame)
      (series : Series) (e : string) :
  df s = Some d ->
  truthy (column_var s) = true ->
  getitem d (column_var s) = Some series ->
  dtype_in (s_dtype series) ["object"; "category"] = false ->
  hist (dropna series) 30 = Raise e ->
  plot_histogram s =
    (Ok tt, set_fig [EmptyAxes] s,
     [ShowError "Error" ("Failed to create histogram:
" ++ e)]).
Proof.
  intros Hd Ht Hg Hk Hh.
  unfold plot_histogram.
  rewrite bind_gets, bind_gets, Hd, Ht; cbv beta iota; simpl negb; cbv iota.
  rewrite (getitem_has_column d _ series Hg).
  change (negb true) with false; cbv iota.
  unfold add_subplot, draw_on_subplot, df_getitem, update_status.
  rewrite Hg.
  unfold try_except.
  do 3 run_step.
  rewrite Hk; cbv zeta; rewrite Hh.
  reflexivity.
Qed.

(** C4: [plot_histogram] branches on the dtype of the selected column.
    An [object] column gives a bar chart of the first 15 rows of its
    frequency table: [min(15, K)] bars for [K] unique values, each as
    high as the number of occurrences of its label and labelled with that
    count, none lower than a row left out; a [category] column gives a
    bar chart of at most 15 bars as well.
    A numeric column gives a histogram with 30 bins over exactly the
    non-missing values, annotated with the mean, the standard deviation
    and the size of those same values, provided [ax.hist] accepts the
    values; when it raises, the figure is left with one empty axes, an
    error dialog carries the exception text, and tab and status stay. *)
Theorem histogram_by_column_kind (s : AppState) (d : DataFrame)
        (series : Series) :
  df s = Some d ->
  truthy (column_var s) = true ->
  getitem d (column_var s) = Some series ->
  (s_dtype series = object_ ->
   fig (exec plot_histogram s) =
     [BarAxes ("📊 Distribution of " ++ column_var s)
        (map fst (head 15 (value_counts series)))
        (map snd (head 15 (value_counts series)))
        (map (fun value => fmt_int value)
             (map snd (head 15 (value_counts series))))] /\
   List.length (head 15 (value_counts series))
     = Nat.min 15 (nunique series) /\
   (forall k c, In (k, c) (head 15 (value_counts series)) ->
      c = occurrences k (s_values (dropna series))) /\
   (forall shown_row other,
      In shown_row (head 15 (value_counts series)) ->
      In other (skipn 15 (value_counts series)) ->
      snd other <= snd shown_row) /\
   shown plot_histogram s = []) /\
  (s_dtype series = object_ \/ s_dtype series = category ->
   exists labels heights texts,
     fig (exec plot_histogram s) =
       [BarAxes ("📊 Distribution of " ++ column_var s)
          labels heights texts] /\
     List.length labels = List.length heights /\
     List.length texts = List.length heights /\
     List.length heights <= 15) /\
  (is_number (s_dtype series) = true ->
   hist (dropna series) 30 = Ok tt ->
   fig (exec plot_histogram s) =
     [HistAxes ("📊 Histogram of " ++ column_var s) (column_var s)
        (dropna series) 30
        ["Mean: " ++ fmt_f 2 (mean (dropna series));
         "Std: " ++ fmt_f 2 (std (dropna series));
         "Count: " ++ fmt_int (len (dropna series))]] /\
   s_values (dropna series)
     = filter (fun c => negb (isna c)) (s_values series) /\
   shown plot_histogram s = []) /\
  (forall e,
     is_number (s_dtype series) = true ->
     hist (dropna series) 30 = Raise e ->
     fig (exec plot_histogram s) = [EmptyAxes] /\
     shown plot_histogram s =
       [ShowError "Error" ("Failed to create histogram:
" ++ e)] /\
     right_notebook (exec plot_histogram s) = right_notebook s /\
     status_label (exec plot_histogram s) = status_label s) /\
  df (exec plot_histogram s) = df s.
Proof.
  intros Hd Ht Hg.
  assert (Hbar : s_dtype series = object_ \/ s_dtype series = category ->
            plot_histogram s = _)
    by (intros Hk; apply dtype_in_object_category in Hk;
        exact (plot_histogram_bar s d series Hd Ht Hg Hk)).
  split; [| split; [| split; [| split]]].
  - intros Hobj.
    unfold exec, shown; rewrite (Hbar (or_introl Hobj)).
    cbn [fst snd fig set_status_label set_right_notebook set_fig].
    split; [reflexivity |].
    split; [apply head_value_counts_length |].
    split.
    { intros k c Hin.
      apply value_counts_counts.
      unfold head in Hin.
      rewrite <- (firstn_skipn 15 (value_counts series)).
      apply in_or_app; left; exact Hin. }
    split; [| reflexivity].
    intros x y Hx Hy.
    apply (head_dominates 15 (value_counts series)); try assumption.
    apply value_counts_sorted.
  - intros Hcat.
    unfold exec; rewrite (Hbar Hcat).
    cbn [fst snd fig set_status_label set_right_notebook set_fig].
    do 3 eexists; split; [reflexivity |].
    rewrite !length_map.
    split; [reflexivity |]; split; [reflexivity |].
    unfold head; apply firstn_le_length.
  - intros Hnum Hh.
    unfold exec, shown.
    rewrite (plot_histogram_hist s d series Hd Ht Hg
               (number_not_object_category _ Hnum) Hh).
    repeat split.
  - intros e Hnum Hh.
    unfold exec, shown.
    rewrite (plot_histogram_hist_fails s d series e Hd Ht Hg
               (number_not_object_category _ Hnum) Hh).
    repeat split.
  - destruct (dtype_in (s_dtype series) ["object"; "category"]) eqn:Hk.
    + unfold exec; rewrite (plot_histogram_bar s d series Hd Ht Hg Hk).
      exact (eq_sym (eq_sym eq_refl)).
    + destruct (hist (dropna series) 30) as [[] | e] eqn:Hh.
      * unfold exec; rewrite (plot_histogram_hist s d series Hd Ht Hg Hk Hh).
        reflexivity.
      * unfold exec;
          rewrite (plot_histogram_hist_fails s d series e Hd Ht Hg Hk Hh).
        reflexivity.
Qed.

(** What [analyze_column] leaves when the selected column exists. *)
Lemma analyze_column_run (now : string) (s : AppState) (d : DataFrame)
      (data : Series) :
  df s = Some d ->
  truthy (column_var s) = true ->
  getitem d (column_var s) = Some data ->
  analyze_column now s =
    (Ok tt,
     set_status_label
       ("✅ Analysis completed for " ++ column_var s, Success)
       (set_right_notebook ResultsTab
          (set_results_text
             (column_header now (column_var s) data
              ++ (if dtype_in (s_dtype data) ["int64"; "float64"]
                  then numeric_analysis data
                  else categorical_analysis data))%list
             s)),
     []).
Proof.
  intros Hd Ht Hg.
  unfold analyze_column.
  rewrite bind_gets, bind_gets, Hd, Ht.
  change (negb true) with false; cbv iota.
  unfold df_getitem, update_status; rewrite Hg.
  cbv zeta; do 4 run_step; reflexivity.
Qed.

(** A label that is not in the table escapes the handler as an exception,
    before anything is written. *)
Lemma analyze_column_missing (now : string) (s : AppState) (d : DataFrame) :
  df s = Some d ->
  truthy (column_var s) = true ->
  getitem d (column_var s) = None ->
  analyze_column now s = (Raise ("'" ++ column_var s ++ "'"), s, []).
Proof.
  intros Hd Ht Hg.
  unfold analyze_column.
  rewrite bind_gets, bind_gets, Hd, Ht.
  change (negb true) with false; cbv iota.
  unfold df_getitem; rewrite Hg.
  reflexivity.
Qed.

(** The report of [analyze_column] by dtype of the selected column. *)
Lemma analyze_column_numeric_kinds (now : string) (s : AppState)
      (d : DataFrame) (data : Series) :
  df s = Some d ->
  truthy (column_var s) = true ->
  getitem d (column_var s) = Some data ->
  (s_dtype data = int64 \/ s_dtype data = float64_ ->
   results_text (exec (analyze_column now) s) =
     List.app (column_header now (column_var s) data)
              (numeric_analysis data))
  /\
  (s_dtype data <> int64 -> s_dtype data <> float64_ ->
   results_text (exec (analyze_column now) s) =
     List.app (column_header now (column_var s) data)
              (categorical_analysis data)).
Proof.
  intros Hd Ht Hg.
  unfold exec; rewrite (analyze_column_run now s d data Hd Ht Hg).
  cbn [fst snd results_text set_status_label set_right_notebook
       set_results_text].
  split.
  - intros Hnum.
    apply dtype_in_int64_float64 in Hnum; rewrite Hnum; reflexivity.
  - intros H1 H2.
    destruct (dtype_in (s_dtype data) ["int64"; "float64"]) eqn:E;
      [| reflexivity].
    apply dtype_in_int64_float64 in E; tauto.
Qed.

(** C10: [analyze_column] writes the numeric statistics exactly when the
    dtype of the column is [int64] or [float64]; for every other dtype,
    [int32], [float32] and [bool] among them, it writes the categorical
    analysis: number of unique values, most common value and the first
    ten rows of the frequency table. *)
Theorem analyze_column_numeric_dtypes (now : string) (s : AppState)
        (d : DataFrame) (data : Series) :
  df s = Some d ->
  truthy (column_var s) = true ->
  getitem d (column_var s) = Some data ->
  (s_dtype data = int64 \/ s_dtype data = float64_ ->
   results_text (exec (analyze_column now) s) =
     (column_header now (column_var s) data ++ numeric_analysis data)%list)
  /\
  (s_dtype data <> int64 -> s_dtype data <> float64_ ->
   results_text (exec (analyze_column now) s) =
     List.app (column_header now (column_var s) data)
       ["📝 CATEGORICAL ANALYSIS:";
        "Unique Values: " ++ fmt_comma (nunique data);
        "Most Common: " ++ most_common data;
        "";
        "Top 10 Values:";
        counts_to_string (head 10 (value_counts data))])
  /\
  (In (s_dtype data) [int32; float32; bool_] ->
   results_text (exec (analyze_column now) s) =
     (column_header now (column_var s) data
      ++ categorical_analysis data)%list).
Proof.
  intros Hd Ht Hg.
  unfold exec; rewrite (analyze_column_run now s d data Hd Ht Hg).
  cbn [fst snd results_text set_status_label set_right_notebook
       set_results_text].
  split; [| split].
  - intros Hnum.
    apply dtype_in_int64_float64 in Hnum; rewrite Hnum; reflexivity.
  - intros H1 H2.
    destruct (dtype_in (s_dtype data) ["int64"; "float64"]) eqn:E;
      [| reflexivity].
    apply dtype_in_int64_float64 in E; tauto.
  - intros Hin.
    destruct (dtype_in (s_dtype data) ["int64"; "float64"]) eqn:E;
      [| reflexivity].
    apply dtype_in_int64_float64 in E.
    simpl in Hin.
    destruct E as [E | E]; rewrite E in Hin;
      repeat (destruct Hin as [Hin | Hin]; [discriminate |]);
      contradiction.
Qed.

(** The Age and Department example where the dtype test of
    [analyze_column] lets the numeric column through: in a
    table with a numeric [Age] column stored as [int64] or [float64] and
    a categorical ([object]) [Department] column with five unique values,
    the report on [Age] is the header followed by the numeric statistics,
    with the mean, median and standard deviation pandas computes on that
    column; the report on [Department] gives 5 unique values and a
    ten-row frequency table that holds all five rows, whose counts add
    up to the number of non-missing values. *)
Theorem column_analysis_age_department (now : string) (s : AppState)
        (d : DataFrame) (age department : Series) :
  df s = Some d ->
  getitem d "Age" = Some age ->
  s_dtype age = int64 \/ s_dtype age = float64_ ->
  getitem d "Department" = Some department ->
  s_dtype department = object_ ->
  nunique department = 5 ->
  (results_text (exec (analyze_column now) (set_column_var "Age" s)) =
     List.app (column_header now "Age" age) (numeric_analysis age) /\
   In ("Mean: " ++ fmt_f 3 (mean age)) (numeric_analysis age) /\
   In ("Median: " ++ fmt_f 3 (median age)) (numeric_analysis age) /\
   In ("Standard Deviation: " ++ fmt_f 3 (std age)) (numeric_analysis age))
  /\
  (results_text (exec (analyze_column now) (set_column_var "Department" s)) =
     List.app (column_header now "Department" department)
              (categorical_analysis department) /\
   In ("Unique Values: " ++ fmt_comma 5) (categorical_analysis department) /\
   In (counts_to_string (head 10 (value_counts department)))
      (categorical_analysis department) /\
   List.length (head 10 (value_counts department)) = 5 /\
   counts_sum (head 10 (value_counts department)) = count department).
Proof.
  intros Hd Hage Hnum Hdept Hcat Huniq.
  split.
  - destruct (analyze_column_numeric_kinds now (set_column_var "Age" s) d age)
      as (N & _); try assumption; try reflexivity.
    split; [apply N; exact Hnum |].
    unfold numeric_analysis; cbn [In]; tauto.
  - destruct (analyze_column_numeric_kinds now
                (set_column_var "Department" s) d department)
      as (_ & C); try assumption; try reflexivity.
    split.
    { apply C; intros E; rewrite E in Hcat; discriminate. }
    split; [unfold categorical_analysis; rewrite Huniq; cbn [In]; tauto |].
    split; [unfold categorical_analysis; cbn [In]; tauto |].
    split.
    + rewrite head_value_counts_length, Huniq; reflexivity.
    + apply head_value_counts_sum; rewrite Huniq; lia.
Qed.

(** With no dataset resident each guarded handler shows its warning and
    returns at once. *)
Lemma plot_histogram_no_data (s : AppState) :
  df s = None ->
  plot_histogram s =
    (Ok tt, s, [ShowWarning "Warning" "No data or column selected!"]).
Proof.
  intros Hd; unfold plot_histogram.
  rewrite bind_gets, bind_gets, Hd; reflexivity.
Qed.

Lemma analyze_column_no_data (now : string) (s : AppState) :
  df s = None ->
  analyze_column now s =
    (Ok tt, s, [ShowWarning "Warning" "No data or column selected!"]).
Proof.
  intros Hd; unfold analyze_column.
  rewrite bind_gets, bind_gets, Hd; reflexivity.
Qed.

End ColumnFacts.

Section ColumnExamples.

#[local] Existing Instance stable_sorting.
#[local] Existing Instance Demo.stats.
#[local] Existing Instance Demo.fmt.
#[local] Existing Instance Demo.plots.

Import Py Pandas.

Example value_counts_department :
  value_counts Demo.department =
    [(StrV "IT", 2); (StrV "Sales", 1); (StrV "HR", 1); (StrV "Finance", 1);
     (StrV "Marketing", 1)].
Proof. reflexivity. Qed.

Example histogram_of_income_drops_missing :
  fig (exec plot_histogram (set_column_var "Income" Demo.loaded)) =
    [HistAxes "📊 Histogram of Income" "Income"
       (mkSeries float64_
          [FloatV (Fin 41000); FloatV (Fin 58000); FloatV (Fin 61000);
           FloatV (Fin 75000); FloatV (Fin 50000)])
       30 ["Mean: 57000"; "Std: 5"; "Count: 5"]].
Proof. reflexivity. Qed.

Lemma histogram_by_column_kind_witness :
  df (set_column_var "Department" Demo.loaded) = Some Demo.staff /\
  truthy "Department" = true /\
  getitem Demo.staff "Department" = Some Demo.department /\
  fig (exec plot_histogram (set_column_var "Department" Demo.loaded)) =
    [BarAxes "📊 Distribution of Department"
       [StrV "IT"; StrV "Sales"; StrV "HR"; StrV "Finance"; StrV "Marketing"]
       [2; 1; 1; 1; 1] ["2"; "1"; "1"; "1"; "1"]].
Proof.
  split; [reflexivity |].
  split; [reflexivity |].
  split; [reflexivity |].
  destruct (histogram_by_column_kind
              (set_column_var "Department" Demo.loaded)
              Demo.staff Demo.department)
    as (B & _); [reflexivity | reflexivity | reflexivity |].
  destruct (B eq_refl) as (F & _).
  rewrite F; reflexivity.
Defined.

(** A numeric column that holds an infinite value gets no histogram:
    [ax.hist] raises on the range, the figure is left with one empty axes
    and an error dialog is shown. *)
Lemma infinite_income_gets_no_histogram :
  df (set_column_var "Income" (set_df (Some Demo.staff_inf) Demo.fresh))
    = Some Demo.staff_inf /\
  getitem Demo.staff_inf "Income" = Some Demo.income_inf /\
  is_number (s_dtype Demo.income_inf) = true /\
  s_values (dropna Demo.income_inf)
    = [FloatV (Fin 41000); FloatV (Inf false); FloatV (Fin 61000)] /\
  fig (exec plot_histogram
            (set_column_var "Income"
               (set_df (Some Demo.staff_inf) Demo.fresh)))
    = [EmptyAxes] /\
  shown plot_histogram
        (set_column_var "Income" (set_df (Some Demo.staff_inf) Demo.fresh))
    = [ShowError "Error" "Failed to create histogram:
supplied range of [41000.0, inf] is not finite"] /\
  ~ (exists title xlabel data bins stats_text,
       fig (exec plot_histogram
                 (set_column_var "Income"
                    (set_df (Some Demo.staff_inf) Demo.fresh)))
       = [HistAxes title xlabel data bins stats_text]).
Proof.
  repeat (split; [reflexivity |]).
  intros (title & xlabel & data & bins & stats_text & H).
  discriminate H.
Qed.

Lemma column_analysis_age_department_witness :
  df Demo.loaded = Some Demo.staff /\
  getitem Demo.staff "Age" = Some Demo.age /\
  getitem Demo.staff "Department" = Some Demo.department /\
  nunique Demo.department = 5 /\
  In "Mean: 40" (numeric_analysis Demo.age) /\
  counts_sum (head 10 (value_counts Demo.department)) = 6.
Proof.
  split; [reflexivity |].
  split; [reflexivity |].
  split; [reflexivity |].
  split; [reflexivity |].
  destruct (column_analysis_age_department "2024-05-01 10:00:00"
              Demo.loaded Demo.staff Demo.age Demo.department)
    as ((_ & M & _) & (_ & _ & _ & _ & S));
    [ reflexivity | reflexivity | left; reflexivity | reflexivity
    | reflexivity | reflexivity | ].
  split; [exact M | exact S].
Defined.

(** C9 at an [Age] column stored as [int32]: the column is numeric for
    the correlation matrix and [plot_histogram] draws its histogram with
    mean and standard deviation, yet [analyze_column], which tests the
    dtype against ['int64'] and ['float64'] only, writes the categorical
    report for it, without mean, median or standard deviation. *)
Lemma int32_age_analyzed_as_categorical :
  df Demo.loaded32 = Some Demo.staff32 /\
  getitem Demo.staff32 "Age" = Some Demo.age32 /\
  is_number (s_dtype Demo.age32) = true /\
  In "Age" (cm_columns (corr (select_number Demo.staff32))) /\
  fig (exec plot_histogram Demo.loaded32) =
    [HistAxes "📊 Histogram of Age" "Age" Demo.age32 30
       ["Mean: 40"; "Std: 6"; "Count: 6"]] /\
  getitem Demo.staff32 "Department" = Some Demo.department /\
  nunique Demo.department = 5 /\
  results_text (exec (analyze_column "2024-05-01 10:00:00") Demo.loaded32) =
    ["🔍 COLUMN ANALYSIS: Age"; "2024-05-01 10:00:00"; repeat_str "=" 50;
     ""; "Data Type: int32"; "Non-null Count: 6 / 6";
     "Missing Values: 0 (0%)"; "";
     "📝 CATEGORICAL ANALYSIS:"; "Unique Values: 5"; "Most Common: 45";
     ""; "Top 10 Values:"; "45 2, 31 1, 28 1, 52 1, 39 1"] /\
  ~ In ("Mean: " ++ fmt_f 3 (mean Demo.age32))
       (results_text (exec (analyze_column "2024-05-01 10:00:00")
                           Demo.loaded32)).
Proof.
  repeat (split; [reflexivity || (simpl; tauto) |]).
  intros H; vm_compute in H.
  repeat (destruct H as [H | H]; [discriminate H |]).
  exact H.
Qed.

Lemma analyze_column_numeric_dtypes_witness :
  df (set_column_var "Level" Demo.loaded) = Some Demo.staff /\
  truthy "Level" = true /\
  getitem Demo.staff "Level" = Some Demo.level /\
  results_text (exec (analyze_column "2024-05-01 10:00:00")
                     (set_column_var "Level" Demo.loaded)) =
    ["🔍 COLUMN ANALYSIS: Level"; "2024-05-01 10:00:00"; repeat_str "=" 50;
     ""; "Data Type: int32"; "Non-null Count: 6 / 6";
     "Missing Values: 0 (0%)"; "";
     "📝 CATEGORICAL ANALYSIS:"; "Unique Values: 3"; "Most Common: 1";
     ""; "Top 10 Values:"; "1 3, 3 2, 2 1"].
Proof.
  split; [reflexivity |].
  split; [reflexivity |].
  split; [reflexivity |].
  destruct (analyze_column_numeric_dtypes "2024-05-01 10:00:00"
              (set_column_var "Level" Demo.loaded) Demo.staff Demo.level)
    as (_ & _ & C); [reflexivity | reflexivity | reflexivity |].
  rewrite C; [reflexivity | left; reflexivity].
Defined.

End ColumnExamples.

(** ** Handlers invoked before a dataset is loaded *)

Section GuardFacts.

Context {readers : Readers} {sorting : Pandas.SortValues} {stats : Stats}
        {fmt : Fmt} {random : NumpyRandom} {plots : Matplotlib}
        {files : Files}.

Import Py Pandas.

Lemma unloaded_warns (message : string) (k : DataFrame -> M unit)
      (s : AppState) :
  df s = None ->
  (d <- gets df ;;
   match d with
   | None => show (ShowWarning "Warning" message)
   | Some d => k d
   end) s = (Ok tt, s, [ShowWarning "Warning" message]).
Proof. intros Hd; rewrite bind_gets, Hd; reflexivity. Qed.

(** [show_data_info] has its own answer to a missing dataset: it writes
    a line to the info pane and shows no dialog. *)
Lemma show_data_info_no_data (s : AppState) :
  df s = None ->
  show_data_info s = (Ok tt, set_data_info_text ["No data loaded."] s, []).
Proof.
  intros Hd; unfold show_data_info; rewrite bind_gets, Hd; reflexivity.
Qed.

(** [clear_plot] does not look at the dataset. *)
Lemma clear_plot_run (s : AppState) :
  clear_plot s =
    (Ok tt,
     set_status_label ("🔄 Plot cleared", Info) (set_fig [WelcomeAxes] s),
     []).
Proof. reflexivity. Qed.

(** The placeholders show a notice and change nothing. *)
Lemma coming_soon_run (message : string) (s : AppState) :
  coming_soon message s = (Ok tt, s, [ShowInfo "Info" message]).
Proof. reflexivity. Qed.

(** C5, as the handlers have it: each handler that works on the dataset
    (statistical summary, correlation analysis, correlation heatmap,
    histogram and its two aliases, scatter plot, column analysis), invoked
    while no dataset is resident, shows one warning dialog and leaves the
    whole application state as it was. *)
Theorem guarded_handlers_warn (now : string) (h : handler) (s : AppState) :
  df s = None ->
  guarded h = true ->
  warns_without_change now h s.
Proof.
  intros Hd Hg; unfold warns_without_change.
  exists "Warning".
  destruct h; simpl in Hg; try discriminate; simpl run.
  - eexists; apply unloaded_warns; exact Hd.
  - eexists; apply unloaded_warns; exact Hd.
  - eexists; apply unloaded_warns; exact Hd.
  - eexists; apply plot_histogram_no_data; exact Hd.
  - eexists; apply unloaded_warns; exact Hd.
  - eexists; apply analyze_column_no_data; exact Hd.
  - eexists; apply plot_histogram_no_data; exact Hd.
  - eexists; apply plot_histogram_no_data; exact Hd.
Qed.

End GuardFacts.

Section GuardExamples.

#[local] Existing Instance stable_sorting.
#[local] Existing Instance Demo.readers.
#[local] Existing Instance Demo.stats.
#[local] Existing Instance Demo.fmt.
#[local] Existing Instance Demo.random.
#[local] Existing Instance Demo.files.
#[local] Existing Instance Demo.plots.

Import Py Pandas.

Lemma guarded_handlers_warn_witness :
  df Demo.fresh = None /\
  guarded CorrelationAnalysis = true /\
  warns_without_change "2024-05-01 10:00:00" CorrelationAnalysis Demo.fresh.
Proof.
  split; [reflexivity |].
  split; [reflexivity |].
  apply (guarded_handlers_warn "2024-05-01 10:00:00" CorrelationAnalysis
           Demo.fresh); reflexivity.
Defined.

(** Right after start-up [clear_plot] shows no warning and changes the
    status line, and [show_data_info] shows no warning and rewrites the
    info pane: not every handler warns and leaves the state alone. *)
Lemma unguarded_handlers_change_state :
  df Demo.fresh = None /\
  ~ warns_without_change "2024-05-01 10:00:00" ClearPlot Demo.fresh /\
  shown (run "2024-05-01 10:00:00" ClearPlot) Demo.fresh = [] /\
  status_label (exec (run "2024-05-01 10:00:00" ClearPlot) Demo.fresh)
    = ("🔄 Plot cleared", Info) /\
  ~ warns_without_change "2024-05-01 10:00:00" ShowDataInfo Demo.fresh /\
  shown (run "2024-05-01 10:00:00" ShowDataInfo) Demo.fresh = [] /\
  data_info_text (exec (run "2024-05-01 10:00:00" ShowDataInfo) Demo.fresh)
    = ["No data loaded."] /\
  ~ (forall now h s, df s = None -> warns_without_change now h s).
Proof.
  assert (C : ~ warns_without_change "2024-05-01 10:00:00" ClearPlot
                  Demo.fresh).
  { intros (title & message & E); simpl run in E.
    rewrite clear_plot_run in E; discriminate E. }
  assert (I : ~ warns_without_change "2024-05-01 10:00:00" ShowDataInfo
                  Demo.fresh).
  { intros (title & message & E); simpl run in E.
    rewrite (show_data_info_no_data Demo.fresh eq_refl) in E.
    discriminate E. }
  repeat split; try assumption.
  intros H; apply C, H; reflexivity.
Qed.

End GuardExamples.

(** * Further properties of the handlers *)

(** ** What a sequence leaves, raises and shows *)

Lemma exec_bind {A B : Type} (m : M A) (k : A -> M B) (s : AppState) :
  exec (bind m k) s =
    match result m s with
    | Ok a => exec (k a) (exec m s)
    | Raise _ => exec m s
    end.
Proof.
  unfold exec, result, bind.
  destruct (m s) as [[[a | e] s1] out1]; simpl; [| reflexivity].
  destruct (k a s1) as [[r s2] out2]; reflexivity.
Qed.

Lemma result_bind {A B : Type} (m : M A) (k : A -> M B) (s : AppState) :
  result (bind m k) s =
    match result m s with
    | Ok a => result (k a) (exec m s)
    | Raise e => Raise e
    end.
Proof.
  unfold exec, result, bind.
  destruct (m s) as [[[a | e] s1] out1]; simpl; [| reflexivity].
  destruct (k a s1) as [[r s2] out2]; reflexivity.
Qed.

Lemma exec_try_except {A : Type} (m : M A) (h : string -> M A)
      (s : AppState) :
  exec (try_except m h) s =
    match result m s with
    | Ok _ => exec m s
    | Raise e => exec (h e) (exec m s)
    end.
Proof.
  unfold exec, result, try_except.
  destruct (m s) as [[[a | e] s1] out1]; simpl; [reflexivity |].
  destruct (h e s1) as [[r s2] out2]; reflexivity.
Qed.

Lemma result_try_except {A : Type} (m : M A) (h : string -> M A)
      (s : AppState) :
  result (try_except m h) s =
    match result m s with
    | Ok a => Ok a
    | Raise e => result (h e) (exec m s)
    end.
Proof.
  unfold exec, result, try_except.
  destruct (m s) as [[[a | e] s1] out1]; simpl; [reflexivity |].
  destruct (h e s1) as [[r s2] out2]; reflexivity.
Qed.

Lemma keeps_bind {A B C : Type} (f : AppState -> C) (m : M A)
      (k : A -> M B) :
  keeps f m -> (forall a, keeps f (k a)) -> keeps f (bind m k).
Proof.
  intros Hm Hk s; rewrite exec_bind.
  destruct (result m s) as [a | e]; [rewrite Hk |]; apply Hm.
Qed.

Lemma keeps_try_except {A C : Type} (f : AppState -> C) (m : M A)
      (h : string -> M A) :
  keeps f m -> (forall e, keeps f (h e)) -> keeps f (try_except m h).
Proof.
  intros Hm Hh s; rewrite exec_try_except.
  destruct (result m s) as [a | e]; [| rewrite Hh]; apply Hm.
Qed.

Lemma keeps_modify {C : Type} (f : AppState -> C)
      (g : AppState -> AppState) :
  (forall s, f (g s) = f s) -> keeps f (modify g).
Proof. intros H s; apply H. Qed.

Lemma keeps_pure {A C : Type} (f : AppState -> C) (m : M A) :
  (forall s, exec m s = s) -> keeps f m.
Proof. intros H s; rewrite H; reflexivity. Qed.

Lemma never_raises_bind {A B : Type} (m : M A) (k : A -> M B) :
  never_raises m -> (forall a, never_raises (k a)) ->
  never_raises (bind m k).
Proof.
  intros Hm Hk s; rewrite result_bind.
  destruct (Hm s) as (a & E); rewrite E; apply Hk.
Qed.

(** A [try] whose handler returns normally absorbs whatever its body
    raises. *)
Lemma never_raises_try_except {A : Type} (m : M A) (h : string -> M A) :
  (forall e, never_raises (h e)) -> never_raises (try_except m h).
Proof.
  intros Hh s; rewrite result_try_except.
  destruct (result m s) as [a | e]; [exists a; reflexivity | apply Hh].
Qed.

Lemma never_raises_total {A : Type} (m : M A) :
  (forall s, exists a, result m s = Ok a) -> never_raises m.
Proof. intros H; exact H. Qed.

Ltac keeps_step :=
  match goal with
  | |- keeps _ (bind _ _) => apply keeps_bind; [| intros ?]
  | |- keeps _ (try_except _ _) => apply keeps_try_except; [| intros ?]
  | |- keeps _ (modify _) => apply keeps_modify; intros; reflexivity
  | |- keeps _ (ret _) => apply keeps_pure; intros; reflexivity
  | |- keeps _ (gets _) => apply keeps_pure; intros; reflexivity
  | |- keeps _ (lift _) => apply keeps_pure; intros; reflexivity
  | |- keeps _ (show _) => apply keeps_pure; intros; reflexivity
  | |- keeps _ (draw _) => intros ?; reflexivity
  | |- keeps _ (match ?x with _ => _ end) => destruct x
  | |- keeps _ (let _ := _ in _) => cbv zeta
  end.

Ltac keeps_auto :=
  unfold create_welcome_plot, coming_soon;
  unfold update_status, add_subplot, draw_on_subplot, df_getitem;
  repeat keeps_step.

(** ** What the handlers leave alone *)

Section FrameFacts.

Context {readers : Readers} {sorting : Pandas.SortValues} {stats : Stats}
        {fmt : Fmt} {random : NumpyRandom} {plots : Matplotlib}
        {files : Files}.

Import Py Pandas.

Ltac keeps_handler :=
  unfold plot_column, distribution_analysis;
  unfold load_data, load_sample_data, update_data_display,
         update_column_list, update_data_status, show_data_info,
         show_statistical_summary, correlation_analysis,
         plot_correlation_heatmap, plot_histogram, plot_scatter,
         create_scatter, save_plot, clear_plot, analyze_column;
  keeps_auto.

Lemma analysis_keeps_dataset (now : string) (h : handler) :
  loads h = false ->
  keeps (fun s => (df s, current_file s, data_tree s, column_combo s,
                   column_var s, data_status_label s, np_random s))
        (run now h).
Proof.
  intros Hl.
  destruct h; simpl in Hl; try discriminate; simpl run; keeps_handler.
Qed.

(** Only the two loaders touch the dataset: every other handler leaves
    the table, the file name, the data view, the column list, the
    selected column, the data status and numpy's generator as they
    were, in every state and whatever it shows or raises. *)
Theorem only_loaders_change_dataset (now : string) (h : handler)
        (s : AppState) :
  loads h = false ->
  df (exec (run now h) s) = df s /\
  current_file (exec (run now h) s) = current_file s /\
  data_tree (exec (run now h) s) = data_tree s /\
  column_combo (exec (run now h) s) = column_combo s /\
  column_var (exec (run now h) s) = column_var s /\
  data_status_label (exec (run now h) s) = data_status_label s /\
  np_random (exec (run now h) s) = np_random s.
Proof.
  intros Hl.
  pose proof (analysis_keeps_dataset now h Hl s) as H; simpl in H.
  inversion H as [[H1 H2 H3 H4 H5 H6 H7]].
  rewrite H1, H2, H3, H4, H5, H6, H7; repeat split.
Qed.

Lemma others_keep_figure (now : string) (h : handler) :
  draws h = false -> keeps fig (run now h).
Proof.
  intros Hd.
  destruct h; simpl in Hd; try discriminate; simpl run; keeps_handler.
Qed.

Lemma others_keep_results (now : string) (h : handler) :
  reports h = false -> keeps results_text (run now h).
Proof.
  intros Hr.
  destruct h; simpl in Hr; try discriminate; simpl run; keeps_handler.
Qed.

Lemma others_keep_tab (now : string) (h : handler) :
  draws h = false -> reports h = false -> keeps right_notebook (run now h).
Proof.
  intros Hd Hr.
  destruct h; simpl in Hd, Hr; try discriminate; simpl run; keeps_handler.
Qed.

(** The figure is touched only by the drawing handlers and the results
    pane only by the three report handlers; a handler of neither kind,
    loading included, also leaves the selected tab alone. *)
Theorem figure_and_results_footprint (now : string) (h : handler)
        (s : AppState) :
  (draws h = false -> fig (exec (run now h) s) = fig s) /\
  (reports h = false ->
   results_text (exec (run now h) s) = results_text s) /\
  (draws h = false -> reports h = false ->
   right_notebook (exec (run now h) s) = right_notebook s).
Proof.
  split; [| split].
  - intros Hd; apply (others_keep_figure now h Hd s).
  - intros Hr; apply (others_keep_results now h Hr s).
  - intros Hd Hr; apply (others_keep_tab now h Hd Hr s).
Qed.

End FrameFacts.

(** ** Exceptions stop at the handler *)

Ltac returns_step :=
  match goal with
  | |- never_raises (try_except _ _) =>
      apply never_raises_try_except; intros ?
  | |- never_raises (bind _ _) => apply never_raises_bind; [| intros ?]
  | |- never_raises (match ?x with _ => _ end) => destruct x
  | |- never_raises (let _ := _ in _) => cbv zeta
  | |- never_raises _ => intros ?; eexists; reflexivity
  end.

Section ReturnFacts.

Context {readers : Readers} {sorting : Pandas.SortValues} {stats : Stats}
        {fmt : Fmt} {random : NumpyRandom} {plots : Matplotlib}
        {files : Files}.

Import Py Pandas.

Lemma handlers_never_raise (now : string) (h : handler) :
  h <> AnalyzeColumn -> never_raises (run now h).
Proof.
  intros Hh.
  destruct h; try congruence; simpl run;
    unfold plot_column, distribution_analysis;
    unfold load_data, load_sample_data, show_data_info,
           show_statistical_summary, correlation_analysis,
           plot_correlation_heatmap, plot_histogram, plot_scatter,
           create_scatter, save_plot, clear_plot, coming_soon;
    unfold create_welcome_plot, add_subplot, update_status;
    repeat returns_step.
Qed.

(** Whatever the readers, the summary functions or [savefig] raise, every
    handler other than [analyze_column] returns normally: its [try]
    turns the exception into a dialog or a status line. *)
Theorem exceptions_stop_at_handler (now : string) (h : handler)
        (s : AppState) :
  h <> AnalyzeColumn -> result (run now h) s = Ok tt.
Proof.
  intros Hh.
  destruct (handlers_never_raise now h Hh s) as ([] & E); exact E.
Qed.

Lemma analyze_column_raise_inv (now : string) (s : AppState) (e : string) :
  result (analyze_column now) s = Raise e ->
  exists d, df s = Some d /\ truthy (column_var s) = true /\
            getitem d (column_var s) = None.
Proof.
  intros He.
  destruct (df s) as [d |] eqn:Hd.
  - exists d; split; [reflexivity |].
    destruct (truthy (column_var s)) eqn:Ht.
    + split; [reflexivity |].
      destruct (getitem d (column_var s)) as [data |] eqn:Hg;
        [| reflexivity].
      unfold result in He.
      rewrite (analyze_column_run now s d data Hd Ht Hg) in He.
      discriminate He.
    + unfold result, analyze_column in He.
      rewrite bind_gets, bind_gets, Hd, Ht in He; discriminate He.
  - unfold result in He.
    rewrite (analyze_column_no_data now s Hd) in He; discriminate He.
Qed.

(** [analyze_column] has no [try] and does not test that the selected
    label is a column: it lets an exception escape exactly when a dataset
    is resident, a label is selected and the table has no such column
    (the reductions of pandas over a column do not raise); then nothing
    was written and no dialog is shown. *)
Theorem analyze_column_raises_iff (now : string) (s : AppState) :
  ((exists e, result (analyze_column now) s = Raise e) <->
   (exists d, df s = Some d /\ truthy (column_var s) = true /\
              getitem d (column_var s) = None)) /\
  (forall e, result (analyze_column now) s = Raise e ->
     exec (analyze_column now) s = s /\ shown (analyze_column now) s = []).
Proof.
  split; [split |].
  - intros (e & He); apply (analyze_column_raise_inv now s e He).
  - intros (d & Hd & Ht & Hg).
    exists ("'" ++ column_var s ++ "'").
    unfold result; rewrite (analyze_column_missing now s d Hd Ht Hg).
    reflexivity.
  - intros e He.
    destruct (analyze_column_raise_inv now s e He) as (d & Hd & Ht & Hg).
    unfold exec, shown; rewrite (analyze_column_missing now s d Hd Ht Hg).
    split; reflexivity.
Qed.

End ReturnFacts.

(** ** The views after a load *)

Section ViewFacts.

Context {readers : Readers} {sorting : Pandas.SortValues} {stats : Stats}
        {fmt : Fmt} {random : NumpyRandom} {plots : Matplotlib}
        {files : Files}.

Import Py Pandas.

(** When the reader returned a table and the rows to be shown can be read
    cell by cell (scalars under distinct labels), [load_data] leaves the
    data view with the table's column labels, its first [min(100, N)]
    rows and, when [N > 100], two more rows telling that the view is cut;
    every row has one cell per column. *)
Theorem load_fills_data_view (file_path : string) (d : DataFrame)
        (s : AppState) :
  truthy file_path = true ->
  read_by_extension file_path = Ok d ->
  display_stop (Some file_path) d = None ->
  tv_columns (data_tree (exec (load_data file_path) s)) = column_names d /\
  List.length (tv_rows (data_tree (exec (load_data file_path) s)))
    = Nat.min 100 (index_len d) + (if 100 <? index_len d then 2 else 0) /\
  Forall (fun row => List.length row = List.length (columns d))
         (tv_rows (data_tree (exec (load_data file_path) s))) /\
  firstn (Nat.min 100 (index_len d))
         (tv_rows (data_tree (exec (load_data file_path) s)))
    = map (fun i => map (fun col => display_value (iloc_at d i col))
                        (column_names d))
          (seq 0 (Nat.min 100 (index_len d))).
Proof.
  intros Ht Hr Hs.
  destruct (load_data_ok_fields file_path d s Ht Hr Hs)
    as (s' & E & _ & _ & T & _).
  unfold exec; rewrite E; cbn [fst snd]; rewrite T; cbn [tv_columns tv_rows].
  split; [reflexivity |].
  split; [apply display_rows_length |].
  split; [apply display_rows_width |].
  rewrite firstn_app.
  replace (Nat.min 100 (index_len d) - List.length (display_rows d))
    with 0
    by (unfold display_rows; rewrite length_map, length_seq; lia).
  rewrite firstn_all2
    by (unfold display_rows; rewrite length_map, length_seq; lia).
  simpl firstn; rewrite app_nil_r; reflexivity.
Qed.

(** When the reader returned a table and the rows to be shown can be read
    cell by cell, [load_data] leaves the combobox with the table's columns
    and the first of them selected; a table without columns leaves the
    previous selection in place.  The closing status is the success
    message and no dialog is shown even when the info pane could not be
    filled: that failure only keeps the old text of the pane. *)
Theorem load_selects_first_column (file_path : string) (d : DataFrame)
        (s : AppState) :
  truthy file_path = true ->
  read_by_extension file_path = Ok d ->
  display_stop (Some file_path) d = None ->
  column_combo (exec (load_data file_path) s) = column_names d /\
  column_var (exec (load_data file_path) s)
    = hd (column_var s) (column_names d) /\
  status_label (exec (load_data file_path) s)
    = ("✅ Data loaded successfully!", Success) /\
  shown (load_data file_path) s = [] /\
  (forall e, data_info d = Raise e ->
     data_info_text (exec (load_data file_path) s) = data_info_text s) /\
  (forall info_text, data_info d = Ok info_text ->
     data_info_text (exec (load_data file_path) s) = info_text).
Proof.
  intros Ht Hr Hs.
  destruct (load_data_ok_fields file_path d s Ht Hr Hs)
    as (s' & E & _ & _ & _ & B & V & _ & I & S).
  unfold exec, shown; rewrite E; cbn [fst snd].
  repeat split; try assumption.
  - intros e He; rewrite I, He; reflexivity.
  - intros info He; rewrite I, He; reflexivity.
Qed.

(** When the reader returned a table but a cell among the rows to be
    shown cannot be read (a list in a cell, a repeated label), the
    exception reaches the [except] of [load_data] after the table and the
    path were assigned: the new table is resident under the new path, the
    data view has its columns and the rows before the failing one, and
    the combobox, the selection, the info pane and the data status still
    show the previous table.  The error dialog carries the exception text
    and the status tells the failure. *)
Theorem load_failing_in_view_keeps_table (file_path : string)
        (d : DataFrame) (k : nat) (e : string) (s : AppState) :
  truthy file_path = true ->
  read_by_extension file_path = Ok d ->
  display_stop (Some file_path) d = Some (k, e) ->
  df (exec (load_data file_path) s) = Some d /\
  current_file (exec (load_data file_path) s) = Some file_path /\
  tv_columns (data_tree (exec (load_data file_path) s)) = column_names d /\
  List.length (tv_rows (data_tree (exec (load_data file_path) s))) = k /\
  k < Nat.min 100 (index_len d) /\
  column_combo (exec (load_data file_path) s) = column_combo s /\
  column_var (exec (load_data file_path) s) = column_var s /\
  data_info_text (exec (load_data file_path) s) = data_info_text s /\
  data_status_label (exec (load_data file_path) s) = data_status_label s /\
  status_label (exec (load_data file_path) s)
    = ("❌ Failed to load data", Error) /\
  shown (load_data file_path) s =
    [ShowError "Error" ("Failed to load data:
" ++ e)] /\
  result (load_data file_path) s = Ok tt.
Proof.
  intros Ht Hr Hs.
  unfold exec, shown, result.
  rewrite (load_data_display_fails file_path d k e s Ht Hr Hs).
  cbn [fst snd df current_file data_tree column_combo column_var
       data_info_text data_status_label status_label tv_columns tv_rows
       set_status_label set_data_tree set_current_file set_df].
  repeat (split; [reflexivity |]).
  split; [unfold view_rows; rewrite length_map, length_seq; reflexivity |].
  split; [| repeat split].
  unfold display_stop in Hs.
  destruct (display_failure file_path) as [[k' e'] |]; [| discriminate].
  destruct (k' <? Nat.min 100 (index_len d)) eqn:Hk; [| discriminate].
  destruct (negb (List.length (columns d) =? 0)); [| discriminate].
  inversion Hs; subst; apply Nat.ltb_lt; exact Hk.
Qed.

End ViewFacts.

Section SampleViewFacts.

Context {readers : Readers} {sorting : Pandas.SortValues} {stats : Stats}
        {fmt : Fmt} {random : NumpyRandom} {plots : Matplotlib}
        {files : Files}.

Import Py Pandas.

(** Loading the sample after a file forgets the file: whatever was
    resident, [current_file] is [None] afterwards, the data status names
    "Sample Data", the first sample column [Age] is selected, and the
    data view holds the first 100 of the 1000 rows plus the two rows that
    tell so. *)
Theorem sample_load_resets_views (s : AppState) :
  current_file (exec load_sample_data s) = None /\
  data_status_label (exec load_sample_data s) =
    "📊 " ++ fmt_comma 1000 ++ " rows × " ++ fmt_int 8
    ++ " columns | File: Sample Data" /\
  column_var (exec load_sample_data s) = "Age" /\
  column_combo (exec load_sample_data s) =
    ["Age"; "Income"; "Education_Years"; "Experience"; "Satisfaction";
     "Department"; "Performance_Score"; "City"] /\
  List.length (tv_rows (data_tree (exec load_sample_data s))) = 102 /\
  nth 101 (tv_rows (data_tree (exec load_sample_data s))) [] =
    ["Showing first 100 of " ++ fmt_int 1000 ++ " rows";
     ""; ""; ""; ""; ""; ""; ""].
Proof.
  destruct (load_sample_data_fields s)
    as (s' & E & _ & C & _ & T & B & V & L & _).
  unfold exec; rewrite E; cbn [fst snd].
  rewrite C, L, V, B, T; cbn [tv_rows].
  split; [reflexivity |].
  split; [reflexivity |].
  split; [reflexivity |].
  split; [reflexivity |].
  split.
  - rewrite display_rows_length; reflexivity.
  - rewrite app_nth2
      by (unfold display_rows; rewrite length_map, length_seq;
          vm_compute; lia).
    unfold display_rows; rewrite length_map, length_seq.
    reflexivity.
Qed.

End SampleViewFacts.

(** ** Guards and failures of the plotting handlers *)

Section PlotFacts.

Context {readers : Readers} {sorting : Pandas.SortValues} {stats : Stats}
        {fmt : Fmt} {random : NumpyRandom} {plots : Matplotlib}
        {files : Files}.

Import Py Pandas.

Lemma has_column_false_getitem (d : DataFrame) (column : string) :
  has_column d column = false <-> getitem d column = None.
Proof.
  unfold getitem, has_column, column_names.
  induction (columns d) as [| [n c] rest IH]; simpl; [tauto |].
  rewrite (String.eqb_sym column n).
  destruct (String.eqb n column); simpl; [| exact IH].
  split; discriminate.
Qed.

Lemma in_column_names_getitem (d : DataFrame) (column : string) :
  In column (column_names d) -> exists series, getitem d column = Some series.
Proof.
  intros Hin.
  destruct (getitem d column) as [series |] eqn:E; [eauto |].
  apply has_column_false_getitem in E.
  unfold has_column in E.
  assert (existsb (String.eqb column) (column_names d) = true).
  { apply existsb_exists; exists column; split;
      [exact Hin | apply String.eqb_refl]. }
  congruence.
Qed.

Lemma plot_histogram_unselected (s : AppState) (d : DataFrame) :
  df s = Some d ->
  truthy (column_var s) = false ->
  plot_histogram s =
    (Ok tt, s, [ShowWarning "Warning" "No data or column selected!"]).
Proof.
  intros Hd Ht; unfold plot_histogram.
  rewrite bind_gets, bind_gets, Hd, Ht; reflexivity.
Qed.

Lemma plot_histogram_not_found (s : AppState) (d : DataFrame) :
  df s = Some d ->
  truthy (column_var s) = true ->
  getitem d (column_var s) = None ->
  plot_histogram s =
    (Ok tt, s, [ShowWarning "Warning" "Selected column not found!"]).
Proof.
  intros Hd Ht Hg; unfold plot_histogram.
  rewrite bind_gets, bind_gets, Hd, Ht.
  change (negb true) with false; cbv iota.
  apply has_column_false_getitem in Hg; rewrite Hg.
  reflexivity.
Qed.

(** [plot_histogram] checks the selection before it touches the figure:
    with a dataset resident, an empty selection or a label that is not a
    column of the table gives a warning and leaves the whole state, the
    previous figure included, as it was. *)
Theorem plot_histogram_checks_selection (s : AppState) (d : DataFrame) :
  df s = Some d ->
  truthy (column_var s) = false \/ getitem d (column_var s) = None ->
  exec plot_histogram s = s /\
  result plot_histogram s = Ok tt /\
  shown plot_histogram s =
    [ShowWarning "Warning"
       (if truthy (column_var s) then "Selected column not found!"
        else "No data or column selected!")].
Proof.
  intros Hd H.
  unfold exec, result, shown.
  destruct (truthy (column_var s)) eqn:Ht.
  - destruct H as [H | H]; [discriminate |].
    rewrite (plot_histogram_not_found s d Hd Ht H); repeat split.
  - rewrite (plot_histogram_unselected s d Hd Ht); repeat split.
Qed.

(** The heatmap handler by cases. *)
Lemma plot_correlation_heatmap_empty (s : AppState) (d : DataFrame) :
  df s = Some d ->
  empty (select_number d) = true ->
  plot_correlation_heatmap s =
    (Ok tt, s,
     [ShowWarning "Warning" "No numeric columns for correlation heatmap!"]).
Proof.
  intros Hd He; unfold plot_correlation_heatmap.
  rewrite bind_gets, Hd; cbv zeta; rewrite He; reflexivity.
Qed.

(** The heatmap and its colorbar are two axes of the figure. *)
Lemma plot_correlation_heatmap_run (s : AppState) (d : DataFrame) :
  df s = Some d ->
  empty (select_number d) = false ->
  heatmap (corr (select_number d)) = Ok tt ->
  plot_correlation_heatmap s =
    (Ok tt,
     set_status_label ("✅ Correlation heatmap created", Success)
       (set_right_notebook PlotTab
          (set_fig [HeatmapAxes "🔥 Correlation Matrix Heatmap"
                      (corr (select_number d));
                    ColorbarAxes] s)),
     []).
Proof.
  intros Hd He Hh; unfold plot_correlation_heatmap.
  rewrite bind_gets, Hd; cbv zeta; rewrite He.
  apply try_except_ok.
  unfold add_subplot, draw_on_subplot, update_status.
  do 2 run_step; rewrite Hh; reflexivity.
Qed.

Lemma plot_correlation_heatmap_fails (s : AppState) (d : DataFrame)
      (e : string) :
  df s = Some d ->
  empty (select_number d) = false ->
  heatmap (corr (select_number d)) = Raise e ->
  plot_correlation_heatmap s =
    (Ok tt, set_fig [EmptyAxes] s,
     [ShowError "Error" ("Failed to create heatmap:
" ++ e)]).
Proof.
  intros Hd He Hh; unfold plot_correlation_heatmap.
  rewrite bind_gets, Hd; cbv zeta; rewrite He.
  unfold try_except, add_subplot, draw_on_subplot, update_status.
  do 2 run_step; rewrite Hh; reflexivity.
Qed.

(** On a table without rows both correlation handlers only warn, with a
    message about missing numeric columns, however many numeric columns
    the table has; nothing is computed or changed. *)
Theorem correlation_handlers_need_rows (now : string) (s : AppState)
        (d : DataFrame) :
  df s = Some d ->
  index_len d = 0 ->
  correlation_analysis now s =
    (Ok tt, s,
     [ShowWarning "Warning" "No numeric columns for correlation analysis!"])
  /\
  plot_correlation_heatmap s =
    (Ok tt, s,
     [ShowWarning "Warning" "No numeric columns for correlation heatmap!"]).
Proof.
  intros Hd Hn.
  assert (He : empty (select_number d) = true)
    by (unfold empty, select_number; simpl; rewrite Hn; reflexivity).
  split.
  - apply (correlation_analysis_empty now s d Hd He).
  - apply (plot_correlation_heatmap_empty s d Hd He).
Qed.

End PlotFacts.

(** ** The scatter dialog *)

Lemma nth_error_snoc {A : Type} (l : list A) (x : A) :
  nth_error (l ++ [x]) (List.length l) = Some x.
Proof. induction l as [| y l IH]; simpl; [reflexivity | exact IH]. Qed.

Lemma remove_nth_snoc {A : Type} (l : list A) (x : A) :
  remove_nth (List.length l) (l ++ [x]) = l.
Proof.
  induction l as [| y l IH]; simpl; [reflexivity |].
  rewrite IH; reflexivity.
Qed.

Lemma remove_nth_length {A : Type} (k : nat) (l : list A) (x : A) :
  nth_error l k = Some x ->
  S (List.length (remove_nth k l)) = List.length l.
Proof.
  revert k; induction l as [| y l IH]; intros [| k] H; simpl in *;
    try discriminate; [reflexivity |].
  rewrite (IH k H); reflexivity.
Qed.

Section ScatterFacts.

Context {readers : Readers} {sorting : Pandas.SortValues} {stats : Stats}
        {fmt : Fmt} {random : NumpyRandom} {plots : Matplotlib}
        {files : Files}.

Import Py Pandas.

Lemma plot_scatter_too_few (s : AppState) (d : DataFrame) :
  df s = Some d ->
  List.length (column_names (select_number d)) < 2 ->
  plot_scatter s =
    (Ok tt, s,
     [ShowWarning "Warning"
        "Need at least 2 numeric columns for scatter plot!"]).
Proof.
  intros Hd Hn; unfold plot_scatter.
  rewrite bind_gets, Hd; cbv zeta.
  apply Nat.ltb_lt in Hn; rewrite Hn; reflexivity.
Qed.

Lemma plot_scatter_opens (s : AppState) (d : DataFrame) (x y : string)
      (rest : list string) :
  df s = Some d ->
  column_names (select_number d) = x :: y :: rest ->
  plot_scatter s =
    (Ok tt,
     set_toplevels
       (toplevels s ++ [mkScatterDialog (x :: y :: rest) x y])%list s,
     []).
Proof.
  intros Hd Hn; unfold plot_scatter.
  rewrite bind_gets, Hd; cbv zeta; rewrite Hn.
  reflexivity.
Qed.

(** [plot_scatter] needs two numeric columns: with fewer it warns and
    leaves the state as it was; otherwise it opens one more dialog that
    offers exactly the numeric columns, with the first preselected for
    the x-axis and the second for the y-axis, and draws nothing yet. *)
Theorem plot_scatter_needs_two_numeric (s : AppState) (d : DataFrame) :
  df s = Some d ->
  (List.length (column_names (select_number d)) < 2 ->
   plot_scatter s =
     (Ok tt, s,
      [ShowWarning "Warning"
         "Need at least 2 numeric columns for scatter plot!"])) /\
  (2 <= List.length (column_names (select_number d)) ->
   toplevels (exec plot_scatter s) =
     (toplevels s
      ++ [mkScatterDialog (column_names (select_number d))
            (nth 0 (column_names (select_number d)) "")
            (nth 1 (column_names (select_number d)) "")])%list /\
   fig (exec plot_scatter s) = fig s /\
   df (exec plot_scatter s) = df s /\
   shown plot_scatter s = []).
Proof.
  intros Hd; split.
  - apply plot_scatter_too_few; exact Hd.
  - intros Hn.
    destruct (column_names (select_number d)) as [| x [| y rest]] eqn:E;
      simpl in Hn; try lia.
    unfold exec, shown; rewrite (plot_scatter_opens s d x y rest Hd E).
    repeat split.
Qed.

(** The button of a dialog whose columns are in the resident table. *)
Lemma create_scatter_run (k : nat) (s : AppState) (dlg : scatter_dialog)
      (d : DataFrame) (xs ys : Series) :
  nth_error (toplevels s) k = Some dlg ->
  df s = Some d ->
  getitem d (x_var dlg) = Some xs ->
  getitem d (y_var dlg) = Some ys ->
  create_scatter k s =
    (Ok tt,
     set_status_label
       ("✅ Scatter plot created: " ++ x_var dlg ++ " vs " ++ y_var dlg,
        Success)
       (set_toplevels (remove_nth k (toplevels s))
          (set_right_notebook PlotTab
             (set_fig
                [ScatterAxes
                   ("🌟 Scatter Plot: " ++ x_var dlg ++ " vs " ++ y_var dlg)
                   xs ys
                   ("Correlation: " ++ fmt_f 3 (series_corr xs ys))]
                s))),
     []).
Proof.
  intros Hk Hd Hx Hy; unfold create_scatter.
  rewrite bind_gets, Hk.
  apply try_except_ok; cbv zeta.
  unfold add_subplot, draw_on_subplot, update_status, df_getitem.
  do 3 run_step.
  cbn [df set_fig]; rewrite Hd, Hx, Hy.
  do 5 run_step; reflexivity.
Qed.

(** The button of a dialog one of whose columns is gone. *)
Lemma create_scatter_stale (k : nat) (s : AppState) (dlg : scatter_dialog)
      (d : DataFrame) :
  nth_error (toplevels s) k = Some dlg ->
  df s = Some d ->
  getitem d (x_var dlg) = None \/ getitem d (y_var dlg) = None ->
  create_scatter k s =
    (Ok tt, set_fig [EmptyAxes] s,
     [ShowError "Error"
        ("Failed to create scatter plot:
" ++ "'"
         ++ match getitem d (x_var dlg) with
            | None => x_var dlg
            | Some _ => y_var dlg
            end ++ "'")]).
Proof.
  intros Hk Hd Hg; unfold create_scatter.
  rewrite bind_gets, Hk.
  unfold try_except; cbv zeta.
  unfold add_subplot, draw_on_subplot, update_status, df_getitem.
  do 3 run_step.
  cbn [df set_fig]; rewrite Hd.
  destruct (getitem d (x_var dlg)) as [xs |] eqn:Hx.
  - destruct Hg as [Hg | Hg]; [discriminate |].
    rewrite Hg; run_step; reflexivity.
  - reflexivity.
Qed.

Lemma create_scatter_no_dialog (k : nat) (s : AppState) :
  nth_error (toplevels s) k = None -> create_scatter k s = (Ok tt, s, []).
Proof.
  intros Hk; unfold create_scatter; rewrite bind_gets, Hk; reflexivity.
Qed.

Lemma create_scatter_no_data (k : nat) (s : AppState)
      (dlg : scatter_dialog) :
  nth_error (toplevels s) k = Some dlg ->
  df s = None ->
  create_scatter k s =
    (Ok tt, set_fig [EmptyAxes] s,
     [ShowError "Error"
        ("Failed to create scatter plot:
" ++ "'NoneType' object is not subscriptable")]).
Proof.
  intros Hk Hd; unfold create_scatter.
  rewrite bind_gets, Hk.
  unfold try_except; cbv zeta.
  unfold add_subplot.
  do 3 run_step.
  cbn [df set_fig]; rewrite Hd; reflexivity.
Qed.

Lemma select_number_names_incl (d : DataFrame) (name : string) :
  In name (column_names (select_number d)) -> In name (column_names d).
Proof.
  unfold column_names, select_number; simpl.
  rewrite !in_map_iff.
  intros (c & E & Hin); exists c; split; [exact E |].
  apply filter_In in Hin; tauto.
Qed.

(** Opening the scatter dialog and pressing its button at once draws the
    first two numeric columns of the resident table against each other,
    with their correlation in the caption, closes the dialog again and
    selects the plot tab; no message box appears. *)
Theorem scatter_open_then_create (s : AppState) (d : DataFrame)
        (x y : string) (rest : list string) :
  df s = Some d ->
  column_names (select_number d) = x :: y :: rest ->
  exists xs ys,
    getitem d x = Some xs /\ getitem d y = Some ys /\
    fig (exec (create_scatter (List.length (toplevels s)))
              (exec plot_scatter s)) =
      [ScatterAxes ("🌟 Scatter Plot: " ++ x ++ " vs " ++ y) xs ys
         ("Correlation: " ++ fmt_f 3 (series_corr xs ys))] /\
    toplevels (exec (create_scatter (List.length (toplevels s)))
                    (exec plot_scatter s)) = toplevels s /\
    right_notebook (exec (create_scatter (List.length (toplevels s)))
                         (exec plot_scatter s)) = PlotTab /\
    shown (create_scatter (List.length (toplevels s)))
          (exec plot_scatter s) = [].
Proof.
  intros Hd Hn.
  destruct (in_column_names_getitem d x) as (xs & Hx).
  { apply select_number_names_incl; rewrite Hn; left; reflexivity. }
  destruct (in_column_names_getitem d y) as (ys & Hy).
  { apply select_number_names_incl; rewrite Hn; right; left; reflexivity. }
  exists xs, ys; split; [exact Hx |]; split; [exact Hy |].
  unfold exec at 2 4 6, shown.
  unfold exec at 4.
  rewrite (plot_scatter_opens s d x y rest Hd Hn); cbn [fst snd].
  unfold exec.
  rewrite (create_scatter_run (List.length (toplevels s)) _
             (mkScatterDialog (x :: y :: rest) x y) d xs ys);
    try assumption; try apply nth_error_snoc.
  cbn [fst snd fig toplevels right_notebook set_status_label set_toplevels
       set_right_notebook set_fig x_var y_var].
  rewrite remove_nth_snoc.
  repeat split.
Qed.

(** When a column picked in a scatter dialog is no longer in the resident
    table (the dataset was replaced while the dialog was open), pressing
    its button shows an error naming the column, but the figure has been
    cleared before the lookup: the previous plot is gone and only an
    empty axes is left.  The dialog stays open; tab and status stay;
    the handler returns normally. *)
Theorem scatter_failure_clears_figure (k : nat) (s : AppState)
        (dlg : scatter_dialog) (d : DataFrame) :
  nth_error (toplevels s) k = Some dlg ->
  df s = Some d ->
  getitem d (x_var dlg) = None \/ getitem d (y_var dlg) = None ->
  fig (exec (create_scatter k) s) = [EmptyAxes] /\
  toplevels (exec (create_scatter k) s) = toplevels s /\
  right_notebook (exec (create_scatter k) s) = right_notebook s /\
  status_label (exec (create_scatter k) s) = status_label s /\
  result (create_scatter k) s = Ok tt /\
  exists column,
    (column = x_var dlg \/ column = y_var dlg) /\
    getitem d column = None /\
    shown (create_scatter k) s =
      [ShowError "Error" ("Failed to create scatter plot:
" ++ "'" ++ column ++ "'")].
Proof.
  intros Hk Hd Hg.
  unfold exec, result, shown.
  rewrite (create_scatter_stale k s dlg d Hk Hd Hg).
  repeat (split; [reflexivity |]).
  destruct (getitem d (x_var dlg)) as [xs |] eqn:Hx.
  - destruct Hg as [Hg | Hg]; [discriminate |].
    exists (y_var dlg); auto.
  - exists (x_var dlg); auto.
Qed.

End ScatterFacts.

(** ** Failures inside the report handlers *)

Section ReportFacts.

Context {readers : Readers} {sorting : Pandas.SortValues} {stats : Stats}
        {fmt : Fmt} {random : NumpyRandom} {plots : Matplotlib}
        {files : Files}.

Import Py Pandas.

Lemma show_statistical_summary_cases (now : string) (s : AppState)
      (d : DataFrame) :
  df s = Some d ->
  show_statistical_summary now s =
    match describe_to_string d with
    | Raise e =>
        (Ok tt, s,
         [ShowError "Error" ("Failed to generate summary:
" ++ e)])
    | Ok summary =>
        match additional_statistics d with
        | Raise e =>
            (Ok tt, set_results_text [] s,
             [ShowError "Error" ("Failed to generate summary:
" ++ e)])
        | Ok additional =>
            (Ok tt,
             set_status_label ("✅ Statistical summary generated", Success)
               (set_right_notebook ResultsTab
                  (set_results_text
                     (List.app
                        ["📊 STATISTICAL SUMMARY"; now; repeat_str "=" 60;
                         ""; summary; ""; "📈 Additional Statistics:";
                         repeat_str "=" 30]
                        additional) s)),
             [])
        end
    end.
Proof.
  intros Hd; unfold show_statistical_summary.
  rewrite bind_gets, Hd.
  unfold try_except, bind, lift, modify, show, update_status.
  destruct (describe_to_string d) as [summary | e]; [| reflexivity].
  destruct (additional_statistics d) as [additional | e]; reflexivity.
Qed.

(** A failure of [show_statistical_summary] is reported in an error
    dialog and the handler returns; what it leaves depends on where the
    exception arose.  If [describe] raises (as it does for a table
    without columns), nothing has changed.  If a later statistic raises,
    the results pane has already been cleared and stays empty; tab and
    status are not updated. *)
Theorem summary_failure_may_clear_results (now : string) (s : AppState)
        (d : DataFrame) (e : string) :
  df s = Some d ->
  (describe_to_string d = Raise e ->
   show_statistical_summary now s =
     (Ok tt, s, [ShowError "Error" ("Failed to generate summary:
" ++ e)])) /\
  (forall summary,
     describe_to_string d = Ok summary ->
     additional_statistics d = Raise e ->
     results_text (exec (show_statistical_summary now) s) = [] /\
     right_notebook (exec (show_statistical_summary now) s)
       = right_notebook s /\
     status_label (exec (show_statistical_summary now) s)
       = status_label s /\
     df (exec (show_statistical_summary now) s) = df s /\
     shown (show_statistical_summary now) s =
       [ShowError "Error" ("Failed to generate summary:
" ++ e)]).
Proof.
  intros Hd; split.
  - intros H1; rewrite (show_statistical_summary_cases now s d Hd), H1.
    reflexivity.
  - intros summary H1 H2.
    unfold exec, shown.
    rewrite (show_statistical_summary_cases now s d Hd), H1, H2.
    repeat split.
Qed.

(** [show_data_info] never opens a dialog and never raises.  When the
    overview cannot be computed it keeps the text of the info pane and
    puts the error into the status line instead; otherwise it replaces
    the pane and leaves the status line alone. *)
Theorem show_data_info_reports_in_status (s : AppState) :
  shown show_data_info s = [] /\
  result show_data_info s = Ok tt /\
  (forall d e,
     df s = Some d -> data_info d = Raise e ->
     exec show_data_info s =
       set_status_label ("❌ Error showing data info: " ++ e, Error) s) /\
  (forall d info_text,
     df s = Some d -> data_info d = Ok info_text ->
     exec show_data_info s = set_data_info_text info_text s).
Proof.
  unfold shown, result, exec.
  destruct (df s) as [d |] eqn:Hd.
  - rewrite (show_data_info_run s d Hd).
    split; [reflexivity |]; split; [reflexivity |].
    split; intros d' x Hd' Hi; inversion Hd'; subst d';
      cbn [fst snd]; rewrite Hi; reflexivity.
  - rewrite (show_data_info_no_data s Hd).
    split; [reflexivity |]; split; [reflexivity |].
    split; intros d' x Hd'; discriminate Hd'.
Qed.

Lemma save_plot_cases (file_path : string) (s : AppState) :
  save_plot file_path s =
    if truthy file_path then
      match savefig (fig s) file_path with
      | Ok _ =>
          (Ok tt, set_status_label ("✅ Plot saved successfully", Success) s,
           [ShowInfo "Success" ("Plot saved successfully!
" ++ file_path)])
      | Raise e =>
          (Ok tt, s, [ShowError "Error" ("Failed to save plot:
" ++ e)])
      end
    else (Ok tt, s, []).
Proof.
  unfold save_plot.
  destruct (truthy file_path); [| reflexivity].
  unfold try_except, bind, gets, lift, show, update_status, modify.
  destruct (savefig (fig s) file_path) as [[] | e]; reflexivity.
Qed.

(** [save_plot] hands the current figure to [savefig] and changes
    nothing but the status line, and that only when the file was
    written: a cancelled dialog does nothing at all, a failed write
    shows the error and leaves even the status as it was. *)
Theorem save_plot_only_sets_status (file_path : string) (s : AppState) :
  (truthy file_path = false -> save_plot file_path s = (Ok tt, s, [])) /\
  (forall e,
     truthy file_path = true ->
     savefig (fig s) file_path = Raise e ->
     save_plot file_path s =
       (Ok tt, s, [ShowError "Error" ("Failed to save plot:
" ++ e)])) /\
  (truthy file_path = true ->
   savefig (fig s) file_path = Ok tt ->
   save_plot file_path s =
     (Ok tt, set_status_label ("✅ Plot saved successfully", Success) s,
      [ShowInfo "Success" ("Plot saved successfully!
" ++ file_path)])).
Proof.
  rewrite save_plot_cases.
  split; [intros ->; reflexivity |].
  split.
  - intros e -> ->; reflexivity.
  - intros -> ->; reflexivity.
Qed.

End ReportFacts.

(** ** Sessions keep the widgets consistent with the dataset *)

Section SessionFacts.

Context {readers : Readers} {sorting : Pandas.SortValues} {stats : Stats}
        {fmt : Fmt} {random : NumpyRandom} {plots : Matplotlib}
        {files : Files}.

Import Py Pandas.

Ltac count_axes :=
  cbn [fst snd fig set_status_label set_right_notebook set_fig set_toplevels
       List.length]; lia.

(** Every drawing handler clears the figure before it adds its axes; only
    the heatmap adds a second one, for its colorbar. *)
Lemma figure_bounds (now : string) (h : handler) (s : AppState) :
  1 <= List.length (fig s) <= 2 ->
  1 <= List.length (fig (exec (run now h) s)) <= 2.
Proof.
  intros Hf.
  destruct (draws h) eqn:Hd;
    [| rewrite (others_keep_figure now h Hd s); exact Hf].
  assert (Hhist : 1 <= List.length (fig (exec plot_histogram s)) <= 2).
  { unfold exec.
    destruct (df s) as [d |] eqn:E.
    - destruct (truthy (column_var s)) eqn:Ht.
      + destruct (getitem d (column_var s)) as [series |] eqn:Hg.
        * destruct (dtype_in (s_dtype series) ["object"; "category"])
            eqn:Hk.
          -- rewrite (plot_histogram_bar s d series E Ht Hg Hk); count_axes.
          -- destruct (hist (dropna series) 30) as [[] | e] eqn:Hh.
             ++ rewrite (plot_histogram_hist s d series E Ht Hg Hk Hh).
                count_axes.
             ++ rewrite (plot_histogram_hist_fails s d series e E Ht Hg Hk
                           Hh).
                count_axes.
        * rewrite (plot_histogram_not_found s d E Ht Hg); exact Hf.
      + rewrite (plot_histogram_unselected s d E Ht); exact Hf.
    - rewrite (plot_histogram_no_data s E); exact Hf. }
  destruct h; simpl in Hd; try discriminate; simpl run; try exact Hhist.
  - unfold exec.
    destruct (df s) as [d |] eqn:E.
    + destruct (empty (select_number d)) eqn:He.
      * rewrite (plot_correlation_heatmap_empty s d E He); exact Hf.
      * destruct (heatmap (corr (select_number d))) as [[] | e] eqn:Hh.
        -- rewrite (plot_correlation_heatmap_run s d E He Hh); count_axes.
        -- rewrite (plot_correlation_heatmap_fails s d e E He Hh).
           count_axes.
    + unfold plot_correlation_heatmap; rewrite bind_gets, E; exact Hf.
  - unfold exec.
    destruct (nth_error (toplevels s) k) as [dlg |] eqn:Hk.
    + destruct (df s) as [d |] eqn:E.
      * destruct (getitem d (x_var dlg)) as [xs |] eqn:Hx.
        -- destruct (getitem d (y_var dlg)) as [ys |] eqn:Hy.
           ++ rewrite (create_scatter_run k s dlg d xs ys Hk E Hx Hy).
              count_axes.
           ++ rewrite (create_scatter_stale k s dlg d Hk E (or_intror Hy)).
              count_axes.
        -- rewrite (create_scatter_stale k s dlg d Hk E (or_introl Hx)).
           count_axes.
      * rewrite (create_scatter_no_data k s dlg Hk E); count_axes.
    + rewrite (create_scatter_no_dialog k s Hk); exact Hf.
  - unfold exec; rewrite clear_plot_run; count_axes.
Qed.

Lemma consistent_initial (g : rng_state) : consistent (initial_state g).
Proof.
  unfold consistent; simpl.
  split; [lia |].
  split; [intros H; contradiction |].
  split; [auto |].
  intros H; contradiction.
Qed.

(** A state with a table resident is consistent as soon as the selection
    is an entry of the combobox. *)
Lemma consistent_loaded (s' : AppState) (d : DataFrame) :
  1 <= List.length (fig s') <= 2 ->
  df s' = Some d ->
  (column_combo s' <> [] -> In (column_var s') (column_combo s')) ->
  consistent s'.
Proof.
  intros Hf Hd Hv.
  unfold consistent.
  split; [exact Hf |].
  split; [intros _; rewrite Hd; discriminate |].
  split; [intros H; rewrite Hd in H; discriminate | exact Hv].
Qed.

(** A table without columns has no cell at which the view could stop. *)
Lemma display_stop_no_columns (file : option string) (d : DataFrame) :
  columns d = [] -> display_stop file d = None.
Proof.
  intros Hc; unfold display_stop; rewrite Hc.
  destruct file as [path |]; [| reflexivity].
  destruct (display_failure path) as [[k e] |]; [| reflexivity].
  rewrite andb_false_r; reflexivity.
Qed.

Lemma consistent_load_data (file_path : string) (s : AppState) :
  consistent s ->
  1 <= List.length (fig (exec (load_data file_path) s)) <= 2 ->
  consistent (exec (load_data file_path) s).
Proof.
  intros Hc Hfig.
  destruct (truthy file_path) eqn:Ht.
  - destruct (read_by_extension file_path) as [d | err] eqn:Hr.
    + destruct (display_stop (Some file_path) d) as [[k e] |] eqn:Hs.
      * assert (Ex : exec (load_data file_path) s =
            set_status_label ("❌ Failed to load data", Error)
              (set_data_tree (mkTree (column_names d) (view_rows d k))
                 (set_current_file (Some file_path)
                    (set_df (Some d)
                       (set_status_label ("📂 Loading data...", Info) s)))))
          by (unfold exec;
              rewrite (load_data_display_fails file_path d k e s Ht Hr Hs);
              reflexivity).
        rewrite Ex in Hfig |- *.
        apply (consistent_loaded _ d); [exact Hfig | reflexivity |].
        exact (proj2 (proj2 (proj2 Hc))).
      * destruct (load_data_ok_fields file_path d s Ht Hr Hs)
          as (s' & E & D & C & T & B & V & _).
        assert (Ex : exec (load_data file_path) s = s')
          by (unfold exec; rewrite E; reflexivity).
        rewrite Ex in Hfig |- *.
        apply (consistent_loaded s' d); [exact Hfig | exact D |].
        rewrite B, V.
        destruct (column_names d); [intros H; contradiction |].
        intros _; left; reflexivity.
    + assert (Ex : exec (load_data file_path) s
                   = set_status_label ("❌ Failed to load data", Error) s)
        by (unfold exec; rewrite (load_data_raise file_path err s Ht Hr);
            reflexivity).
      rewrite Ex; exact Hc.
  - assert (Ex : exec (load_data file_path) s = s)
      by (unfold exec, load_data; rewrite Ht; reflexivity).
    rewrite Ex; exact Hc.
Qed.

Lemma consistent_load_sample_data (s : AppState) :
  1 <= List.length (fig (exec load_sample_data s)) <= 2 ->
  consistent (exec load_sample_data s).
Proof.
  intros Hfig.
  destruct (load_sample_data_fields s)
    as (s' & E & D & C & _ & T & B & V & _).
  assert (Ex : exec load_sample_data s = s')
    by (unfold exec; rewrite E; reflexivity).
  rewrite Ex in Hfig |- *.
  apply (consistent_loaded s' sample_table); [exact Hfig | exact D |].
  rewrite B, V; intros _; left; reflexivity.
Qed.

Lemma run_load_sample_data (now : string) :
  run now LoadSampleData = load_sample_data.
Proof. exact (eq_refl load_sample_data). Qed.

Lemma run_load_data (now file_path : string) :
  run now (LoadData file_path) = load_data file_path.
Proof. exact (eq_refl (load_data file_path)). Qed.

Lemma consistent_step (e : event) (s : AppState) :
  consistent s -> enabled e s -> consistent (apply_event e s).
Proof.
  intros Hc He.
  destruct e as [now h | column | k x y | k].
  - pose proof (figure_bounds now h s (proj1 Hc)) as Hfig.
    unfold apply_event.
    destruct (loads h) eqn:Hl.
    + destruct h; try discriminate Hl.
      * rewrite run_load_data in Hfig |- *.
        apply consistent_load_data; assumption.
      * rewrite run_load_sample_data in Hfig |- *.
        apply consistent_load_sample_data; exact Hfig.
    + pose proof (analysis_keeps_dataset now h Hl s) as K.
      cbv beta in K.
      inversion K as [[K1 K2 K3 K4 K5 K6 K7]].
      destruct Hc as (_ & H2 & H3 & H4).
      unfold consistent.
      rewrite K1, K2, K4, K5.
      split; [exact Hfig |]; split; [exact H2 |]; split; assumption.
  - destruct Hc as (H1 & H2 & H3 & H4).
    simpl in He.
    unfold consistent, apply_event.
    cbn [fig df current_file column_combo column_var set_column_var].
    split; [exact H1 |]; split; [exact H2 |].
    split.
    + intros Hd; destruct (H3 Hd) as (Hb & _).
      rewrite Hb in He; contradiction.
    + intros _; exact He.
  - unfold apply_event.
    destruct (nth_error (toplevels s) k); exact Hc.
  - exact Hc.
Qed.

Lemma reachable_consistent (s : AppState) : reachable s -> consistent s.
Proof.
  induction 1 as [g | s e _ IH He].
  - apply consistent_initial.
  - apply consistent_step; assumption.
Qed.

(** In every state a session can reach (by handlers, by picking a column
    in the main window or in a scatter dialog, by closing a dialog) the
    figure holds one axes, or two after a heatmap; a file name is kept
    only together with a dataset; with nothing loaded the combobox is
    empty and no column is selected; and whenever the combobox has
    entries the selected label is one of them.  This holds through loads
    that fail before or after the table is assigned. *)
Theorem sessions_stay_consistent (s : AppState) :
  reachable s ->
  1 <= List.length (fig s) <= 2 /\
  (current_file s <> None -> df s <> None) /\
  (df s = None -> column_combo s = [] /\ column_var s = "") /\
  (column_combo s <> [] -> In (column_var s) (column_combo s)).
Proof.
  intros Hr; exact (reachable_consistent s Hr).
Qed.

(** Loading a table without columns over a session with a selection
    leaves that selection in place, naming a column that no longer
    exists: [analyze_column] then lets the lookup error escape, where
    [plot_histogram] in the same state shows its warning. *)
Theorem columnless_load_breaks_analyze (now file_path : string)
        (d : DataFrame) (s : AppState) :
  truthy file_path = true ->
  read_by_extension file_path = Ok d ->
  columns d = [] ->
  truthy (column_var s) = true ->
  column_var (exec (load_data file_path) s) = column_var s /\
  result (analyze_column now) (exec (load_data file_path) s)
    = Raise ("'" ++ column_var s ++ "'") /\
  shown plot_histogram (exec (load_data file_path) s)
    = [ShowWarning "Warning" "Selected column not found!"].
Proof.
  intros Ht Hr Hc Hv.
  destruct (load_data_ok_fields file_path d s Ht Hr
              (display_stop_no_columns (Some file_path) d Hc))
    as (s' & E & D & _ & _ & _ & V & _).
  unfold exec; rewrite E; cbn [fst snd].
  assert (Hn : column_names d = [])
    by (unfold column_names; rewrite Hc; reflexivity).
  rewrite Hn in V; simpl in V.
  assert (Hg : getitem d (column_var s') = None)
    by (unfold getitem; rewrite Hc; reflexivity).
  assert (Hv' : truthy (column_var s') = true) by (rewrite V; exact Hv).
  split; [exact V |].
  unfold result, shown.
  rewrite (analyze_column_missing now s' d D Hv' Hg).
  rewrite (plot_histogram_not_found s' d D Hv' Hg).
  rewrite V; split; reflexivity.
Qed.

End SessionFacts.

(** ** The dataset is never unloaded *)

Section DatasetFacts.

Context {readers : Readers} {sorting : Pandas.SortValues} {stats : Stats}
        {fmt : Fmt} {random : NumpyRandom} {plots : Matplotlib}
        {files : Files}.

Import Py Pandas.

(** No handler ever sets [self.df] back to [None]: once a dataset is
    resident some dataset stays resident, through failed and cancelled
    loads, failed plots and escaping exceptions alike. *)
Theorem dataset_is_never_unloaded (now : string) (h : handler)
        (s : AppState) :
  df s <> None -> df (exec (run now h) s) <> None.
Proof.
  intros Hd.
  destruct (loads h) eqn:Hl.
  - destruct h; try discriminate Hl.
    + rewrite run_load_data.
      destruct (truthy file_path) eqn:Ht.
      * destruct (read_by_extension file_path) as [d | err] eqn:Hr.
        -- destruct (load_data_ok file_path d s Ht Hr) as (D & _).
           rewrite D; discriminate.
        -- unfold exec; rewrite (load_data_raise file_path err s Ht Hr).
           exact Hd.
      * unfold exec, load_data; rewrite Ht; exact Hd.
    + rewrite run_load_sample_data.
      destruct (load_sample_data_exec s) as (D & _).
      rewrite D; discriminate.
  - pose proof (analysis_keeps_dataset now h Hl s) as K; cbv beta in K.
    inversion K as [[K1 K2 K3 K4 K5 K6 K7]].
    rewrite K1; exact Hd.
Qed.

(** The twenty placeholder methods compute nothing: each shows one
    information notice and leaves the whole state as it was, with or
    without a dataset. *)
Theorem placeholders_only_notify (now : string) (h : handler)
        (s : AppState) :
  placeholder h = true ->
  exists message, run now h s = (Ok tt, s, [ShowInfo "Info" message]).
Proof.
  intros Hp.
  destruct h; simpl in Hp; try discriminate; simpl run;
    eexists; apply coming_soon_run.
Qed.

End DatasetFacts.

(** ** One column, three notions of kind *)

Section KindFacts.

Context {readers : Readers} {sorting : Pandas.SortValues} {stats : Stats}
        {fmt : Fmt} {random : NumpyRandom} {plots : Matplotlib}
        {files : Files}.

Import Py Pandas.

Lemma getitem_cols_In (cs : list (string * Series)) (name : string)
      (series : Series) :
  getitem_cols cs name = Some series -> In (name, series) cs.
Proof.
  induction cs as [| [n c] rest IH]; simpl; [discriminate |].
  destruct (String.eqb n name) eqn:E.
  - intros H; inversion H; subst.
    apply String.eqb_eq in E; subst; left; reflexivity.
  - intros H; right; apply IH; exact H.
Qed.

(** The handlers do not agree on what a numeric column is.  A column of
    a narrower integer or float dtype ([int32], [float32], ...) is a
    column of the correlation matrix and, its values being such that
    [ax.hist] draws them, gets the 30-bin histogram with mean and
    standard deviation from [plot_histogram], while [analyze_column],
    which asks for [int64] or [float64], writes the categorical report
    for it. *)
Theorem handlers_disagree_on_kind (now : string) (s : AppState)
        (d : DataFrame) (series : Series) :
  df s = Some d ->
  truthy (column_var s) = true ->
  getitem d (column_var s) = Some series ->
  In (s_dtype series)
     [int8; int16; int32; uint8; uint16; uint32; uint64; float16; float32] ->
  hist (dropna series) 30 = Ok tt ->
  In (column_var s) (cm_columns (corr (select_number d))) /\
  fig (exec plot_histogram s) =
    [HistAxes ("📊 Histogram of " ++ column_var s) (column_var s)
       (dropna series) 30
       ["Mean: " ++ fmt_f 2 (mean (dropna series));
        "Std: " ++ fmt_f 2 (std (dropna series));
        "Count: " ++ fmt_int (len (dropna series))]] /\
  results_text (exec (analyze_column now) s) =
    List.app (column_header now (column_var s) series)
             (categorical_analysis series).
Proof.
  intros Hd Ht Hg Hk Hh.
  assert (K : is_number (s_dtype series) = true /\
              s_dtype series <> int64 /\
              s_dtype series <> float64_ /\
              dtype_in (s_dtype series) ["object"; "category"] = false).
  { simpl in Hk.
    repeat (destruct Hk as [Hk | Hk];
            [rewrite <- Hk; repeat split; (reflexivity || discriminate) |]).
    contradiction. }
  destruct K as (Hn & H64 & Hf64 & Hoc).
  split; [| split].
  - unfold corr, select_number, column_names; cbn [cm_columns columns].
    apply in_map_iff; exists (column_var s, series); split; [reflexivity |].
    apply filter_In; split; [apply getitem_cols_In; exact Hg | exact Hn].
  - unfold exec; rewrite (plot_histogram_hist s d series Hd Ht Hg Hoc Hh).
    reflexivity.
  - destruct (analyze_column_numeric_kinds now s d series Hd Ht Hg)
      as (_ & C).
    apply C; assumption.
Qed.

End KindFacts.

(** ** More on the strong-correlation scan *)

Lemma flat_map_length_le {A B : Type} (f : A -> list B) (g : A -> nat)
      (l : list A) :
  (forall x, List.length (f x) <= g x) ->
  List.length (flat_map f l) <= list_sum (map g l).
Proof.
  intros H; induction l as [| x l IH]; simpl; [lia |].
  rewrite length_app; specialize (H x); lia.
Qed.

Lemma triangle_sum (a k : nat) :
  2 * list_sum (map (fun i => (a + k) - (i + 1)) (seq a k)) = k * (k - 1).
Proof.
  revert a; induction k as [| k IH]; intros a; simpl seq; [reflexivity |].
  cbn [map list_sum].
  replace (map (fun i => a + S k - (i + 1)) (seq (S a) k))
    with (map (fun i => S a + k - (i + 1)) (seq (S a) k))
    by (apply map_ext; intros i; lia).
  specialize (IH (S a)).
  destruct k as [| k']; [simpl in *; lia |].
  replace (a + S (S k') - (a + 1)) with (S k') by lia.
  match goal with |- context [list_sum (?x :: ?l)] =>
    change (list_sum (x :: l)) with (x + list_sum l) end.
  nia.
Qed.

Lemma map_const_sum_one {A : Type} (l : list A) :
  list_sum (map (fun _ => 1) l) = List.length l.
Proof. induction l as [| x l IH]; simpl; [reflexivity | rewrite IH; lia]. Qed.

Section ScanFacts.

Context {readers : Readers} {sorting : Pandas.SortValues} {stats : Stats}
        {fmt : Fmt} {random : NumpyRandom} {plots : Matplotlib}
        {files : Files}.

Import Py Pandas.

(** Scanning only the upper triangle loses nothing on a symmetric
    matrix: each pair of different columns whose coefficient exceeds 0.7
    in absolute value is reported, smaller index first, and a NaN
    coefficient is never reported. *)
Theorem upper_triangle_scan_is_complete (m : CorrMatrix) :
  (forall i j, cm_iloc m i j = cm_iloc m j i) ->
  (forall i j,
     i < List.length (cm_columns m) ->
     j < List.length (cm_columns m) ->
     i <> j ->
     fgtb (fabs (cm_iloc m i j)) lit_0_7 = true ->
     In (entry m (Nat.min i j, Nat.max i j)) (strong_corr m)) /\
  (forall a b, ~ In (a, b, NaN) (strong_corr m)).
Proof.
  intros Hsym; split.
  - intros i j Hi Hj Hne Hs.
    rewrite strong_corr_entries; apply in_map.
    apply in_strong_pairs.
    destruct (Nat.lt_ge_cases i j) as [Hlt | Hge].
    + rewrite Nat.min_l, Nat.max_r by lia; split; [lia | exact Hs].
    + rewrite Nat.min_r, Nat.max_l by lia.
      split; [lia | rewrite Hsym; exact Hs].
  - intros a b Hin.
    rewrite strong_corr_entries in Hin.
    apply in_map_iff in Hin as ([i j] & E & Hp).
    apply in_strong_pairs in Hp as (_ & Hs).
    unfold entry in E; simpl in E.
    assert (Hv : cm_iloc m i j = NaN) by congruence.
    rewrite Hv in Hs; discriminate Hs.
Qed.

(** Over [n] numeric columns the report has at most [n (n - 1) / 2]
    lines. *)
Theorem strong_corr_at_most_half_square (m : CorrMatrix) :
  2 * List.length (strong_corr m)
  <= List.length (cm_columns m) * (List.length (cm_columns m) - 1).
Proof.
  rewrite <- (triangle_sum 0 (List.length (cm_columns m))).
  apply Nat.mul_le_mono_l.
  unfold strong_corr.
  apply flat_map_length_le; intros i.
  etransitivity.
  - apply (flat_map_length_le _ (fun _ => 1)).
    intros j; destruct (fgtb _ _); simpl; lia.
  - rewrite map_const_sum_one, length_seq; simpl; lia.
Qed.

End ScanFacts.

(** ** Extensions are matched case-sensitively *)

Lemma list_ascii_of_string_append (a b : string) :
  list_ascii_of_string (a ++ b)
  = (list_ascii_of_string a ++ list_ascii_of_string b)%list.
Proof.
  induction a as [| c a IH]; simpl; [reflexivity | rewrite IH; reflexivity].
Qed.

Lemma starts_with_app (p l : list ascii) : Py.starts_with p (p ++ l) = true.
Proof.
  induction p as [| c p IH]; simpl; [reflexivity |].
  rewrite Ascii.eqb_refl; exact IH.
Qed.

Lemma endswith_append (stem suffix : string) :
  Py.endswith (stem ++ suffix) suffix = true.
Proof.
  unfold Py.endswith.
  rewrite list_ascii_of_string_append, rev_app_distr.
  apply starts_with_app.
Qed.

Ltac other_suffix stem :=
  match goal with
  | |- Py.endswith (_ ++ ?u) ?v = false =>
      eapply (PyFacts.endswith_last_char_differs (stem ++ u) u v);
      [ reflexivity | reflexivity | discriminate | apply endswith_append ]
  end.

Section ExtensionFacts.

Context {readers : Readers}.

Import Py.

(** The extension test is case-sensitive and looks at the end of the
    whole path: whatever precedes it, [.json] selects the JSON reader and
    [.xlsx]/[.xls] the Excel reader, while the same extensions in upper
    case are not recognised and the file is handed to the CSV reader. *)
Theorem extension_match_is_case_sensitive (stem : string) :
  read_by_extension (stem ++ ".json") = read_json (stem ++ ".json") /\
  read_by_extension (stem ++ ".xlsx") = read_excel (stem ++ ".xlsx") /\
  read_by_extension (stem ++ ".xls") = read_excel (stem ++ ".xls") /\
  read_by_extension (stem ++ ".JSON") = read_csv (stem ++ ".JSON") /\
  read_by_extension (stem ++ ".XLSX") = read_csv (stem ++ ".XLSX") /\
  read_by_extension (stem ++ ".XLS") = read_csv (stem ++ ".XLS").
Proof.
  split; [apply read_by_extension_json, endswith_append |].
  split; [apply read_by_extension_excel; left; apply endswith_append |].
  split; [apply read_by_extension_excel; right; apply endswith_append |].
  repeat split; apply read_by_extension_other; other_suffix stem.
Qed.

End ExtensionFacts.

(** ** The sample columns respect their bounds *)

Lemma clip_int_bounds (lo hi z : Z) :
  (lo <= hi)%Z -> (lo <= Np.clip_int lo hi z <= hi)%Z.
Proof. unfold Np.clip_int; lia. Qed.

Lemma clip_float_bounds (lo hi : Q) (x : Py.float64) :
  (lo <= hi)%Q ->
  Np.clip_float lo hi x = Py.NaN \/
  exists q, Np.clip_float lo hi x = Py.Fin q /\ (lo <= q <= hi)%Q.
Proof.
  intros Hlh.
  destruct x as [| [|] | q]; simpl.
  - left; reflexivity.
  - right; exists lo; split; [reflexivity |]; split;
      [apply Qle_refl | exact Hlh].
  - right; exists hi; split; [reflexivity |]; split;
      [exact Hlh | apply Qle_refl].
  - right.
    destruct (Qle_bool lo q) eqn:E1.
    + apply Qle_bool_iff in E1.
      destruct (Qle_bool q hi) eqn:E2.
      * apply Qle_bool_iff in E2; exists q; auto.
      * exists hi; split; [reflexivity |]; split;
          [exact Hlh | apply Qle_refl].
    + apply Qle_bool_iff in Hlh; rewrite Hlh.
      apply Qle_bool_iff in Hlh.
      exists lo; split; [reflexivity |]; split;
        [apply Qle_refl | exact Hlh].
Qed.

(** Truncation keeps a value between two integers it lies between, as
    long as they fit 64 bits. *)
Lemma astype_int_bounds (a b : Z) (q : Q) :
  (0 <= a)%Z ->
  (b <= Np.int64_max)%Z ->
  (inject_Z a <= q <= inject_Z b)%Q ->
  (a <= Np.astype_int (Py.Fin q) <= b)%Z.
Proof.
  intros Ha Hb (Hl & Hu).
  destruct q as [n d]; unfold Qle in *; simpl in *.
  assert (Hn : (0 <= n)%Z) by nia.
  rewrite Z.quot_div_nonneg by lia.
  assert (Hq : (a <= n / Z.pos d <= b)%Z).
  { split.
    - apply Z.div_le_lower_bound; lia.
    - apply Z.div_le_upper_bound; lia. }
  assert (Hmin : (Np.int64_min <= 0)%Z) by (unfold Np.int64_min; lia).
  replace ((Np.int64_min <=? n / Z.pos d)%Z) with true
    by (symmetry; apply Z.leb_le; lia).
  replace ((n / Z.pos d <=? Np.int64_max)%Z) with true
    by (symmetry; apply Z.leb_le; lia).
  exact Hq.
Qed.

Lemma clipped_then_truncated (a b : Z) (x : Py.float64) :
  (0 <= a <= b)%Z ->
  (b <= Np.int64_max)%Z ->
  (a <= Np.astype_int (Np.clip_float (inject_Z a) (inject_Z b) x) <= b)%Z
  \/ x = Py.NaN.
Proof.
  intros Hab Hb.
  destruct x as [| sign | q]; [right; reflexivity | left | left].
  - destruct (clip_float_bounds (inject_Z a) (inject_Z b) (Py.Inf sign))
      as [H | (q & E & Hq)];
      [unfold Qle; simpl; lia | destruct sign; discriminate H |].
    rewrite E; apply astype_int_bounds; [lia | exact Hb | exact Hq].
  - destruct (clip_float_bounds (inject_Z a) (inject_Z b) (Py.Fin q))
      as [H | (q' & E & Hq)]; [unfold Qle; simpl; lia | |].
    + simpl in H; discriminate H.
    + rewrite E; apply astype_int_bounds; [lia | exact Hb | exact Hq].
Qed.

Section SampleBounds.

Context {readers : Readers} {sorting : Pandas.SortValues} {stats : Stats}
        {fmt : Fmt} {random : NumpyRandom} {plots : Matplotlib}
        {files : Files}.

Import Py Pandas.

Lemma Forall_int_column (P : Z -> Prop) (l : list Z) :
  Forall P l ->
  Forall (fun c => exists z, c = IntV z /\ P z) (s_values (int_column l)).
Proof.
  intros H; unfold int_column; simpl.
  induction H; simpl; constructor; eauto.
Qed.

Lemma Forall_float_column (P : float64 -> Prop) (l : list float64) :
  Forall P l ->
  Forall (fun c => exists x, c = FloatV x /\ P x)
         (s_values (float_column l)).
Proof.
  intros H; unfold float_column; simpl.
  induction H; simpl; constructor; eauto.
Qed.

Lemma Forall_map_all {A B : Type} (f : A -> B) (P : B -> Prop)
      (l : list A) :
  (forall x, P (f x)) -> Forall P (map f l).
Proof. intros H; induction l; simpl; constructor; auto. Qed.

(** Whatever numpy's generator returns, the table [load_sample_data]
    leaves has every [Age] between 18 and 65, and every [Income] and
    [Performance_Score] that is a number within 25000..150000 and
    0..100; [Education_Years] and [Experience] are integers within 8..20
    and 0..40 except where the draw itself was NaN. *)
Theorem sample_columns_within_bounds (s : AppState) :
  exists age income education experience performance,
    df (exec load_sample_data s) = Some sample_table /\
    getitem sample_table "Age" = Some age /\
    getitem sample_table "Income" = Some income /\
    getitem sample_table "Education_Years" = Some education /\
    getitem sample_table "Experience" = Some experience /\
    getitem sample_table "Performance_Score" = Some performance /\
    Forall (fun c => exists z, c = IntV z /\ (18 <= z <= 65)%Z)
           (s_values age) /\
    Forall (fun c => exists x, c = FloatV x /\
              (x = NaN \/
               exists q, x = Fin q /\ (25000 <= q <= 150000)%Q))
           (s_values income) /\
    Forall (fun c => exists z, c = IntV z /\
              ((8 <= z <= 20)%Z \/ z = Np.astype_int NaN))
           (s_values education) /\
    Forall (fun c => exists z, c = IntV z /\
              ((0 <= z <= 40)%Z \/ z = Np.astype_int NaN))
           (s_values experience) /\
    Forall (fun c => exists x, c = FloatV x /\
              (x = NaN \/ exists q, x = Fin q /\ (0 <= q <= 100)%Q))
           (s_values performance).
Proof.
  destruct (load_sample_data_exec s) as (D & _).
  do 5 eexists.
  split; [exact D |].
  do 5 (split; [reflexivity |]).
  split.
  { apply (Forall_int_column (fun z => (18 <= z <= 65)%Z)).
    apply Forall_map_all; intros z; apply clip_int_bounds; lia. }
  split.
  { apply Forall_float_column, Forall_map_all; intros x.
    apply clip_float_bounds; unfold Qle; simpl; lia. }
  split.
  { apply (Forall_int_column
             (fun z => (8 <= z <= 20)%Z \/ z = Np.astype_int NaN)).
    rewrite map_map; apply Forall_map_all; intros x.
    destruct (clipped_then_truncated 8 20 x) as [H | ->];
      [lia | unfold Np.int64_max; lia | left; exact H
      | right; reflexivity]. }
  split.
  { apply (Forall_int_column
             (fun z => (0 <= z <= 40)%Z \/ z = Np.astype_int NaN)).
    rewrite map_map; apply Forall_map_all; intros x.
    destruct (clipped_then_truncated 0 40 x) as [H | ->];
      [lia | unfold Np.int64_max; lia | left; exact H
      | right; reflexivity]. }
  apply Forall_float_column, Forall_map_all; intros x.
  apply clip_float_bounds; unfold Qle; simpl; lia.
Qed.

End SampleBounds.

(** ** The facts above on the staff table *)

Section FurtherExamples.

#[local] Existing Instance stable_sorting.
#[local] Existing Instance Demo.readers.
#[local] Existing Instance Demo.stats.
#[local] Existing Instance Demo.fmt.
#[local] Existing Instance Demo.random.
#[local] Existing Instance Demo.files.
#[local] Existing Instance Demo.plots.

Import Py Pandas.

Lemma only_loaders_change_dataset_witness :
  loads CorrelationAnalysis = false /\
  df (exec (run "2024-05-01 10:00:00" CorrelationAnalysis) Demo.loaded)
    = Some Demo.staff /\
  column_var (exec (run "2024-05-01 10:00:00" CorrelationAnalysis)
                   Demo.loaded) = "Age".
Proof.
  split; [reflexivity |].
  destruct (only_loaders_change_dataset "2024-05-01 10:00:00"
              CorrelationAnalysis Demo.loaded eq_refl)
    as (D & _ & _ & _ & V & _).
  rewrite D, V; split; reflexivity.
Defined.

Lemma exceptions_stop_at_handler_witness :
  LoadData "missing.csv" <> AnalyzeColumn /\
  read_by_extension "missing.csv" = Raise "No columns to parse from file" /\
  result (run "2024-05-01 10:00:00" (LoadData "missing.csv")) Demo.fresh
    = Ok tt.
Proof.
  split; [discriminate |].
  split; [reflexivity |].
  apply exceptions_stop_at_handler; discriminate.
Defined.

Lemma load_fills_data_view_witness :
  truthy "staff.csv" = true /\
  read_by_extension "staff.csv" = Ok Demo.staff /\
  display_stop (Some "staff.csv") Demo.staff = None /\
  tv_columns (data_tree (exec (load_data "staff.csv") Demo.fresh))
    = ["Age"; "Income"; "Department"; "Level"] /\
  List.length (tv_rows (data_tree (exec (load_data "staff.csv") Demo.fresh)))
    = 6.
Proof.
  assert (R : read_by_extension "staff.csv" = Ok Demo.staff)
    by reflexivity.
  assert (N : display_stop (Some "staff.csv") Demo.staff = None)
    by reflexivity.
  split; [reflexivity |].
  split; [exact R |].
  split; [exact N |].
  destruct (load_fills_data_view "staff.csv" Demo.staff Demo.fresh
              eq_refl R N) as (C & L & _).
  rewrite C, L; split; reflexivity.
Defined.

Lemma load_selects_first_column_witness :
  truthy "staff.csv" = true /\
  read_by_extension "staff.csv" = Ok Demo.staff /\
  display_stop (Some "staff.csv") Demo.staff = None /\
  column_var (exec (load_data "staff.csv") Demo.fresh) = "Age" /\
  shown (load_data "staff.csv") Demo.fresh = [].
Proof.
  assert (R : read_by_extension "staff.csv" = Ok Demo.staff)
    by reflexivity.
  assert (N : display_stop (Some "staff.csv") Demo.staff = None)
    by reflexivity.
  split; [reflexivity |].
  split; [exact R |].
  split; [exact N |].
  destruct (load_selects_first_column "staff.csv" Demo.staff Demo.fresh
              eq_refl R N) as (_ & V & _ & S & _).
  rewrite V, S; split; reflexivity.
Defined.

Lemma plot_histogram_checks_selection_witness :
  df (set_column_var "Salary" Demo.loaded) = Some Demo.staff /\
  getitem Demo.staff "Salary" = None /\
  exec plot_histogram (set_column_var "Salary" Demo.loaded)
    = set_column_var "Salary" Demo.loaded /\
  shown plot_histogram (set_column_var "Salary" Demo.loaded)
    = [ShowWarning "Warning" "Selected column not found!"].
Proof.
  split; [reflexivity |].
  split; [reflexivity |].
  destruct (plot_histogram_checks_selection
              (set_column_var "Salary" Demo.loaded) Demo.staff
              eq_refl (or_intror eq_refl)) as (E & _ & S).
  rewrite E, S; split; reflexivity.
Defined.

Lemma correlation_handlers_need_rows_witness :
  df (set_df (Some (mkDataFrame 0 [("Age", mkSeries int64 []);
                                   ("Income", mkSeries float64_ [])]))
             Demo.fresh)
    = Some (mkDataFrame 0 [("Age", mkSeries int64 []);
                           ("Income", mkSeries float64_ [])]) /\
  column_names
    (select_number (mkDataFrame 0 [("Age", mkSeries int64 []);
                                   ("Income", mkSeries float64_ [])]))
    = ["Age"; "Income"] /\
  shown plot_correlation_heatmap
        (set_df (Some (mkDataFrame 0 [("Age", mkSeries int64 []);
                                      ("Income", mkSeries float64_ [])]))
                Demo.fresh)
    = [ShowWarning "Warning" "No numeric columns for correlation heatmap!"].
Proof.
  split; [reflexivity |].
  split; [reflexivity |].
  destruct (correlation_handlers_need_rows "2024-05-01 10:00:00"
              (set_df (Some (mkDataFrame 0
                               [("Age", mkSeries int64 []);
                                ("Income", mkSeries float64_ [])]))
                      Demo.fresh)
              (mkDataFrame 0 [("Age", mkSeries int64 []);
                              ("Income", mkSeries float64_ [])])
              eq_refl eq_refl) as (_ & H).
  unfold shown; rewrite H; reflexivity.
Defined.

Lemma plot_scatter_needs_two_numeric_witness :
  df Demo.loaded = Some Demo.staff /\
  2 <= List.length (column_names (select_number Demo.staff)) /\
  toplevels (exec plot_scatter Demo.loaded) =
    [mkScatterDialog ["Age"; "Income"; "Level"] "Age" "Income"].
Proof.
  assert (L : 2 <= List.length (column_names (select_number Demo.staff)))
    by (simpl; lia).
  split; [reflexivity |].
  split; [exact L |].
  destruct (plot_scatter_needs_two_numeric Demo.loaded Demo.staff eq_refl)
    as (_ & H).
  destruct (H L) as (T & _).
  rewrite T; reflexivity.
Defined.

Lemma scatter_open_then_create_witness :
  df Demo.loaded = Some Demo.staff /\
  column_names (select_number Demo.staff) = ["Age"; "Income"; "Level"] /\
  toplevels (exec (create_scatter (List.length (toplevels Demo.loaded)))
                  (exec plot_scatter Demo.loaded)) = [] /\
  right_notebook (exec (create_scatter (List.length (toplevels Demo.loaded)))
                       (exec plot_scatter Demo.loaded)) = PlotTab.
Proof.
  split; [reflexivity |].
  split; [reflexivity |].
  destruct (scatter_open_then_create Demo.loaded Demo.staff "Age" "Income"
              ["Level"] eq_refl eq_refl)
    as (xs & ys & _ & _ & _ & T & R & _).
  rewrite T, R; split; reflexivity.
Defined.

Lemma scatter_failure_clears_figure_witness :
  nth_error
    (toplevels (exec (load_data "labels.json") (exec plot_scatter Demo.loaded)))
    0 = Some (mkScatterDialog ["Age"; "Income"; "Level"] "Age" "Income") /\
  df (exec (load_data "labels.json") (exec plot_scatter Demo.loaded))
    = Some Demo.labels_only /\
  getitem Demo.labels_only "Age" = None /\
  fig (exec (create_scatter 0)
            (exec (load_data "labels.json") (exec plot_scatter Demo.loaded)))
    = [EmptyAxes].
Proof.
  assert (K : nth_error
                (toplevels (exec (load_data "labels.json")
                                 (exec plot_scatter Demo.loaded))) 0
              = Some (mkScatterDialog ["Age"; "Income"; "Level"]
                        "Age" "Income")) by reflexivity.
  assert (D : df (exec (load_data "labels.json")
                       (exec plot_scatter Demo.loaded))
              = Some Demo.labels_only) by reflexivity.
  assert (G : getitem Demo.labels_only "Age" = None) by reflexivity.
  split; [exact K |].
  split; [exact D |].
  split; [exact G |].
  destruct (scatter_failure_clears_figure 0 _ _ Demo.labels_only K D
              (or_introl G)) as (F & _).
  exact F.
Defined.

Lemma sessions_stay_consistent_witness :
  reachable
    (apply_event (Invoke "2024-05-01 10:05:00" PlotCorrelationHeatmap)
       (apply_event (Invoke "2024-05-01 10:00:00" (LoadData "staff.csv"))
                    Demo.fresh)) /\
  List.length
    (fig (apply_event (Invoke "2024-05-01 10:05:00" PlotCorrelationHeatmap)
            (apply_event
               (Invoke "2024-05-01 10:00:00" (LoadData "staff.csv"))
               Demo.fresh))) = 2 /\
  In (column_var
        (apply_event (Invoke "2024-05-01 10:05:00" PlotCorrelationHeatmap)
           (apply_event
              (Invoke "2024-05-01 10:00:00" (LoadData "staff.csv"))
              Demo.fresh)))
     ["Age"; "Income"; "Department"; "Level"].
Proof.
  assert (R : reachable
                (apply_event
                   (Invoke "2024-05-01 10:05:00" PlotCorrelationHeatmap)
                   (apply_event
                      (Invoke "2024-05-01 10:00:00" (LoadData "staff.csv"))
                      Demo.fresh))).
  { apply reach_event; [| exact I].
    apply reach_event; [apply reach_start | exact I]. }
  split; [exact R |].
  split; [reflexivity |].
  destruct (sessions_stay_consistent _ R) as (_ & _ & _ & H).
  apply H; discriminate.
Defined.

Lemma dataset_is_never_unloaded_witness :
  df Demo.loaded <> None /\
  read_by_extension "missing.csv" = Raise "No columns to parse from file" /\
  df (exec (run "2024-05-01 10:00:00" (LoadData "missing.csv")) Demo.loaded)
    <> None.
Proof.
  assert (D : df Demo.loaded <> None) by discriminate.
  split; [exact D |].
  split; [reflexivity |].
  apply dataset_is_never_unloaded; exact D.
Defined.

Lemma placeholders_only_notify_witness :
  placeholder PcaAnalysis = true /\
  exists message,
    run "2024-05-01 10:00:00" PcaAnalysis Demo.loaded
    = (Ok tt, Demo.loaded, [ShowInfo "Info" message]).
Proof.
  split; [reflexivity |].
  apply placeholders_only_notify; reflexivity.
Defined.

Lemma handlers_disagree_on_kind_witness :
  df (set_column_var "Level" Demo.loaded) = Some Demo.staff /\
  truthy (column_var (set_column_var "Level" Demo.loaded)) = true /\
  getitem Demo.staff "Level" = Some Demo.level /\
  s_dtype Demo.level = int32 /\
  hist (dropna Demo.level) 30 = Ok tt /\
  fig (exec plot_histogram (set_column_var "Level" Demo.loaded)) =
    [HistAxes "📊 Histogram of Level" "Level" Demo.level 30
       ["Mean: 11/6"; "Std: 6"; "Count: 6"]] /\
  In "📝 CATEGORICAL ANALYSIS:"
     (results_text (exec (analyze_column "2024-05-01 10:00:00")
                         (set_column_var "Level" Demo.loaded))).
Proof.
  assert (K : In (s_dtype Demo.level)
                 [int8; int16; int32; uint8; uint16; uint32; uint64;
                  float16; float32])
    by (right; right; left; reflexivity).
  assert (H : hist (dropna Demo.level) 30 = Ok tt) by reflexivity.
  split; [reflexivity |].
  split; [reflexivity |].
  split; [reflexivity |].
  split; [reflexivity |].
  split; [exact H |].
  destruct (handlers_disagree_on_kind "2024-05-01 10:00:00"
              (set_column_var "Level" Demo.loaded) Demo.staff Demo.level
              eq_refl eq_refl eq_refl K H) as (_ & F & A).
  rewrite F, A; split; [reflexivity | simpl; tauto].
Defined.

Lemma upper_triangle_scan_is_complete_witness :
  (forall i j,
     cm_iloc (corr (select_number Demo.staff)) i j
     = cm_iloc (corr (select_number Demo.staff)) j i) /\
  In ("Age", "Income", Fin (9 # 10))
     (strong_corr (corr (select_number Demo.staff))).
Proof.
  assert (S : forall i j,
             cm_iloc (corr (select_number Demo.staff)) i j
             = cm_iloc (corr (select_number Demo.staff)) j i).
  { intros i j; cbn [cm_iloc corr df_corr Demo.stats].
    rewrite (Nat.eqb_sym i j), (Nat.add_comm i j); reflexivity. }
  split; [exact S |].
  destruct (upper_triangle_scan_is_complete
              (corr (select_number Demo.staff)) S) as (H & _).
  apply (H 1 0); [simpl; lia | simpl; lia | discriminate | reflexivity].
Defined.

End FurtherExamples.

Section ColumnlessExamples.

#[local] Existing Instance stable_sorting.
#[local] Existing Instance Demo.readers_bare.
#[local] Existing Instance Demo.stats.
#[local] Existing Instance Demo.fmt.
#[local] Existing Instance Demo.random.
#[local] Existing Instance Demo.files.
#[local] Existing Instance Demo.plots.

Import Py Pandas.

Lemma columnless_load_breaks_analyze_witness :
  truthy "empty.json" = true /\
  read_by_extension "empty.json" = Ok Demo.bare /\
  columns Demo.bare = [] /\
  truthy (column_var Demo.loaded) = true /\
  result (analyze_column "2024-05-01 10:05:00")
         (exec (load_data "empty.json") Demo.loaded) = Raise "'Age'" /\
  shown plot_histogram (exec (load_data "empty.json") Demo.loaded)
    = [ShowWarning "Warning" "Selected column not found!"].
Proof.
  split; [reflexivity |].
  split; [reflexivity |].
  split; [reflexivity |].
  split; [reflexivity |].
  assert (R : read_by_extension "empty.json" = Ok Demo.bare)
    by reflexivity.
  destruct (columnless_load_breaks_analyze "2024-05-01 10:05:00"
              "empty.json" Demo.bare Demo.loaded
              eq_refl R eq_refl eq_refl) as (_ & A & W).
  split; [exact A | exact W].
Defined.

End ColumnlessExamples.

Section NestedExamples.

#[local] Existing Instance stable_sorting.
#[local] Existing Instance Demo.readers_nested.
#[local] Existing Instance Demo.stats.
#[local] Existing Instance Demo.fmt.
#[local] Existing Instance Demo.random.
#[local] Existing Instance Demo.files.
#[local] Existing Instance Demo.plots.

Import Py Pandas.

Lemma load_failing_in_view_keeps_table_witness :
  truthy "nested.json" = true /\
  read_by_extension "nested.json" = Ok Demo.labels_only /\
  display_stop (Some "nested.json") Demo.labels_only
    = Some (0, "The truth value of an array with more than one element is ambiguous. Use a.any() or a.all()") /\
  df (exec (load_data "nested.json") Demo.loaded) = Some Demo.labels_only /\
  column_combo (exec (load_data "nested.json") Demo.loaded)
    = ["Age"; "Income"; "Department"; "Level"] /\
  column_var (exec (load_data "nested.json") Demo.loaded) = "Age".
Proof.
  assert (R : read_by_extension "nested.json" = Ok Demo.labels_only)
    by reflexivity.
  assert (N : display_stop (Some "nested.json") Demo.labels_only
              = Some (0, "The truth value of an array with more than one element is ambiguous. Use a.any() or a.all()"))
    by reflexivity.
  split; [reflexivity |].
  split; [exact R |].
  split; [exact N |].
  destruct (load_failing_in_view_keeps_table "nested.json" Demo.labels_only
              0 _ Demo.loaded eq_refl R N)
    as (D & _ & _ & _ & _ & B & V & _).
  rewrite D, B, V; repeat split.
Defined.

End NestedExamples.

Section FailingSummaryExamples.

#[local] Existing Instance stable_sorting.
#[local] Existing Instance Demo.stats.
#[local] Existing Instance Demo.files.
#[local] Existing Instance Demo.plots.

Import Py Pandas.

Lemma summary_failure_may_clear_results_witness :
  let failing : Fmt := {|
    fmt_f := @fmt_f Demo.fmt;
    fmt_int := @fmt_int Demo.fmt;
    fmt_comma := @fmt_comma Demo.fmt;
    str_cell := @str_cell Demo.fmt;
    corr_to_string := @corr_to_string Demo.fmt;
    counts_to_string := @counts_to_string Demo.fmt;
    data_info := @data_info Demo.fmt;
    describe_to_string := fun _ => Ok "describe";
    additional_statistics := fun _ => Raise "float division by zero"
  |} in
  df Demo.loaded = Some Demo.staff /\
  results_text Demo.loaded <> [] /\
  results_text
    (exec (show_statistical_summary (fmt := failing) "2024-05-01 10:00:00")
          Demo.loaded) = [] /\
  right_notebook
    (exec (show_statistical_summary (fmt := failing) "2024-05-01 10:00:00")
          Demo.loaded) = PlotTab.
Proof.
  intros failing.
  split; [reflexivity |].
  split; [discriminate |].
  destruct (summary_failure_may_clear_results (fmt := failing)
              "2024-05-01 10:00:00" Demo.loaded Demo.staff
              "float division by zero" eq_refl) as (_ & H).
  destruct (H "describe" eq_refl eq_refl) as (T & N & _).
  rewrite T, N; split; reflexivity.
Defined.

End FailingSummaryExamples.
